(** * mlflow-pyfunc-server: reconciliation, provisioning and handler invocation

    A shallow embedding of [mlflow_pyfunc_server/server.py] and
    [mlflow_pyfunc_server/basehandler.py].

    - Python values that the code builds (example payloads, outputs) are
      an inductive type [pyval]; dictionaries are [gmap string _].
    - Exceptions are values of [exn]; a computation that may raise
      returns a [result].
    - Everything outside the Python process (file system, subprocesses,
      the registry, numpy, pydantic) is reached through the primitives of
      the class [OS], over an abstract world state.  Each primitive call
      is appended to a trace of [Event]s so that statements such as
      "no provisioning happens" can be read off the trace. *)

From Stdlib Require Import ZArith List String Ascii Bool Lia.
From stdpp Require Import base option list gmap strings fin_maps pretty.

Local Open Scope string_scope.
Local Open Scope Z_scope.

Local Set Warnings "-register-all".

(** ** Exceptions and results *)

(** A Python exception, an instance of a subclass of [Exception]: its
    class name and [str(ex)].  [HTTPException]
    is fastapi's, as the handler raises it itself: its status code and,
    from the one entry of its detail, the location tag, the message and
    the rendered type of the underlying exception. *)
Inductive exn : Type :=
| PyExc (cls : string) (msg : string)
| HTTPException (status_code : Z) (loc : string) (msg : string) (ty : string).

(** [str(ex)].  The [HTTPException] is built with keyword arguments
    only, so its [args] are empty and [str] of it is the empty string. *)
Definition str_exn (e : exn) : string :=
  match e with
  | PyExc _ msg => msg
  | HTTPException _ _ _ _ => ""
  end.

(** [str(type(ex))] *)
Definition type_exn (e : exn) : string :=
  match e with
  | PyExc cls _ => "<class '" ++ cls ++ "'>"
  | HTTPException _ _ _ _ => "<class 'fastapi.exceptions.HTTPException'>"
  end.

Definition IndexError : exn := PyExc "IndexError" "list index out of range".
Definition DelIndexError : exn :=
  PyExc "IndexError" "list assignment index out of range".
Definition KeyError (k : string) : exn := PyExc "KeyError" ("'" ++ k ++ "'").
Definition RecursionError : exn :=
  PyExc "RecursionError" "maximum recursion depth exceeded".
Definition AttributeError (obj attr : string) : exn :=
  PyExc "AttributeError"
        ("'" ++ obj ++ "' object has no attribute '" ++ attr ++ "'").
Definition ValueError (msg : string) : exn := PyExc "ValueError" msg.

Inductive result (A : Type) : Type :=
| Ok (a : A)
| Raise (e : exn).
Arguments Ok {A} a.
Arguments Raise {A} e.

Definition result_bind {A B} (r : result A) (k : A -> result B) : result B :=
  match r with
  | Ok a => k a
  | Raise e => Raise e
  end.

#[export] Instance result_ret : MRet result := @Ok.
#[export] Instance result_mbind : MBind result := fun A B k r => result_bind r k.

(** [try: r  except: default] for a computation without side effects. *)
Definition or_default {A} (r : result A) (default : A) : A :=
  match r with
  | Ok a => a
  | Raise _ => default
  end.

(** ** Python values *)

(** A float literal is kept as written in the source: [PyFloat m e] is
    the decimal [m * 10^e], so [1.234] is [PyFloat 1234 (-3)]. *)
Inductive pyval : Type :=
| PyNone
| PyInt (z : Z)
| PyFloat (mantissa : Z) (exp10 : Z)
| PyStr (s : string)
| PyList (l : list pyval).

(** [[x] * k]: list repetition; a count that is zero or negative gives
    the empty list. *)
Definition py_repeat (x : pyval) (k : Z) : pyval :=
  PyList (replicate (Z.to_nat k) x).

(** Number of list levels above the scalars: [depth [[1,1],[1,1]] = 2],
    and an empty list still counts as one level. *)
Fixpoint depth (v : pyval) : nat :=
  match v with
  | PyList l => S (fold_right (fun x acc => Nat.max (depth x) acc) 0%nat l)
  | _ => 0%nat
  end.

(** [has_shape dims leaf v]: at nesting level [i] every list of [v] has
    exactly [dims !! i] elements, and below the last level sits [leaf]. *)
Fixpoint has_shape (dims : list nat) (leaf : pyval) (v : pyval) : Prop :=
  match dims with
  | [] => v = leaf
  | d :: ds =>
      match v with
      | PyList l => length l = d /\ Forall (has_shape ds leaf) l
      | _ => False
      end
  end.

(** ** basehandler.py: the dtype sample table and example synthesis *)

(** [BaseHandler.dtype_sample] *)
Definition dtype_sample : gmap string pyval :=
  list_to_map
    [ ("float64", PyFloat 1234 (-3));
      ("float32", PyFloat 1234 (-3));
      ("int", PyInt 1);
      ("int64", PyInt 1);
      ("int32", PyInt 1);
      ("str", PyStr "A");
      ("object", PyStr "?") ].

(** [BaseHandler.get_nested].  The source tests [len(shape) == 1]; every
    other length, the empty shape included, takes the recursive branch on
    [shape[1:]].  For the empty shape that recursion never reaches
    length one, and Python ends it with [RecursionError]. *)
Fixpoint get_nested (dtype : string) (shape : list Z) : result pyval :=
  match shape with
  | [] => Raise RecursionError
  | [d] =>
      match dtype_sample !! dtype with
      | Some sample => Ok (py_repeat sample d)
      | None => Raise (KeyError dtype)
      end
  | d :: rest =>
      result_bind (get_nested dtype rest)
                  (fun inner => Ok (py_repeat inner (Z.max 1 d)))
  end.

(** The extents of the example that [get_nested] builds for a shape:
    [max(1, d)] for every dimension but the last, and [d] itself (zero
    when negative) for the last. *)
Definition example_extents (shape : list Z) : list nat :=
  (map (fun d => Z.to_nat (Z.max 1 d)) (removelast shape)
   ++ [Z.to_nat (List.last shape 0)])%list.

(** ** Data model *)

(** config.py: the parsed command line. *)
Record Config : Type := mkConfig {
  host : string;
  port : Z;
  basepath : string;
  workers : Z;
  timer : Z;
  staging : bool;
  tags : list string;
  token : list string;
  mlflow : string;
  mlflow_token : option string;
  mlflow_noverify : bool
}.

(** A model version as listed by the registry client. *)
Record ModelVersion : Type := mkModelVersion {
  mv_version : string;
  mv_run_id : string;
  mv_source : string;
  mv_current_stage : string;
  mv_creation_timestamp : Z
}.

(** A registered model as listed by the registry client. *)
Record RegisteredModel : Type := mkRegisteredModel {
  m_name : string;
  m_tags : gmap string string;
  m_description : option string;
  m_latest_versions : list ModelVersion
}.

(** One element of [schema.to_dict()]: a dictionary with an optional
    ["name"], a ["type"], and for tensors a ["tensor-spec"] holding
    ["dtype"] and ["shape"]. *)
Record TensorSpec : Type := mkTensorSpec {
  ts_dtype : string;
  ts_shape : list Z
}.

Record SchemaField : Type := mkSchemaField {
  el_name : option string;
  el_type : string;
  el_tensor_spec : option TensorSpec
}.

Definition Schema : Type := list SchemaField.

(** What [_Model.load] gives: each schema getter may raise, return
    [None], or return a schema. *)
Record Metadata : Type := mkMetadata {
  md_input_schema : result (option Schema);
  md_output_schema : result (option Schema)
}.

(** numpy arrays, as far as the handler looks at them: a dtype name and
    the nested data that [tolist()] returns. *)
Record ndarray : Type := mkNdarray {
  nd_dtype : string;
  nd_tolist : pyval
}.

(** Input handed to the predictor: [np.array([])] when the route takes
    no input, a dictionary of arrays otherwise. *)
Inductive np_input : Type :=
| NpEmpty
| NpDict (d : gmap string ndarray).

(** A value of the dictionary a predictor returns. *)
Inductive outval : Type :=
| OArray (a : ndarray)
| OPlain (v : pyval).

(** What a predictor returns: a [pandas.DataFrame] (column labels with
    their values, in column order), a dictionary, or anything else. *)
Inductive model_output : Type :=
| OutDataFrame (columns : list (string * list pyval))
| OutDict (d : gmap string outval)
| OutOther (cls : string).

Definition Predictor : Type := np_input -> result model_output.

(** A route of the FastAPI application.  [r_run_id] identifies the
    handler whose [apply_model] the endpoint function closes over;
    routes that the framework or [Server.__init__] installed have none. *)
Record Route : Type := mkRoute {
  r_path : string;
  r_method : string;
  r_name : string;
  r_secured : bool;
  r_run_id : option string
}.

(** The attributes of a [BaseHandler] instance.  [h_model] is optional
    because [__init__] never assigns [self.model]; only [load] does. *)
Record BaseHandler : Type := mkBaseHandler {
  h_m : RegisteredModel;
  h_name : string;
  h_model_version_source : string;
  h_run_id : string;
  h_work_folder : string;
  h_model_folder : string;
  h_port : Z;
  h_input_example_data : gmap string pyval;
  h_version : string;
  h_source : string;
  h_input_schema : Schema;
  h_output_schema : Schema;
  h_description : option string;
  h_creation : string;
  h_input_schema_class : option (gmap string pyval);
  h_output_schema_class : option (gmap string pyval);
  h_model : option Predictor
}.

(** The attributes of the [Server] instance that the code below reads
    or writes.  [full_cache_dir] is read by [BaseHandler.__init__] but
    [Server.__init__] does not assign it, so it is optional here. *)
Record Server : Type := mkServer {
  config : Config;
  full_cache_dir : option string;
  model_dict : gmap string BaseHandler;
  error_dict : gmap string string;
  routes : list Route;
  openapi_schema : option string
}.

Definition set_model_dict (f : gmap string BaseHandler -> gmap string BaseHandler)
    (s : Server) : Server :=
  mkServer (config s) (full_cache_dir s) (f (model_dict s)) (error_dict s)
           (routes s) (openapi_schema s).

Definition set_error_dict (f : gmap string string -> gmap string string)
    (s : Server) : Server :=
  mkServer (config s) (full_cache_dir s) (model_dict s) (f (error_dict s))
           (routes s) (openapi_schema s).

Definition set_routes (f : list Route -> list Route) (s : Server) : Server :=
  mkServer (config s) (full_cache_dir s) (model_dict s) (error_dict s)
           (f (routes s)) (openapi_schema s).

Definition set_openapi_schema (v : option string) (s : Server) : Server :=
  mkServer (config s) (full_cache_dir s) (model_dict s) (error_dict s)
           (routes s) v.

(** ** Python string functions used by the code *)

Definition nl : string := String (ascii_of_nat 10) EmptyString.

(** [needle in hay] on strings: substring test. *)
Fixpoint str_contains (needle hay : string) : bool :=
  String.prefix needle hay
  || match hay with
     | EmptyString => false
     | String _ rest => str_contains needle rest
     end.

(** [s.rstrip(chars)]: drop every trailing character that satisfies [p]. *)
Fixpoint rstrip (p : ascii -> bool) (s : string) : string :=
  match s with
  | EmptyString => EmptyString
  | String c rest =>
      match rstrip p rest with
      | EmptyString => if p c then EmptyString else String c EmptyString
      | rest' => String c rest'
      end
  end.

Fixpoint lstrip (p : ascii -> bool) (s : string) : string :=
  match s with
  | EmptyString => EmptyString
  | String c rest => if p c then lstrip p rest else s
  end.

Definition is_newline (c : ascii) : bool := Ascii.eqb c (ascii_of_nat 10).

(** [s.split("/")[-1]]: what follows the last slash, the whole string
    when there is none.  [cur] is the segment read so far. *)
Fixpoint last_segment (cur : string) (s : string) : string :=
  match s with
  | EmptyString => cur
  | String c rest =>
      if Ascii.eqb c "/" then last_segment EmptyString rest
      else last_segment (cur ++ String c EmptyString) rest
  end.

(** [urllib.parse.quote_plus] with its default arguments, on the UTF-8
    bytes of the name: letters, digits and [_.-~] stay, a space becomes
    [+], every other byte becomes [%XX] in upper-case hexadecimal. *)
Definition always_safe (c : ascii) : bool :=
  let n := nat_of_ascii c in
  ((65 <=? n) && (n <=? 90) || (97 <=? n) && (n <=? 122)
   || (48 <=? n) && (n <=? 57)
   || (n =? 95) || (n =? 46) || (n =? 45) || (n =? 126))%nat.

Definition hex_digit (n : nat) : ascii :=
  match String.get n "0123456789ABCDEF" with
  | Some c => c
  | None => "0"%char
  end.

Definition quote_byte (c : ascii) : string :=
  if always_safe c then String c EmptyString
  else if Ascii.eqb c " " then "+"
  else String "%" (String (hex_digit (nat_of_ascii c / 16))
                  (String (hex_digit (nat_of_ascii c mod 16)) EmptyString)).

Fixpoint quote_plus (s : string) : string :=
  match s with
  | EmptyString => EmptyString
  | String c rest => quote_byte c ++ quote_plus rest
  end.

(** The [int] of the simulated world, where version strings are ASCII:
    surrounding white space (tab to carriage return, and space) is
    dropped, then an optional sign, then decimal digits in which single
    underscores may separate digits.  Anything else is a [ValueError].
    The model itself takes [int] as a primitive of the platform. *)
Definition is_space (c : ascii) : bool :=
  let n := nat_of_ascii c in
  ((9 <=? n) && (n <=? 13) || (n =? 32))%nat.

Definition digit_of (c : ascii) : option Z :=
  let n := Z.of_nat (nat_of_ascii c) in
  if (48 <=? n) && (n <=? 57) then Some (n - 48) else None.

Fixpoint parse_digits (acc : Z) (after_digit : bool) (s : string) : option Z :=
  match s with
  | EmptyString => if after_digit then Some acc else None
  | String c rest =>
      match digit_of c with
      | Some d => parse_digits (10 * acc + d) true rest
      | None =>
          if Ascii.eqb c "_" && after_digit then parse_digits acc false rest
          else None
      end
  end.

Definition ascii_int (s : string) : result Z :=
  let body := rstrip is_space (lstrip is_space s) in
  let parsed :=
    match body with
    | String "-" rest => Z.opp <$> parse_digits 0 false rest
    | String "+" rest => parse_digits 0 false rest
    | _ => parse_digits 0 false body
    end in
  match parsed with
  | Some z => Ok z
  | None =>
      Raise (ValueError ("invalid literal for int() with base 10: '" ++ s ++ "'"))
  end.

(** ** server.py: desired-version selection *)

Definition has_stage (stage : string) (mm : ModelVersion) : bool :=
  String.eqb (mv_current_stage mm) stage.

(** [xs[0]] *)
Definition first_item {A} (xs : list A) : result A :=
  match xs with
  | x :: _ => Ok x
  | [] => Raise IndexError
  end.

(** [Server.get_version] *)
Definition get_version (cfg : Config) (m : RegisteredModel) : result ModelVersion :=
  let prod_models := List.filter (has_stage "Production") (m_latest_versions m) in
  let stage_models := List.filter (has_stage "Staging") (m_latest_versions m) in
  if staging cfg && (0 <? length stage_models)%nat then first_item stage_models
  else if (0 <? length prod_models)%nat then first_item prod_models
  else first_item (m_latest_versions m).

(** The selection rule as the specification words it, for comparison
    with [get_version]: the first Staging version when staging is
    preferred and one exists, else the first Production version when one
    exists, else the first listed version. *)
Definition stage_preference_spec (prefer_staging : bool)
    (versions : list ModelVersion) : option ModelVersion :=
  if prefer_staging && existsb (has_stage "Staging") versions
  then List.find (has_stage "Staging") versions
  else if existsb (has_stage "Production") versions
  then List.find (has_stage "Production") versions
  else head versions.

(** ** The outside world *)

(** The calls the code makes outside the Python process, indexed by the
    type of what they return.  File objects are named by their path. *)
Inductive Call : Type -> Type :=
| list_registered_models : Call (list RegisteredModel)
| mkdir (path : string) : Call unit
| path_exists (path : string) : Call bool
| open_append (path : string) : Call unit
| file_write (path text : string) : Call unit
| file_flush (path : string) : Call unit
| file_close (path : string) : Call unit
| download_artifact (artifact_uri output_path : string) : Call unit
| subprocess_run (argv : list string) (cwd : string) : Call Z
| readlines (path : string) : Call (list string)
| glob (pattern : string) : Call (list string)
| get_default_pip_requirements : Call (list string)
| bind_probe (host : string) : Call Z
| popen (command cwd log : string) : Call unit
| communicate (input : string) (timeout : Z) : Call unit
| model_load (path : string) : Call Metadata
| json_load (path : string) : Call (gmap string pyval)
| fromtimestamp_strftime (timestamp_ms : Z) (format : string) : Call string
| pydantic_model (name : string) (namespace : gmap string pyval) : Call unit
| pydantic_instance (name : string) : Call unit.

(** One entry of the trace: a call and what it answered.  For
    [subprocess_run] the answer is the exit status. *)
Inductive Event : Type :=
| Called {A : Type} (c : Call A) (r : result A).

(** The primitives: one oracle for all calls, threading the world, and
    the pure library functions and builtins of the platform, of which
    nothing is assumed: [os.path.join], [os.path.basename],
    [np.array(val).astype(dtype)], [np.dtype(name).name] and [int(s)] on
    a string. *)
Class OS (W : Type) : Type := mkOS {
  os_call : forall {A : Type}, W -> Call A -> W * result A;
  path_join : string -> string -> string;
  path_basename : string -> string;
  np_astype : pyval -> string -> result ndarray;
  np_dtype_name : string -> string;
  py_int : string -> result Z
}.

(** The processes a trace ran, in order: arguments, working directory
    and exit status (or the exception when the process did not start). *)
Definition process_of (ev : Event) : list (list string * string * result Z) :=
  match ev with
  | Called c r =>
      match c in Call A return result A -> list (list string * string * result Z) with
      | subprocess_run argv cwd => fun r => [(argv, cwd, r)]
      | _ => fun _ => []
      end r
  end.

Definition processes (tr : list Event) : list (list string * string * result Z) :=
  flat_map process_of tr.

(** What a trace asked of the file system while provisioning, in order:
    the patterns given to [glob] with what it found, the paths given to
    [os.path.exists] with its answers, and the readings of the
    requirements, from a file or, for [None], mlflow's defaults. *)
Definition glob_of (ev : Event) : list (string * result (list string)) :=
  match ev with
  | Called c r =>
      match c in Call A return result A -> list (string * result (list string)) with
      | glob pattern => fun r => [(pattern, r)]
      | _ => fun _ => []
      end r
  end.

Definition globs (tr : list Event) : list (string * result (list string)) :=
  flat_map glob_of tr.

Definition path_check_of (ev : Event) : list (string * result bool) :=
  match ev with
  | Called c r =>
      match c in Call A return result A -> list (string * result bool) with
      | path_exists path => fun r => [(path, r)]
      | _ => fun _ => []
      end r
  end.

Definition path_checks (tr : list Event) : list (string * result bool) :=
  flat_map path_check_of tr.

Definition requirement_read_of (ev : Event)
    : list (option string * result (list string)) :=
  match ev with
  | Called c r =>
      match c in Call A
            return result A -> list (option string * result (list string)) with
      | readlines path => fun r => [(Some path, r)]
      | get_default_pip_requirements => fun r => [(None, r)]
      | _ => fun _ => []
      end r
  end.

Definition requirement_reads (tr : list Event)
    : list (option string * result (list string)) :=
  flat_map requirement_read_of tr.

(** Calls that provision or start something: artifact download, process
    runs and launches.  A trace without them did no provisioning. *)
Definition is_provisioning (ev : Event) : bool :=
  match ev with
  | Called c _ =>
      match c with
      | download_artifact _ _ | subprocess_run _ _ | popen _ _ _ => true
      | _ => false
      end
  end.

Section Model.

Context {W : Type} `{!OS W}.

(** ** State, trace and exceptions *)

Record State : Type := mkState {
  world : W;
  server : Server
}.

(** A computation starts in a state and ends in a state, with the trace
    of the calls it made and either a value or a raised exception.
    State changes made before an exception is raised stay. *)
Definition M (A : Type) : Type := State -> State * list Event * result A.

Definition ret {A} (a : A) : M A := fun st => (st, [], Ok a).

Definition raise {A} (e : exn) : M A := fun st => (st, [], Raise e).

Definition bind {A B} (m : M A) (k : A -> M B) : M B :=
  fun st =>
    match m st with
    | (st1, t1, Ok a) =>
        match k a st1 with
        | (st2, t2, r) => (st2, (t1 ++ t2)%list, r)
        end
    | (st1, t1, Raise e) => (st1, t1, Raise e)
    end.

#[export] Instance M_ret : MRet M := @ret.
#[export] Instance M_bind : MBind M := fun A B k m => bind m k.

(** [try: body  except Exception as ex: handler ex] *)
Definition try_except {A} (body : M A) (handler : exn -> M A) : M A :=
  fun st =>
    match body st with
    | (st1, t1, Ok a) => (st1, t1, Ok a)
    | (st1, t1, Raise e) =>
        match handler e st1 with
        | (st2, t2, r) => (st2, (t1 ++ t2)%list, r)
        end
    end.

Definition lift {A} (r : result A) : M A := fun st => (st, [], r).

Definition call {A} (c : Call A) : M A :=
  fun st =>
    match os_call (world st) c with
    | (w', r) => (mkState w' (server st), [Called c r], r)
    end.

Definition get_server : M Server := fun st => (st, [], Ok (server st)).

Definition modify_server (f : Server -> Server) : M unit :=
  fun st => (mkState (world st) (f (server st)), [], Ok tt).

(** [for x in xs: body x] *)
Fixpoint for_each {A} (xs : list A) (body : A -> M unit) : M unit :=
  match xs with
  | [] => ret tt
  | x :: rest => bind (body x) (fun _ => for_each rest body)
  end.

(** ** basehandler.py: provisioning *)

(** [BaseHandler._setup_model], reading [self.work_folder],
    [self.model_folder] and [self.model_version_source].  The value
    returned by each [subprocess.run] is bound and not used. *)
Definition _setup_model (work_folder model_folder model_version_source : string)
    : M unit :=
  let setup_logfile :=
    path_join work_folder (path_basename model_folder ++ "_setup_log.txt") in
  call (open_append setup_logfile);;
  call (file_write setup_logfile ("Start download " ++ model_folder ++ nl));;
  call (file_flush setup_logfile);;
  call (download_artifact model_version_source work_folder);;
  call (file_write setup_logfile ("End download " ++ model_folder ++ nl));;
  call (file_flush setup_logfile);;
  result_env ← call (subprocess_run ["python"; "-m"; "venv"; "env"] model_folder);
  call (file_flush setup_logfile);;
  let env_pip := path_join model_folder "./env/Scripts/pip" in
  let req_file := path_join model_folder "requirements.txt" in
  has_req_file ← call (path_exists req_file);
  req ← (if has_req_file : bool then call (readlines req_file)
         else call get_default_pip_requirements);
  lib_folders ← call (glob (path_join model_folder "code/*"));
  let req :=
    fold_left
      (fun req lib_folder =>
         List.filter (fun r => negb (str_contains (path_basename lib_folder) r)) req)
      lib_folders req in
  let req := map (rstrip is_newline) req in
  call (file_write setup_logfile ("Install req:" ++ nl));;
  for_each req (fun r => call (file_write setup_logfile (r ++ nl)));;
  call (file_flush setup_logfile);;
  result_pip ← call (subprocess_run (env_pip :: "install" :: req) model_folder);
  call (file_flush setup_logfile);;
  lib_folders ← call (glob (path_join model_folder "code/*"));
  for_each lib_folders
    (fun lib_folder =>
       let lib_req_file := path_join lib_folder "requirements.txt" in
       has_lib_req ← call (path_exists lib_req_file);
       (if has_lib_req : bool
        then result_pip ← call (subprocess_run
                                  [env_pip; "install"; "-r"; lib_req_file]
                                  model_folder);
             ret tt
        else ret tt);;
       call (file_flush setup_logfile);;
       result_lib ← call (subprocess_run
                            [path_join model_folder "./env/Scripts/python";
                             "./setup.py"; "build"; "install"]
                            lib_folder);
       call (file_flush setup_logfile));;
  call (file_close setup_logfile).

(** ** basehandler.py: supervision *)

(** [BaseHandler._get_free_port]: bind to port 0, read the port the
    system chose, close the socket. *)
Definition _get_free_port : M Z := call (bind_probe "127.0.0.1").

(** [BaseHandler._start_server].  Whatever [communicate] raises, the
    15 second timeout included, is swallowed by the bare [except]. *)
Definition _start_server (work_folder model_folder : string) (port : Z) : M unit :=
  let serve_logfile :=
    path_join work_folder (path_basename model_folder ++ "_servelog.txt") in
  call (open_append serve_logfile);;
  let indent := "        " in
  let cmd :=
    nl ++ indent ++ path_join model_folder "./env/Scripts/activate"
       ++ nl ++ indent ++ path_join model_folder "./env/Scripts/mlflow.exe"
       ++ " models serve -m . --no-conda --port " ++ pretty port
       ++ nl ++ indent ++ nl ++ indent in
  call (popen "cmd.exe" model_folder serve_logfile);;
  try_except (call (communicate cmd 15)) (fun _ => ret tt);;
  call (file_flush serve_logfile).

(** [BaseHandler._get_input_example] *)
Definition _get_input_example (model_folder : string) : M (gmap string pyval) :=
  try_except (call (json_load (path_join model_folder "input_example.json")))
             (fun _ => ret ∅).

(** ** basehandler.py: schemas and examples *)

(** [BaseHandler.get_example_el] *)
Definition get_example_el (el : SchemaField) : result pyval :=
  if String.eqb (el_type el) "tensor" then
    match el_tensor_spec el with
    | Some spec => get_nested (ts_dtype spec) (ts_shape spec)
    | None => Raise (KeyError "tensor-spec")
    end
  else Ok PyNone.

(** [{el["name"]: el["tensor-spec"]["dtype"] for el in ... if "name" in el}] *)
Fixpoint input_types (els : Schema) (types : gmap string string)
    : result (gmap string string) :=
  match els with
  | [] => Ok types
  | el :: rest =>
      match el_name el with
      | None => input_types rest types
      | Some name =>
          match el_tensor_spec el with
          | Some spec => input_types rest (<[name := ts_dtype spec]> types)
          | None => Raise (KeyError "tensor-spec")
          end
      end
  end.

Fixpoint astype_items (types : gmap string string) (items : list (string * pyval))
    (acc : gmap string ndarray) : result (gmap string ndarray) :=
  match items with
  | [] => Ok acc
  | (key, val) :: rest =>
      match types !! key with
      | None => Raise (KeyError key)
      | Some dtype =>
          arr ← np_astype val dtype;
          astype_items types rest (<[key := arr]> acc)
      end
  end.

(** [BaseHandler.numpy_input]; [data] is the dictionary's items. *)
Definition numpy_input (data : list (string * pyval)) (input_cfg : Schema)
    : result (gmap string ndarray) :=
  types ← input_types input_cfg ∅;
  astype_items types data ∅.

(** [DataFrame.to_dict(orient="list")]: a later column with the same
    label replaces an earlier one. *)
Definition dataframe_to_dict (columns : list (string * list pyval))
    : gmap string pyval :=
  fold_left (fun d col => <[col.1 := PyList col.2]> d) columns ∅.

(** [BaseHandler.parse_output] *)
Definition parse_output (data : model_output) : result (gmap string pyval) :=
  match data with
  | OutDataFrame columns => Ok (dataframe_to_dict columns)
  | OutDict d =>
      Ok ((fun val => match val with
                      | OArray a => nd_tolist a
                      | OPlain v => v
                      end) <$> d)
  | OutOther cls => Raise (AttributeError cls "items")
  end.

Definition is_array (val : outval) : bool :=
  match val with
  | OArray _ => true
  | OPlain _ => false
  end.

(** [{k: v.tolist() for k, v in output_example_data.items()}] *)
Definition tolist_items (data : model_output) : result (gmap string pyval) :=
  match data with
  | OutDataFrame columns => Ok (dataframe_to_dict columns)
  | OutDict d =>
      if bool_decide (map_Forall (fun _ val => is_array val = true) d)
      then Ok ((fun val => match val with
                           | OArray a => nd_tolist a
                           | OPlain v => v
                           end) <$> d)
      else Raise (AttributeError "list" "tolist")
  | OutOther cls => Raise (AttributeError cls "items")
  end.

(** The class namespace of a generated schema class: for each element
    its bundled example when there is one, else the synthesized one.
    [skip_unnamed] is the [if "name" in el] filter of the input class;
    without it an element that has no name raises [KeyError]. *)
Fixpoint example_namespace (skip_unnamed : bool) (examples : gmap string pyval)
    (els : Schema) (acc : gmap string pyval) : result (gmap string pyval) :=
  match els with
  | [] => Ok acc
  | el :: rest =>
      match el_name el with
      | None =>
          if skip_unnamed then example_namespace skip_unnamed examples rest acc
          else Raise (KeyError "name")
      | Some name =>
          v ← match examples !! name with
              | Some v => Ok v
              | None => get_example_el el
              end;
          example_namespace skip_unnamed examples rest (<[name := v]> acc)
      end
  end.

(** [BaseHandler.update_schema_classes].  A [Schema] object is truthy,
    so both classes are generated.  The prediction on the example input
    sits in a [try] with a bare [except] and gives [{}] on any failure,
    which includes the missing [self.model] during [__init__]. *)
Definition update_schema_classes (h : BaseHandler) : M BaseHandler :=
  input_ns ← lift (example_namespace true (h_input_example_data h)
                                     (h_input_schema h) ∅);
  call (pydantic_model (h_name h ++ "-input") input_ns);;
  let output_example_data :=
    or_default
      (np_input ← numpy_input (map_to_list (h_input_example_data h))
                              (h_input_schema h);
       predict ← match h_model h with
                 | Some predict => Ok predict
                 | None => Raise (AttributeError "BaseHandler" "model")
                 end;
       out ← predict (NpDict np_input);
       tolist_items out)
      ∅ in
  output_ns ← lift (example_namespace false output_example_data
                                      (h_output_schema h) ∅);
  call (pydantic_model (h_name h ++ "-output") output_ns);;
  call (pydantic_instance (h_name h ++ "-input"));;
  call (pydantic_instance (h_name h ++ "-output"));;
  ret (mkBaseHandler (h_m h) (h_name h) (h_model_version_source h) (h_run_id h)
         (h_work_folder h) (h_model_folder h) (h_port h)
         (h_input_example_data h) (h_version h) (h_source h)
         (h_input_schema h) (h_output_schema h) (h_description h)
         (h_creation h) (Some input_ns) (Some output_ns) (h_model h)).

(** [BaseHandler.register_route]: the four decorated endpoint functions
    differ in method (GET without inputs, POST with a typed body) and in
    whether the bearer token is checked; each appends one route. *)
Definition register_route (h : BaseHandler) : M unit :=
  s ← get_server;
  let method :=
    if bool_decide (h_input_schema_class h = None)
       || (length (h_input_schema h) =? 0)%nat
    then "GET" else "POST" in
  let secured := (0 <? length (token (config s)))%nat in
  modify_server
    (set_routes
       (fun rs => (rs ++ [mkRoute (basepath (config s) ++ "/" ++ h_name h)
                                  method (h_name h) secured
                                  (Some (h_run_id h))])%list)).

(** The two provenance fields that [__init__] appends to the output
    schema: [TensorSpec(np.dtype("int"), [1], "x__version")] and
    [TensorSpec(np.dtype("str"), [1], "x__mlflow_id")], as [to_dict]
    shows them. *)
Definition provenance_fields : Schema :=
  [ mkSchemaField (Some "x__version") "tensor"
                  (Some (mkTensorSpec (np_dtype_name "int") [1]));
    mkSchemaField (Some "x__mlflow_id") "tensor"
                  (Some (mkTensorSpec (np_dtype_name "str") [1])) ].

(** A schema getter wrapped in [try/except] with [None] as fall-back,
    followed by [if not schema: schema = Schema([])]. *)
Definition schema_or_empty (getter : result (option Schema)) : Schema :=
  match getter with
  | Ok (Some schema) => schema
  | _ => []
  end.

(** ** basehandler.py: construction *)

(** [BaseHandler.__init__].  The steps are: the work folders, the
    provisioning when the model folder is not there yet, the port and
    the inference process, the metadata with its schemas and example,
    the schema classes, and last the route.  The [long_description]
    string is left out: building it cannot raise (the schema renderings
    sit in [try/except]) and nothing below reads it. *)
Definition BaseHandler_init (m : RegisteredModel) (model_version : ModelVersion)
    : M BaseHandler :=
  srv ← get_server;
  let source := mv_source model_version in
  let run_id := mv_run_id model_version in
  cache ← match full_cache_dir srv with
          | Some dir => ret dir
          | None => raise (AttributeError "Server" "full_cache_dir")
          end;
  let work_folder := path_join cache run_id in
  let model_folder := path_join work_folder (last_segment "" source) in
  call (mkdir work_folder);;
  model_folder_exists ← call (path_exists model_folder);
  (if model_folder_exists : bool then ret tt
   else _setup_model work_folder model_folder source);;
  port ← _get_free_port;
  _start_server work_folder model_folder port;;
  metadata ← call (model_load (path_join model_folder "MLmodel"));
  let input_schema := schema_or_empty (md_input_schema metadata) in
  let output_schema := schema_or_empty (md_output_schema metadata) in
  input_example_data ← _get_input_example model_folder;
  let output_schema := (output_schema ++ provenance_fields)%list in
  creation ← call (fromtimestamp_strftime (mv_creation_timestamp model_version)
                                          "%Y-%m-%d %H:%M");
  self ← update_schema_classes
           (mkBaseHandler m (m_name m) source run_id work_folder model_folder
              port input_example_data (mv_version model_version) source
              input_schema output_schema (m_description m) creation
              None None None);
  register_route self;;
  ret self.

(** ** basehandler.py: invocation *)

(** [BaseHandler.get_error_message] (the call to the logger is not part
    of the model). *)
Definition get_error_message (loc : string) (ex : exn) : exn :=
  HTTPException 442 loc (str_exn ex) (type_exn ex).

(** [try: r  except Exception as ex: raise self.get_error_message(loc, ex)] *)
Definition reraise_as {A} (loc : string) (r : result A) : result A :=
  match r with
  | Ok a => Ok a
  | Raise ex => Raise (get_error_message loc ex)
  end.

(** [BaseHandler.apply_model].  [data] is [None] for a GET route and
    otherwise the request body, given by the items of its [__dict__]. *)
Definition apply_model (self : BaseHandler) (data : option (list (string * pyval)))
    : result (gmap string pyval) :=
  np_input ←
    (if bool_decide (h_input_schema_class self = None)
        || (length (h_input_schema self) =? 0)%nat
     then Ok NpEmpty
     else reraise_as "Parse input error"
            (items ← match data with
                     | Some items => Ok items
                     | None => Raise (AttributeError "NoneType" "__dict__")
                     end;
             arrays ← numpy_input items (h_input_schema self);
             Ok (NpDict arrays)));
  model_output ←
    reraise_as "Model prediction error"
      (predict ← match h_model self with
                 | Some predict => Ok predict
                 | None => Raise (AttributeError "BaseHandler" "model")
                 end;
       predict np_input);
  output ← reraise_as "Parse output error" (parse_output model_output);
  version ← py_int (h_version self);
  Ok (<["x__mlflow_id" := PyList [PyStr (h_run_id self)]]>
        (<["x__version" := PyList [PyInt version]]> output)).

(** The values of the dictionary [info] returns. *)
Inductive info_value : Type :=
| InfoStr (s : string)
| InfoOptStr (s : option string)
| InfoVersions (versions : list ModelVersion)
| InfoSchema (schema : Schema).

(** [BaseHandler.info] *)
Definition info (self : BaseHandler) : gmap string info_value :=
  list_to_map
    [ ("name", InfoStr (h_name self));
      ("version", InfoStr (h_version self));
      ("latest_versions", InfoVersions (m_latest_versions (h_m self)));
      ("input", InfoSchema (h_input_schema self));
      ("output", InfoSchema (h_output_schema self));
      ("description", InfoOptStr (h_description self));
      ("creation", InfoStr (h_creation self)) ].

(** ** server.py: endpoints and reconciliation *)

(** The [modelinfo] endpoint of [Server.__init__]. *)
Definition modelinfo (self : Server) (model : string) : gmap string info_value :=
  match model_dict self !! model with
  | Some handler => info handler
  | None => ∅
  end.

(** The [errors] endpoint of [Server.__init__]. *)
Definition errors (self : Server) : gmap string string := error_dict self.

(** [[idx for idx, r in enumerate(routes) if r.path == target]] *)
Fixpoint matching_indices (target : string) (idx : nat) (rs : list Route) : list nat :=
  match rs with
  | [] => []
  | r :: rest =>
      if String.eqb (r_path r) target
      then idx :: matching_indices target (S idx) rest
      else matching_indices target (S idx) rest
  end.

(** [del self.app.routes[idx2]] *)
Definition del_route (idx2 : nat) : M unit :=
  srv ← get_server;
  if (idx2 <? length (routes srv))%nat
  then modify_server (set_routes (delete idx2))
  else raise DelIndexError.

(** The "delete old route" loop of [update_models]: the indices are
    collected first and then deleted one after the other. *)
Definition delete_old_route (target : string) : M unit :=
  srv ← get_server;
  for_each (matching_indices target 0 (routes srv)) del_route.

(** The "create new handler" block of [update_models]. *)
Definition create_new_handler (name : string) (m : RegisteredModel)
    (model_version : ModelVersion) : M unit :=
  try_except
    (newmodel ← BaseHandler_init m model_version;
     modify_server (set_model_dict <[name := newmodel]>);;
     modify_server (set_error_dict (delete name)))
    (fun ex => modify_server (set_error_dict <["name" := str_exn ex]>)).

(** [name in self.model_dict and
     model_version.run_id == self.model_dict[name].run_id] *)
Definition already_ok (srv : Server) (name : string) (model_version : ModelVersion)
    : bool :=
  match model_dict srv !! name with
  | Some handler => String.eqb (mv_run_id model_version) (h_run_id handler)
  | None => false
  end.

(** [len(self.config.tags) > 0 and
     all([not tt in m.tags.keys() for tt in self.config.tags])] *)
Definition tag_mismatch (cfg : Config) (m : RegisteredModel) : bool :=
  (0 <? length (tags cfg))%nat
  && forallb (fun tt => negb (bool_decide (is_Some (m_tags m !! tt)))) (tags cfg).

(** The body of the loop over [all_models] in [update_models]; each
    [continue] ends the body. *)
Definition update_model (m : RegisteredModel) : M unit :=
  srv ← get_server;
  let name := quote_plus (m_name m) in
  model_version ← lift (get_version (config srv) m);
  if already_ok srv name model_version then ret tt
  else if tag_mismatch (config srv) m then ret tt
  else
    delete_old_route (basepath (config srv) ++ "/" ++ name);;
    create_new_handler name m model_version.

(** [Server.update_models] (the calls to the logger are not part of the
    model). *)
Definition update_models : M unit :=
  all_models ←
    try_except
      (all_models ← call list_registered_models;
       modify_server (set_error_dict (delete "server"));;
       ret all_models)
      (fun ex =>
         modify_server (set_error_dict <["server" := str_exn ex]>);;
         ret []);
  for_each all_models update_model;;
  modify_server (set_openapi_schema None).

(** ** Notions used to state the properties *)

(** [preserves P m]: running [m] keeps the property [P] of the server,
    whether [m] returns or raises. *)
Definition preserves {A} (P : Server -> Prop) (m : M A) : Prop :=
  forall st st' tr r, m st = (st', tr, r) -> P (server st) -> P (server st').

(** [total m]: [m] returns normally from every state. *)
Definition total {A} (m : M A) : Prop :=
  forall st, exists st' tr a, m st = (st', tr, Ok a).

(** In the worlds that satisfy [good], the calls of [calls] never raise:
    each one answers with some value, which for [subprocess_run] is an
    arbitrary exit status, and leads to a world that satisfies [good]. *)
Definition answered (calls : forall A, Call A -> bool) (good : W -> Prop) : Prop :=
  forall A (c : Call A) w,
    calls A c = true -> good w ->
    exists w' a, os_call w c = (w', Ok a) /\ good w'.


(** [runs good m Q]: from every state whose world satisfies [good], [m]
    returns normally in such a state, and its result and the commands of
    the processes it ran (arguments and working directory, in order)
    satisfy [Q]. *)
Definition runs {A} (good : W -> Prop) (m : M A)
    (Q : A -> list (list string * string) -> Prop) : Prop :=
  forall st, good (world st) ->
    exists st' tr a,
      m st = (st', tr, Ok a) /\ good (world st')
      /\ Q a (map fst (processes tr)).

(** The commands of a complete provisioning of [model_folder]: the
    virtual environment, the requirements [req], and for each bundled
    package, given with whether it has a requirements file, the
    installation of these and the build and installation of the package
    in its own folder. *)
Definition lib_commands (model_folder : string) (lib : string * bool)
    : list (list string * string) :=
  ((if lib.2
    then [([path_join model_folder "./env/Scripts/pip"; "install"; "-r";
            path_join lib.1 "requirements.txt"], model_folder)]
    else [])
   ++ [([path_join model_folder "./env/Scripts/python"; "./setup.py";
         "build"; "install"], lib.1)])%list.

Definition setup_commands (model_folder : string) (req : list string)
    (libs : list (string * bool)) : list (list string * string) :=
  (["python"; "-m"; "venv"; "env"], model_folder)
  :: (path_join model_folder "./env/Scripts/pip" :: "install" :: req, model_folder)
  :: flat_map (lib_commands model_folder) libs.

End Model.

Arguments State W : clear implicits.
Arguments M W A : clear implicits.

(** The calls that provisioning makes. *)
Definition setup_call (A : Type) (c : Call A) : bool :=
  match c with
  | open_append _ | file_write _ _ | file_flush _ | file_close _
  | download_artifact _ _ | subprocess_run _ _ | path_exists _
  | readlines _ | glob _ | get_default_pip_requirements => true
  | _ => false
  end.

(** The routes that are left when those on [target] are taken out. *)
Definition routes_without (target : string) (rs : list Route) : list Route :=
  List.filter (fun r => negb (String.eqb (r_path r) target)) rs.

(** A listed model that the loop of [update_models] passes over: its
    desired version is already the one being served, or the tag filter
    excludes it. *)
Definition up_to_date (srv : Server) (m : RegisteredModel) : Prop :=
  exists model_version,
    get_version (config srv) m = Ok model_version
    /\ (already_ok srv (quote_plus (m_name m)) model_version = true
        \/ tag_mismatch (config srv) m = true).

Section Passes.

Context {W : Type} `{!OS W}.

(** The state in which the loop of [update_models] starts when the
    listing has answered and left the world [w]. *)
Definition listed (st : State W) (w : W) : State W :=
  mkState w (set_error_dict (delete "server") (server st)).

(** [settles all_models st]: in the loop over [all_models] started from
    [st], every iteration returns normally and leaves its model either
    served at its desired run identifier or excluded by the tag filter;
    that is, no construction fails. *)
Fixpoint settles (all_models : list RegisteredModel) (st : State W) : Prop :=
  match all_models with
  | [] => True
  | m :: rest =>
      exists st' tr,
        update_model m st = (st', tr, Ok tt)
        /\ up_to_date (server st') m
        /\ settles rest st'
  end.

End Passes.

(** ** A simulated world, for running the code on concrete inputs *)

(** The registry answers [sim_registry]; the artifact download answers
    [sim_download] and, when it succeeds, creates the model folder;
    every process exits with [sim_exit_status]; [sim_code] is what
    [glob] finds under [code/*]; no requirements file and no example
    input is bundled. *)
Record Sim : Type := mkSim {
  sim_registry : result (list RegisteredModel);
  sim_download : result unit;
  sim_exit_status : Z;
  sim_folders : list string;
  sim_code : list string;
  sim_metadata : Metadata
}.

Definition sim_add_folder (path : string) (w : Sim) : Sim :=
  mkSim (sim_registry w) (sim_download w) (sim_exit_status w)
        (path :: sim_folders w) (sim_code w) (sim_metadata w).

Definition sim_call {A : Type} (w : Sim) (c : Call A) : Sim * result A :=
  match c in Call A return Sim * result A with
  | list_registered_models => (w, sim_registry w)
  | mkdir _ => (w, Ok tt)
  | path_exists path => (w, Ok (bool_decide (path ∈ sim_folders w)))
  | open_append _ => (w, Ok tt)
  | file_write _ _ => (w, Ok tt)
  | file_flush _ => (w, Ok tt)
  | file_close _ => (w, Ok tt)
  | download_artifact uri out =>
      match sim_download w with
      | Ok _ => (sim_add_folder (out ++ "/" ++ last_segment "" uri) w, Ok tt)
      | Raise e => (w, Raise e)
      end
  | subprocess_run _ _ => (w, Ok (sim_exit_status w))
  | readlines _ => (w, Ok [])
  | glob _ => (w, Ok (sim_code w))
  | get_default_pip_requirements => (w, Ok ["mlflow"; "cloudpickle==1.6.0"])
  | bind_probe _ => (w, Ok 50000)
  | popen _ _ _ => (w, Ok tt)
  | communicate _ _ => (w, Raise (PyExc "TimeoutExpired" "timed out after 15 seconds"))
  | model_load _ => (w, Ok (sim_metadata w))
  | json_load _ => (w, Raise (PyExc "FileNotFoundError" "input_example.json"))
  | fromtimestamp_strftime _ _ => (w, Ok "2021-06-01 12:00")
  | pydantic_model _ _ => (w, Ok tt)
  | pydantic_instance _ => (w, Ok tt)
  end.

#[export] Instance sim_OS : OS Sim := {|
  os_call := @sim_call;
  path_join := fun a b => a ++ "/" ++ b;
  path_basename := last_segment "";
  np_astype := fun val dtype => Ok (mkNdarray dtype val);
  np_dtype_name := fun name => if String.eqb name "int" then "int64" else name;
  py_int := ascii_int
|}.

(** Example registry content and server states. *)
Definition default_config : Config :=
  mkConfig "localhost" 5000 "" 1 600 false [] [] "http://localhost:4040" None false.

Definition iris_v1 : ModelVersion :=
  mkModelVersion "1" "r1" "s3://bucket/1/r1/artifacts/model" "Production" 1622548800000.

Definition iris_v2 : ModelVersion :=
  mkModelVersion "2" "r2" "s3://bucket/1/r2/artifacts/model" "Production" 1625140800000.

Definition iris : RegisteredModel := mkRegisteredModel "iris" ∅ None [iris_v2].

Definition wine : RegisteredModel :=
  mkRegisteredModel "wine" ∅ None
    [mkModelVersion "1" "w1" "s3://bucket/2/w1/artifacts/model" "None" 1622548800000].

(** A registered model for which no version has been created yet. *)
Definition draft : RegisteredModel := mkRegisteredModel "draft" ∅ None [].

Definition iris_schema : Schema :=
  [mkSchemaField (Some "x") "tensor" (Some (mkTensorSpec "float64" [-1; 4]))].

Definition sim_world (registry : result (list RegisteredModel))
    (download : result unit) (exit_status : Z) : Sim :=
  mkSim registry download exit_status [] ["cache/r2/model/code/mylib"]
        (mkMetadata (Ok (Some iris_schema)) (Ok None)).

(** The server as [Server.__init__] leaves it, where [full_cache_dir]
    is not assigned, and a server on which it has been set. *)
Definition fresh_server : Server := mkServer default_config None ∅ ∅ [] None.

Definition cached_server : Server :=
  mkServer default_config (Some "cache") ∅ ∅ [] None.

(** A handler for version 1 of iris, with its route, as an earlier pass
    would have left them. *)
Definition iris_handler_v1 : BaseHandler :=
  mkBaseHandler iris "iris" (mv_source iris_v1) "r1" "cache/r1" "cache/r1/model"
    50000 ∅ "1" (mv_source iris_v1) iris_schema
    (@provenance_fields Sim sim_OS) None "2021-06-01 12:00"
    (Some ∅) (Some ∅) None.

Definition iris_route_v1 : Route := mkRoute "/iris" "POST" "iris" false (Some "r1").

Definition docs_route : Route := mkRoute "/docs" "GET" "swagger_ui_html" false None.

Definition serving_v1 (cache : option string) : Server :=
  mkServer default_config cache {["iris" := iris_handler_v1]} ∅
           [docs_route; iris_route_v1] None.

(** States to run a reconciliation pass from.  [offline]: the registry
    lists iris and wine, nothing is served yet, and the artifact store
    cannot be reached.  [offline_serving]: the registry lists iris, whose
    version 1 is being served, and the artifact store cannot be reached.
    [registry_down]: version 1 of iris is being served and the registry
    cannot be listed.
    [online]: the registry lists iris and every external step works.
    [unprepared]: the registry lists iris and wine, every external step
    works, and the server is as [Server.__init__] leaves it.
    [tools_fail]: as [online], but every process exits with status 1.
    [with_draft]: as [online], with a model without versions listed
    first. *)
Definition unreachable : exn := PyExc "OSError" "artifact store unreachable".

Definition offline : State Sim :=
  mkState (sim_world (Ok [iris; wine]) (Raise unreachable) 0) cached_server.


Definition registry_down : State Sim :=
  mkState (sim_world (Raise (PyExc "MlflowException" "registry unavailable"))
                     (Ok tt) 0)
          (serving_v1 (Some "cache")).

Definition online : State Sim :=
  mkState (sim_world (Ok [iris]) (Ok tt) 0) cached_server.

Definition unprepared : State Sim :=
  mkState (sim_world (Ok [iris; wine]) (Ok tt) 0) fresh_server.

Definition tools_fail : State Sim :=
  mkState (sim_world (Ok [iris]) (Ok tt) 1) cached_server.

Definition with_draft : State Sim :=
  mkState (sim_world (Ok [draft; iris]) (Ok tt) 0) cached_server.

(** A handler loaded with a predictor whose own output has an
    ["x__version"] entry, a request for it, and the response. *)
Definition colliding_predictor : Predictor :=
  fun _ =>
    Ok (OutDict
          {[ "x__version" := OPlain (PyList [PyInt 99]);
             "y" := OArray (mkNdarray "float64" (PyList [PyFloat 5 (-1)])) ]}).

Definition colliding_handler : BaseHandler :=
  mkBaseHandler iris "iris" (mv_source iris_v1) "r1" "cache/r1" "cache/r1/model"
    50000 ∅ "1" (mv_source iris_v1) iris_schema
    (@provenance_fields Sim sim_OS) None "2021-06-01 12:00"
    (Some ∅) (Some ∅) (Some colliding_predictor).

Definition colliding_request : option (list (string * pyval)) :=
  Some [("x", PyList [PyList [PyInt 5; PyInt 3; PyInt 1; PyInt 0]])].

Definition colliding_response : gmap string pyval :=
  <["x__mlflow_id" := PyList [PyStr "r1"]]>
    (<["x__version" := PyList [PyInt 1]]>
       {[ "x__version" := PyList [PyInt 99];
          "y" := PyList [PyFloat 5 (-1)] ]}).

(** ** Further example data *)

(** A model with an archived, a staging and a production version. *)
Definition churn_v1 : ModelVersion :=
  mkModelVersion "1" "c1" "s3://bucket/3/c1/artifacts/model" "Production" 1622548800000.

Definition churn_v2 : ModelVersion :=
  mkModelVersion "2" "c2" "s3://bucket/3/c2/artifacts/model" "Staging" 1625140800000.

Definition churn_v3 : ModelVersion :=
  mkModelVersion "3" "c3" "s3://bucket/3/c3/artifacts/model" "Archived" 1627819200000.

Definition churn : RegisteredModel :=
  mkRegisteredModel "churn" {["team" := "growth"]} (Some "Churn model")
    [churn_v3; churn_v2; churn_v1].

(** A handler whose input schema is column based: the elements have a
    name and a type and no tensor spec. *)
Definition tabular_schema : Schema :=
  [ mkSchemaField (Some "age") "long" None;
    mkSchemaField (Some "income") "double" None ].

Definition tabular_handler : BaseHandler :=
  mkBaseHandler churn "churn" (mv_source churn_v1) "c1" "cache/c1" "cache/c1/model"
    50000 ∅ "1" (mv_source churn_v1) tabular_schema
    (@provenance_fields Sim sim_OS) (Some "Churn model") "2021-06-01 12:00"
    (Some ∅) (Some ∅) (Some colliding_predictor).

(** The handler that [__init__] returns for version 2 of iris in the
    world [online], obtained by running it. *)
Definition built_iris : BaseHandler :=
  match (BaseHandler_init iris iris_v2 online).2 with
  | Ok self => self
  | Raise _ => iris_handler_v1
  end.

(** The routes registered on a path. *)
Definition routes_on (path : string) (rs : list Route) : list Route :=
  List.filter (fun r => String.eqb (r_path r) path) rs.

(** A model whose name [quote_plus] changes, served at run [s1] while the
    registry wants run [s2]; its route is on the unquoted name and its
    handler under the quoted one. *)
Definition spaced_v1 : ModelVersion :=
  mkModelVersion "1" "s1" "s3://bucket/4/s1/artifacts/model" "Production" 1622548800000.

Definition spaced_v2 : ModelVersion :=
  mkModelVersion "2" "s2" "s3://bucket/4/s2/artifacts/model" "Production" 1625140800000.

Definition spaced : RegisteredModel :=
  mkRegisteredModel "my model" ∅ None [spaced_v2].

Definition spaced_handler_v1 : BaseHandler :=
  mkBaseHandler spaced "my model" (mv_source spaced_v1) "s1" "cache/s1"
    "cache/s1/model" 50000 ∅ "1" (mv_source spaced_v1) iris_schema
    (@provenance_fields Sim sim_OS) None "2021-06-01 12:00"
    (Some ∅) (Some ∅) None.

Definition spaced_route_v1 : Route :=
  mkRoute "/my model" "POST" "my model" false (Some "s1").

Definition serving_spaced : State Sim :=
  mkState (sim_world (Ok [spaced]) (Ok tt) 0)
          (mkServer default_config (Some "cache")
                    {["my+model" := spaced_handler_v1]} ∅
                    [docs_route; spaced_route_v1] None).

(** Version 1 of iris is being served, the registry wants version 2 and
    every external step works. *)
Definition online_serving : State Sim :=
  mkState (sim_world (Ok [iris]) (Ok tt) 0) (serving_v1 (Some "cache")).

(** The handler that [__init__] returns for version 2 of the model with
    the space in its name, obtained by running it. *)
Definition built_spaced : BaseHandler :=
  match (BaseHandler_init spaced spaced_v2 serving_spaced).2 with
  | Ok self => self
  | Raise _ => spaced_handler_v1
  end.

(** Two routes on the path of iris, as they pile up when old routes are
    not found by the deletion: once followed by another route, once at
    the end of the route table. *)
Definition iris_route_v0 : Route := mkRoute "/iris" "POST" "iris" false (Some "r0").

Definition two_routes_then_docs : State Sim :=
  mkState (sim_world (Ok [iris]) (Ok tt) 0)
          (mkServer default_config (Some "cache") ∅ ∅
                    [iris_route_v0; iris_route_v1; docs_route] None).

Definition docs_then_two_routes : State Sim :=
  mkState (sim_world (Ok [iris]) (Ok tt) 0)
          (mkServer default_config (Some "cache") ∅ ∅
                    [docs_route; iris_route_v0; iris_route_v1] None).

(** A configuration with a tag allow-list, and a server that serves
    iris under it. *)
Definition tagged_config : Config :=
  mkConfig "localhost" 5000 "" 1 600 false ["team"; "prod"] []
           "http://localhost:4040" None false.

Definition tagged_serving : State Sim :=
  mkState (sim_world (Ok [iris; churn]) (Ok tt) 0)
          (mkServer tagged_config (Some "cache") {["iris" := iris_handler_v1]} ∅
                    [docs_route; iris_route_v1] None).

(** Version 1 of iris is being served and the registry lists only
    wine. *)
Definition iris_unlisted : State Sim :=
  mkState (sim_world (Ok [wine]) (Ok tt) 0) (serving_v1 (Some "cache")).

(** ** Notions about traces *)

Section Traces.

Context {W : Type} `{!OS W}.

(** [closed good]: no call leads out of the worlds that satisfy [good]. *)
Definition closed (good : W -> Prop) : Prop :=
  forall A (c : Call A) w, good w -> good (os_call w c).1.

(** [keeps good P m]: started in a world that satisfies [good], [m]
    ends in one, and every event of its trace satisfies [P], whether [m]
    returns or raises. *)
Definition keeps {A} (good : W -> Prop) (P : Event -> Prop) (m : M W A) : Prop :=
  forall st st' tr r,
    good (world st) -> m st = (st', tr, r) ->
    good (world st') /\ Forall P tr.

(** [emits_on_raise P m]: when [m] raises, every event of its trace
    satisfies [P]. *)
Definition emits_on_raise {A} (P : Event -> Prop) (m : M W A) : Prop :=
  forall st st' tr e, m st = (st', tr, Raise e) -> Forall P tr.

(** [ends_with ev m]: when [m] returns, the last event of its trace is
    [ev]. *)
Definition ends_with {A} (ev : Event) (m : M W A) : Prop :=
  forall st st' tr a, m st = (st', tr, Ok a) -> last tr = Some ev.

End Traces.

(** The artifact download and the process runs of provisioning. *)
Definition is_environment_setup (ev : Event) : bool :=
  match ev with
  | Called c _ =>
      match c with
      | download_artifact _ _ | subprocess_run _ _ => true
      | _ => false
      end
  end.

(** A [close()] of a log file that succeeded. *)
Definition closes_file (ev : Event) : bool :=
  match ev with
  | Called c r =>
      match c in Call A return result A -> bool with
      | file_close _ => fun r => match r with Ok _ => true | Raise _ => false end
      | _ => fun _ => false
      end r
  end.

(** The calls of [_start_server] other than [communicate]. *)
Definition start_call (A : Type) (c : Call A) : bool :=
  match c with
  | open_append _ | popen _ _ _ | file_flush _ => true
  | _ => false
  end.

(** A world in which the model folder of version 2 of iris is already
    there. *)
Definition provisioned : State Sim :=
  mkState (mkSim (Ok [iris]) (Ok tt) 0 ["cache/r2/model"]
                 ["cache/r2/model/code/mylib"]
                 (mkMetadata (Ok (Some iris_schema)) (Ok None)))
          cached_server.

(** Handlers as [__init__] hands them to [update_schema_classes], before
    the schema classes exist, for the given schemas and bundled
    examples. *)
Definition raw_handler (input_schema output_schema : Schema)
    (examples : gmap string pyval) : BaseHandler :=
  mkBaseHandler iris "iris" (mv_source iris_v2) "r2" "cache/r2" "cache/r2/model"
    50000 examples "2" (mv_source iris_v2) input_schema output_schema
    None "2021-06-01 12:00" None None None.

(** An input that is a tensor of booleans, a dtype outside the sample
    table, and an output tensor without a name. *)
Definition flag_schema : Schema :=
  [mkSchemaField (Some "flag") "tensor" (Some (mkTensorSpec "bool" [-1]))].

Definition unnamed_output_schema : Schema :=
  [mkSchemaField None "tensor" (Some (mkTensorSpec "float64" [-1; 3]))].

(** What [apply_model] hands to the predictor for a request: the empty
    array for a handler without inputs, else the arrays that
    [numpy_input] makes of the body. *)
Definition request_input {W : Type} `{!OS W} (self : BaseHandler)
    (data : option (list (string * pyval))) (np_in : np_input) : Prop :=
  if bool_decide (h_input_schema_class self = None)
     || (length (h_input_schema self) =? 0)%nat
  then np_in = NpEmpty
  else exists items arrays,
         data = Some items
         /\ numpy_input items (h_input_schema self) = Ok arrays
         /\ np_in = NpDict arrays.

(** As [serving_spaced], with the artifact store out of reach. *)
Definition offline_spaced : State Sim :=
  mkState (sim_world (Ok [spaced]) (Raise unreachable) 0)
          (mkServer default_config (Some "cache")
                    {["my+model" := spaced_handler_v1]} ∅
                    [docs_route; spaced_route_v1] None).

(** * Properties *)

(** ** Example synthesis *)

Lemma dtype_sample_keys_NoDup :
  NoDup (map fst
    [ ("float64", PyFloat 1234 (-3)); ("float32", PyFloat 1234 (-3));
      ("int", PyInt 1); ("int64", PyInt 1); ("int32", PyInt 1);
      ("str", PyStr "A"); ("object", PyStr "?") ]).
Proof. apply (bool_decide_unpack _). by vm_compute. Qed.

Lemma dtype_sample_scalar (dtype : string) (sample : pyval) :
  dtype_sample !! dtype = Some sample -> depth sample = 0%nat.
Proof.
  unfold dtype_sample. intros Hlookup.
  apply elem_of_list_to_map in Hlookup; [|exact dtype_sample_keys_NoDup].
  repeat (apply elem_of_cons in Hlookup as [Heq|Hlookup];
          [by inversion Heq|]).
  by apply elem_of_nil in Hlookup.
Qed.

Lemma depth_replicate (n : nat) (x : pyval) :
  fold_right (fun y acc => Nat.max (depth y) acc) 0%nat (replicate n x)
  = match n with O => 0%nat | S _ => depth x end.
Proof.
  induction n as [|n IH]; [done|].
  simpl. rewrite IH. destruct n; lia.
Qed.

Lemma has_shape_py_repeat (ds : list nat) (leaf inner : pyval) (k : Z) :
  has_shape ds leaf inner ->
  has_shape (Z.to_nat k :: ds) leaf (py_repeat inner k).
Proof.
  intros Hinner. simpl. split.
  - apply length_replicate.
  - by apply Forall_replicate.
Qed.

Lemma example_extents_cons (d d' : Z) (rest : list Z) :
  example_extents (d :: d' :: rest)
  = Z.to_nat (Z.max 1 d) :: example_extents (d' :: rest).
Proof. reflexivity. Qed.

(** C5 as stated fails: for the shape [[2; 0]] the innermost lists are
    empty, so their length is [0] and not [max(1, 0) = 1]. *)
Lemma get_nested_zero_innermost_dim :
  ~ (exists v,
       get_nested "int" [2; 0] = Ok v
       /\ depth v = length [2; 0]
       /\ has_shape (map (fun d => Z.to_nat (Z.max 1 d)) [2; 0]) (PyInt 1) v).
Proof.
  intros (v & Hv & _ & Hshape).
  vm_compute in Hv. inversion Hv; subst v; clear Hv.
  cbn in Hshape. destruct Hshape as [_ Hall].
  apply Forall_cons in Hall as [[Hlen _] _].
  discriminate Hlen.
Qed.

(** C5 (amended): the sample table is as listed, and for every dtype of
    the table and every shape [[d0; ...; d(n-1)]] with [n >= 1],
    [get_nested] returns an example of nesting depth [n] whose lists at
    depth [i < n-1] have [max(1, d_i)] elements, whose innermost lists
    have [d(n-1)] elements (none when [d(n-1) <= 0]), and whose leaves
    are the dtype's sample. *)
Theorem get_nested_shape :
  (dtype_sample !! "float64" = Some (PyFloat 1234 (-3))
   /\ dtype_sample !! "float32" = Some (PyFloat 1234 (-3))
   /\ dtype_sample !! "int" = Some (PyInt 1)
   /\ dtype_sample !! "int64" = Some (PyInt 1)
   /\ dtype_sample !! "int32" = Some (PyInt 1)
   /\ dtype_sample !! "str" = Some (PyStr "A")
   /\ dtype_sample !! "object" = Some (PyStr "?"))
  /\ forall (dtype : string) (sample : pyval) (shape : list Z),
       dtype_sample !! dtype = Some sample ->
       shape <> [] ->
       exists v,
         get_nested dtype shape = Ok v
         /\ depth v = length shape
         /\ has_shape (example_extents shape) sample v.
Proof.
  split; [by repeat split|].
  intros dtype sample shape Hsample.
  induction shape as [|d rest IH]; [done|]. intros _.
  destruct rest as [|d' rest].
  - exists (py_repeat sample d). simpl. rewrite Hsample.
    split; [done|]. split.
    + rewrite depth_replicate, (dtype_sample_scalar _ _ Hsample).
      by destruct (Z.to_nat d).
    + split; [apply length_replicate|]. by apply Forall_replicate.
  - destruct IH as (inner & Hinner & Hdepth & Hshape); [done|].
    exists (py_repeat inner (Z.max 1 d)).
    change (get_nested dtype (d :: d' :: rest))
      with (result_bind (get_nested dtype (d' :: rest))
              (fun inner => Ok (py_repeat inner (Z.max 1 d)))).
    rewrite Hinner. split; [done|]. split.
    + simpl depth. rewrite depth_replicate.
      destruct (Z.to_nat (Z.max 1 d)) eqn:Hn; [lia|].
      by rewrite Hdepth.
    + rewrite example_extents_cons. by apply has_shape_py_repeat.
Qed.

Lemma get_nested_shape_witness :
  exists v,
    get_nested "float64" [-1; 4] = Ok v
    /\ depth v = 2%nat
    /\ has_shape [1%nat; 4%nat] (PyFloat 1234 (-3)) v.
Proof.
  apply (proj2 get_nested_shape "float64" (PyFloat 1234 (-3)) [-1; 4]).
  - reflexivity.
  - discriminate.
Defined.

(** ** Desired-version selection *)

Lemma first_item_filter (p : ModelVersion -> bool) (versions : list ModelVersion) :
  first_item (List.filter p versions)
  = match List.find p versions with
    | Some v => Ok v
    | None => Raise IndexError
    end.
Proof.
  induction versions as [|v versions IH]; [done|].
  simpl. by destruct (p v).
Qed.

Lemma nonempty_filter (p : ModelVersion -> bool) (versions : list ModelVersion) :
  (0 <? length (List.filter p versions))%nat = existsb p versions.
Proof.
  induction versions as [|v versions IH]; [done|].
  simpl. by destruct (p v).
Qed.

(** C8: [get_version] is a function of the staging flag and the
    descriptor's listed versions, and it chooses as the specification
    says: the first Staging version when staging is preferred and one
    exists, else the first Production version when one exists, else the
    first listed version (an [IndexError] when nothing is listed). *)
Theorem get_version_stage_preference (cfg : Config) (m : RegisteredModel) :
  get_version cfg m
  = match stage_preference_spec (staging cfg) (m_latest_versions m) with
    | Some v => Ok v
    | None => Raise IndexError
    end.
Proof.
  unfold get_version, stage_preference_spec.
  rewrite !nonempty_filter, !first_item_filter.
  destruct (staging cfg && existsb (has_stage "Staging") (m_latest_versions m)) eqn:Hs.
  - reflexivity.
  - destruct (existsb (has_stage "Production") (m_latest_versions m)); [done|].
    by destruct (m_latest_versions m).
Qed.

(** ** Handler invocation *)

Section Invocation.

Context {W : Type} `{!OS W}.

Lemma reraise_as_Ok {A} (loc : string) (r : result A) (a : A) :
  reraise_as loc r = Ok a -> r = Ok a.
Proof. by destruct r. Qed.

(** C6: a successful [apply_model] returns the parsed model output with
    ["x__version"] set to [[int(version)]] and ["x__mlflow_id"] set to
    [[run_id]]; every other key is the model's, and a model output that
    has one of the two keys itself is overridden. *)
Theorem apply_model_provenance (self : BaseHandler)
    (data : option (list (string * pyval))) (out : gmap string pyval) :
  apply_model self data = Ok out ->
  exists (version : Z) (predict : Predictor) (np_in : np_input)
         (model_out : model_output) (parsed : gmap string pyval),
    py_int (h_version self) = Ok version
    /\ h_model self = Some predict
    /\ predict np_in = Ok model_out
    /\ parse_output model_out = Ok parsed
    /\ out !! "x__version" = Some (PyList [PyInt version])
    /\ out !! "x__mlflow_id" = Some (PyList [PyStr (h_run_id self)])
    /\ forall key, key <> "x__version" -> key <> "x__mlflow_id" ->
                   out !! key = parsed !! key.
Proof.
  unfold apply_model. intros Happly.
  destruct (if bool_decide (h_input_schema_class self = None)
               || (length (h_input_schema self) =? 0)%nat
            then Ok NpEmpty
            else reraise_as "Parse input error" _) as [np_in|] eqn:Hin;
    [|done].
  simpl in Happly.
  destruct (reraise_as "Model prediction error" _) as [model_out|] eqn:Hpred;
    [|done].
  apply reraise_as_Ok in Hpred.
  destruct (h_model self) as [predict|] eqn:Hmodel; [|done].
  simpl in Hpred, Happly.
  destruct (reraise_as "Parse output error" _) as [parsed|] eqn:Hparse; [|done].
  apply reraise_as_Ok in Hparse. simpl in Happly.
  destruct (py_int (h_version self)) as [version|] eqn:Hversion; [|done].
  simpl in Happly. injection Happly as <-.
  exists version, predict, np_in, model_out, parsed.
  repeat split; try done.
  - by rewrite lookup_insert_ne, lookup_insert_eq.
  - by rewrite lookup_insert_eq.
  - intros key Hv Hid. by rewrite !lookup_insert_ne.
Qed.

End Invocation.

Lemma apply_model_provenance_witness :
  apply_model colliding_handler colliding_request = Ok colliding_response
  /\ exists (version : Z) (predict : Predictor) (np_in : np_input)
            (model_out : model_output) (parsed : gmap string pyval),
       py_int (h_version colliding_handler) = Ok version
       /\ h_model colliding_handler = Some predict
       /\ predict np_in = Ok model_out
       /\ parse_output model_out = Ok parsed
       /\ colliding_response !! "x__version" = Some (PyList [PyInt version])
       /\ colliding_response !! "x__mlflow_id"
          = Some (PyList [PyStr (h_run_id colliding_handler)])
       /\ forall key, key <> "x__version" -> key <> "x__mlflow_id" ->
                      colliding_response !! key = parsed !! key.
Proof.
  split.
  - vm_compute. reflexivity.
  - apply (apply_model_provenance colliding_handler colliding_request).
    vm_compute. reflexivity.
Defined.

(** ** The model information endpoint *)

(** C10: for a name without an active handler [modelinfo] answers the
    empty map; for a name with an active handler it answers that
    handler's info map, which has exactly the keys name, version,
    latest_versions, input, output, description and creation, holding
    the handler's attributes. *)
Theorem modelinfo_info (self : Server) (model : string) :
  (model_dict self !! model = None -> modelinfo self model = ∅)
  /\ (forall handler,
        model_dict self !! model = Some handler ->
        modelinfo self model = info handler
        /\ dom (info handler)
           = list_to_set ["name"; "version"; "latest_versions"; "input";
                          "output"; "description"; "creation"]
        /\ info handler !! "name" = Some (InfoStr (h_name handler))
        /\ info handler !! "version" = Some (InfoStr (h_version handler))
        /\ info handler !! "latest_versions"
           = Some (InfoVersions (m_latest_versions (h_m handler)))
        /\ info handler !! "input" = Some (InfoSchema (h_input_schema handler))
        /\ info handler !! "output" = Some (InfoSchema (h_output_schema handler))
        /\ info handler !! "description"
           = Some (InfoOptStr (h_description handler))
        /\ info handler !! "creation" = Some (InfoStr (h_creation handler))).
Proof.
  unfold modelinfo. split.
  - by intros ->.
  - intros handler ->. split; [done|]. split.
    + unfold info. rewrite dom_list_to_map_L. reflexivity.
    + by repeat split.
Qed.

Lemma modelinfo_info_witness :
  (model_dict (serving_v1 None) !! "wine" = None
   /\ modelinfo (serving_v1 None) "wine" = ∅)
  /\ model_dict (serving_v1 None) !! "iris" = Some iris_handler_v1
  /\ modelinfo (serving_v1 None) "iris" = info iris_handler_v1
  /\ info iris_handler_v1 !! "version" = Some (InfoStr "1").
Proof.
  destruct (modelinfo_info (serving_v1 None) "wine") as [Habsent _].
  destruct (modelinfo_info (serving_v1 None) "iris") as [_ Hpresent].
  assert (Hwine : model_dict (serving_v1 None) !! "wine" = None)
    by (vm_compute; reflexivity).
  assert (Hiris : model_dict (serving_v1 None) !! "iris" = Some iris_handler_v1)
    by (vm_compute; reflexivity).
  split; [split; [exact Hwine | exact (Habsent Hwine)]|].
  split; [exact Hiris|].
  destruct (Hpresent _ Hiris) as (Hinfo & _ & _ & Hversion & _).
  split; [exact Hinfo | exact Hversion].
Defined.

(** ** Reasoning about computations *)

Section Reasoning.

Context {W : Type} `{!OS W}.

Lemma bind_Ok {A B} (m : M W A) (k : A -> M W B) (st st1 : State W)
    (t1 : list Event) (a : A) :
  m st = (st1, t1, Ok a) ->
  (m ≫= k) st
  = ((k a st1).1.1, (t1 ++ (k a st1).1.2)%list, (k a st1).2).
Proof.
  intros Hm. unfold mbind, M_bind, bind. rewrite Hm.
  by destruct (k a st1) as [[st2 t2] r].
Qed.

Lemma bind_Raise {A B} (m : M W A) (k : A -> M W B) (st st1 : State W)
    (t1 : list Event) (e : exn) :
  m st = (st1, t1, Raise e) -> (m ≫= k) st = (st1, t1, Raise e).
Proof. intros Hm. unfold mbind, M_bind, bind. by rewrite Hm. Qed.

Lemma bind_inv {A B} (m : M W A) (k : A -> M W B) (st st' : State W)
    (tr : list Event) (r : result B) :
  (m ≫= k) st = (st', tr, r) ->
  (exists e, m st = (st', tr, Raise e) /\ r = Raise e)
  \/ (exists a st1 t1 t2,
        m st = (st1, t1, Ok a) /\ k a st1 = (st', t2, r)
        /\ tr = (t1 ++ t2)%list).
Proof.
  unfold mbind, M_bind, bind.
  destruct (m st) as [[st1 t1] [a|e]].
  - destruct (k a st1) as [[st2 t2] r2] eqn:Hk.
    intros [= <- <- <-]. right. by exists a, st1, t1, t2.
  - intros [= <- <- <-]. left. by exists e.
Qed.

Lemma try_except_inv {A} (body : M W A) (handler : exn -> M W A) (st st' : State W)
    (tr : list Event) (r : result A) :
  try_except body handler st = (st', tr, r) ->
  (exists a, body st = (st', tr, Ok a) /\ r = Ok a)
  \/ (exists e st1 t1 t2,
        body st = (st1, t1, Raise e) /\ handler e st1 = (st', t2, r)
        /\ tr = (t1 ++ t2)%list).
Proof.
  unfold try_except.
  destruct (body st) as [[st1 t1] [a|e]].
  - intros [= <- <- <-]. left. by exists a.
  - destruct (handler e st1) as [[st2 t2] r2] eqn:Hh.
    intros [= <- <- <-]. right. by exists e, st1, t1, t2.
Qed.

Lemma call_inv {A} (c : Call A) (st st' : State W) (tr : list Event)
    (r : result A) :
  call c st = (st', tr, r) ->
  tr = [Called c r]
  /\ st' = mkState (os_call (world st) c).1 (server st)
  /\ r = (os_call (world st) c).2.
Proof.
  unfold call. destruct (os_call (world st) c) as [w' r'].
  by intros [= <- <- <-].
Qed.

(** *** Properties of the server kept by a computation *)

Lemma preserves_ret {A} (P : Server -> Prop) (a : A) : preserves (W:=W) P (mret a).
Proof. by intros st st' tr r [= <- _ _]. Qed.

Lemma preserves_raise {A} (P : Server -> Prop) (e : exn) :
  preserves (W:=W) P (raise (A:=A) e).
Proof. by intros st st' tr r [= <- _ _]. Qed.

Lemma preserves_lift {A} (P : Server -> Prop) (x : result A) :
  preserves (W:=W) P (lift x).
Proof. by intros st st' tr r [= <- _ _]. Qed.

Lemma preserves_get_server (P : Server -> Prop) : preserves (W:=W) P get_server.
Proof. by intros st st' tr r [= <- _ _]. Qed.

Lemma preserves_call {A} (P : Server -> Prop) (c : Call A) :
  preserves P (call c).
Proof.
  intros st st' tr r. unfold call.
  destruct (os_call (world st) c) as [w' r']. by intros [= <- _ _].
Qed.

Lemma preserves_modify (P : Server -> Prop) (f : Server -> Server) :
  (forall s, P s -> P (f s)) -> preserves (W:=W) P (modify_server f).
Proof. intros Hf st st' tr r [= <- _ _]. apply Hf. Qed.

Lemma preserves_bind {A B} (P : Server -> Prop) (m : M W A) (k : A -> M W B) :
  preserves P m -> (forall a, preserves P (k a)) -> preserves P (m ≫= k).
Proof.
  intros Hm Hk st st' tr r Hrun HP.
  apply bind_inv in Hrun as [(e & Hrun & _)|(a & st1 & t1 & t2 & Hrun & Hrun' & _)].
  - by eapply Hm.
  - eapply Hk; [done|]. by eapply Hm.
Qed.

Lemma preserves_try_except {A} (P : Server -> Prop) (body : M W A)
    (handler : exn -> M W A) :
  preserves P body -> (forall e, preserves P (handler e)) ->
  preserves P (try_except body handler).
Proof.
  intros Hb Hh st st' tr r Hrun HP.
  apply try_except_inv in Hrun
    as [(a & Hrun & _)|(e & st1 & t1 & t2 & Hrun & Hrun' & _)].
  - by eapply Hb.
  - eapply Hh; [done|]. by eapply Hb.
Qed.

Lemma preserves_for_each {A} (P : Server -> Prop) (xs : list A)
    (body : A -> M W unit) :
  (forall x, preserves P (body x)) -> preserves P (for_each xs body).
Proof.
  intros Hbody. induction xs as [|x xs IH].
  - apply preserves_ret.
  - apply (preserves_bind P (body x) (fun _ => for_each xs body)); [apply Hbody|done].
Qed.

Lemma preserves_for_each_in {A} (P : Server -> Prop) (xs : list A)
    (body : A -> M W unit) :
  (forall x, x ∈ xs -> preserves P (body x)) -> preserves P (for_each xs body).
Proof.
  induction xs as [|x xs IH]; intros Hbody.
  - apply preserves_ret.
  - apply (preserves_bind P (body x) (fun _ => for_each xs body)).
    + apply Hbody. by left.
    + intros _. apply IH. intros y Hy. apply Hbody. by right.
Qed.

End Reasoning.

(** Splits a hypothesis [(m ≫= k) st = (st', tr, Ok a)] into the run of
    [m], which returned, and the run of [k]. *)
Ltac bind_returned H x st1 H1 :=
  let t1 := fresh "t" in
  let t2 := fresh "t" in
  apply bind_inv in H as [(? & ? & [=])|(x & st1 & t1 & t2 & H1 & H & ->)].

(** Decomposes a goal [preserves P m] along the structure of [m]; what
    is left are the goals for the [modify_server] steps. *)
Ltac preserves_step :=
  lazymatch goal with
  | |- preserves _ (mbind _ _) => apply preserves_bind; [|intros ?]
  | |- preserves _ (try_except _ _) => apply preserves_try_except; [|intros ?]
  | |- preserves _ (for_each _ _) => apply preserves_for_each; intros ?
  | |- preserves _ (call _) => apply preserves_call
  | |- preserves _ (mret _) => apply preserves_ret
  | |- preserves _ (ret _) => apply preserves_ret
  | |- preserves _ (raise _) => apply preserves_raise
  | |- preserves _ (lift _) => apply preserves_lift
  | |- preserves _ get_server => apply preserves_get_server
  | |- preserves _ (modify_server _) => apply preserves_modify
  | |- preserves _ (if ?b then _ else _) => destruct b
  | |- preserves _ (match ?x with _ => _ end) => destruct x
  | |- preserves _ (let _ := _ in _) => cbv zeta
  end.

Section Construction.

Context {W : Type} `{!OS W}.

(** A computation that leaves the server alone keeps every property. *)
Lemma _setup_model_preserves (P : Server -> Prop)
    (work_folder model_folder source : string) :
  preserves P (_setup_model work_folder model_folder source).
Proof. unfold _setup_model. repeat preserves_step. Qed.

Lemma _start_server_preserves (P : Server -> Prop)
    (work_folder model_folder : string) (port : Z) :
  preserves P (_start_server work_folder model_folder port).
Proof. unfold _start_server. repeat preserves_step. Qed.

Lemma update_schema_classes_preserves (P : Server -> Prop) (h : BaseHandler) :
  preserves P (update_schema_classes h).
Proof. unfold update_schema_classes. repeat preserves_step. Qed.

Lemma register_route_preserves (P : Server -> Prop) (h : BaseHandler) :
  (forall s f, P s -> P (set_routes f s)) ->
  preserves (W:=W) P (register_route h).
Proof.
  intros Hroutes. unfold register_route.
  repeat preserves_step. intros s. apply Hroutes.
Qed.

(** Construction touches nothing of the server but the route table. *)
Lemma BaseHandler_init_preserves (P : Server -> Prop) (m : RegisteredModel)
    (model_version : ModelVersion) :
  (forall s f, P s -> P (set_routes f s)) ->
  preserves (W:=W) P (BaseHandler_init m model_version).
Proof.
  intros Hroutes. unfold BaseHandler_init, _get_free_port, _get_input_example.
  repeat first
    [ apply _setup_model_preserves
    | apply _start_server_preserves
    | apply update_schema_classes_preserves
    | by apply register_route_preserves
    | preserves_step ].
Qed.




End Construction.

(** ** Reconciliation *)

(** ** Routes on a path *)

Lemma routes_on_without (path : string) (rs : list Route) :
  routes_on path (routes_without path rs) = [].
Proof.
  induction rs as [|r rs IH]; [done|].
  simpl. destruct (String.eqb (r_path r) path) eqn:Hpath; simpl; [done|].
  by rewrite Hpath.
Qed.

Lemma routes_on_without_other (path target : string) (rs : list Route) :
  path <> target ->
  routes_on path (routes_without target rs) = routes_on path rs.
Proof.
  intros Hne. induction rs as [|r rs IH]; [done|].
  simpl. destruct (String.eqb (r_path r) target) eqn:Htarget; simpl.
  - apply String.eqb_eq in Htarget.
    destruct (String.eqb (r_path r) path) eqn:Hpath; [|done].
    apply String.eqb_eq in Hpath. congruence.
  - by rewrite IH.
Qed.

Lemma string_app_inv_head (s a b : string) : s ++ a = s ++ b -> a = b.
Proof. induction s as [|c s IH]; [done|]. intros [= Heq]. by apply IH. Qed.

Section Reconciliation.

Context {W : Type} `{!OS W}.

Lemma for_each_cons {A} (x : A) (xs : list A) (body : A -> M W unit) :
  for_each (x :: xs) body = (body x ≫= fun _ => for_each xs body).
Proof. reflexivity. Qed.

Lemma delete_old_route_preserves (P : Server -> Prop) (target : string) :
  (forall s f, P s -> P (set_routes f s)) ->
  preserves (W:=W) P (delete_old_route target).
Proof.
  intros Hroutes. unfold delete_old_route, del_route.
  repeat preserves_step. intros s. apply Hroutes.
Qed.

(** The "create new handler" block never raises. *)
Lemma create_new_handler_total (name : string) (m : RegisteredModel)
    (model_version : ModelVersion) :
  total (W:=W) (create_new_handler name m model_version).
Proof.
  intros st. unfold create_new_handler, try_except.
  destruct (BaseHandler_init m model_version st) as [[st1 t1] [h|e]] eqn:Hinit.
  - rewrite (bind_Ok _ _ _ _ _ _ Hinit). by eexists _, _, tt.
  - rewrite (bind_Raise _ _ _ _ _ _ Hinit). by eexists _, _, tt.
Qed.


(** *** Deleting the old route *)

Lemma matching_indices_nil (target : string) (idx : nat) (rs : list Route) :
  matching_indices target idx rs = [] -> routes_without target rs = rs.
Proof.
  revert idx. induction rs as [|r rs IH]; intros idx; [done|].
  simpl. destruct (String.eqb (r_path r) target); [done|].
  intros Hnil. simpl. by rewrite (IH _ Hnil).
Qed.

Lemma matching_indices_one (target : string) (idx i : nat) (rs : list Route) :
  matching_indices target idx rs = [i] ->
  exists j, i = (idx + j)%nat /\ (j < length rs)%nat
            /\ delete j rs = routes_without target rs.
Proof.
  revert idx. induction rs as [|r rs IH]; intros idx; [done|].
  simpl. destruct (String.eqb (r_path r) target); simpl.
  - intros [= <- Hnil]. exists 0%nat.
    split; [lia|]. split; [lia|].
    by rewrite (matching_indices_nil _ _ _ Hnil).
  - intros Hone. destruct (IH _ Hone) as (j & -> & Hlt & Hdel).
    exists (S j). split; [lia|]. split; [lia|].
    simpl. by rewrite <- Hdel.
Qed.

(** With at most one route on the path, the loop takes exactly the
    routes on that path out. *)
Lemma delete_old_route_at_most_one (target : string) (st : State W) :
  (length (matching_indices target 0 (routes (server st))) <= 1)%nat ->
  exists st',
    delete_old_route target st = (st', [], Ok tt)
    /\ routes (server st') = routes_without target (routes (server st)).
Proof.
  intros Hlen. unfold delete_old_route.
  rewrite (bind_Ok get_server _ st st [] (server st)); [|done].
  destruct (matching_indices target 0 (routes (server st)))
    as [|i [|i' rest]] eqn:Hidx; [| |simpl in Hlen; lia].
  - exists st. split; [done|].
    by rewrite (matching_indices_nil _ _ _ Hidx).
  - destruct (matching_indices_one _ _ _ _ Hidx) as (j & -> & Hlt & Hdel).
    eexists. simpl.
    unfold del_route, mbind, M_bind, bind, get_server, modify_server, ret.
    apply Nat.ltb_lt in Hlt. simpl. rewrite Hlt. simpl.
    split; [reflexivity|]. by simpl.
Qed.

(** *** One model of the loop *)

Lemma update_model_proceeds (m : RegisteredModel) (model_version : ModelVersion)
    (st : State W) :
  get_version (config (server st)) m = Ok model_version ->
  already_ok (server st) (quote_plus (m_name m)) model_version = false ->
  tag_mismatch (config (server st)) m = false ->
  update_model m st
  = bind (delete_old_route
            (basepath (config (server st)) ++ "/" ++ quote_plus (m_name m)))
         (fun _ => create_new_handler (quote_plus (m_name m)) m model_version)
         st.
Proof.
  intros Hversion Hok Htag. unfold update_model.
  rewrite (bind_Ok get_server _ st st [] (server st)); [|done].
  rewrite (bind_Ok (lift _) _ st st [] model_version);
    [|by unfold lift; rewrite Hversion].
  rewrite Hok, Htag. simpl. unfold mbind, M_bind.
  by destruct (bind _ _ st) as [[st' tr] r].
Qed.

Lemma update_model_skips (m : RegisteredModel) (st : State W) :
  up_to_date (server st) m -> update_model m st = (st, [], Ok tt).
Proof.
  intros (model_version & Hversion & Hskip). unfold update_model.
  rewrite (bind_Ok get_server _ st st [] (server st)); [|done].
  rewrite (bind_Ok (lift _) _ st st [] model_version);
    [|by unfold lift; rewrite Hversion].
  destruct Hskip as [-> | Htag]; [done|].
  rewrite Htag. by destruct (already_ok _ _ _).
Qed.

Lemma for_each_skips (all_models : list RegisteredModel) (st : State W) :
  (forall m, m ∈ all_models -> up_to_date (server st) m) ->
  for_each all_models update_model st = (st, [], Ok tt).
Proof.
  induction all_models as [|m all_models IH]; intros Hall; [done|].
  rewrite for_each_cons.
  rewrite (bind_Ok _ _ st st [] tt);
    [|apply update_model_skips, Hall; by left].
  rewrite IH; [done|]. intros m' Hm'. apply Hall. by right.
Qed.

(** Once the desired version is selected, the iteration cannot raise on
    account of the construction: whatever [BaseHandler] raises is
    caught.  (With at most one route on the model's path the deletion of
    the old route does not raise either.) *)
Lemma update_model_returns (m : RegisteredModel) (model_version : ModelVersion)
    (st : State W) :
  get_version (config (server st)) m = Ok model_version ->
  (length (matching_indices
             (basepath (config (server st)) ++ "/" ++ quote_plus (m_name m)) 0
             (routes (server st))) <= 1)%nat ->
  exists st' tr, update_model m st = (st', tr, Ok tt).
Proof.
  intros Hversion Hone.
  destruct (already_ok (server st) (quote_plus (m_name m)) model_version) eqn:Hok.
  { exists st, []. apply update_model_skips. exists model_version. auto. }
  destruct (tag_mismatch (config (server st)) m) eqn:Htag.
  { exists st, []. apply update_model_skips. exists model_version. auto. }
  rewrite (update_model_proceeds _ _ _ Hversion Hok Htag). unfold bind.
  destruct (delete_old_route_at_most_one _ st Hone) as (st1 & -> & _).
  destruct (create_new_handler_total (quote_plus (m_name m)) m model_version st1)
    as (st2 & t2 & [] & ->).
  by eexists _, _.
Qed.

(** *** C1 *)


(** *** C7 *)

Lemma update_model_keeps_server_key_clear (m : RegisteredModel) :
  preserves (W:=W) (fun s => error_dict s !! "server" = None) (update_model m).
Proof.
  unfold update_model, create_new_handler.
  repeat first
    [ apply delete_old_route_preserves; done
    | apply BaseHandler_init_preserves; done
    | preserves_step ];
    intros s Hclear; simpl.
  - done.
  - by apply lookup_delete_None; right.
  - by rewrite lookup_insert_ne.
Qed.

(** C7: when listing the registry raises, the pass records the message
    under ["server"], leaves the handler map and the route table as they
    were, and returns; when the listing succeeds, ["server"] is not a
    key of the error map when the pass ends, however it ends. *)
Theorem listing_failure_keeps_serving (st : State W) :
  (forall w' ex,
     os_call (world st) list_registered_models = (w', Raise ex) ->
     exists st',
       update_models st = (st', [Called list_registered_models (Raise ex)], Ok tt)
       /\ model_dict (server st') = model_dict (server st)
       /\ routes (server st') = routes (server st)
       /\ error_dict (server st')
          = <["server" := str_exn ex]> (error_dict (server st)))
  /\ (forall w' all_models st' tr r,
        os_call (world st) list_registered_models = (w', Ok all_models) ->
        update_models st = (st', tr, r) ->
        error_dict (server st') !! "server" = None).
Proof.
  split.
  - intros w' ex Hlist. eexists.
    unfold update_models, try_except, mbind, M_bind, bind, call, modify_server, ret.
    rewrite Hlist. simpl. split; [reflexivity|]. by simpl.
  - intros w' all_models st' tr r Hlist Hrun.
    unfold update_models in Hrun.
    apply bind_inv in Hrun
      as [(e & Htry & _)|(listed & st1 & t1 & t2 & Htry & Hloop & _)];
      unfold try_except, mbind, M_bind, bind, call, modify_server, ret in Htry;
      rewrite Hlist in Htry; simpl in Htry; [done|].
    injection Htry as <- _ <-.
    assert (Hkeeps : preserves (W:=W) (fun s => error_dict s !! "server" = None)
                       (for_each all_models update_model;;
                        modify_server (set_openapi_schema None))).
    { repeat first [ apply update_model_keeps_server_key_clear | preserves_step ].
      by intros s. }
    apply (Hkeeps _ _ _ _ Hloop). simpl. apply lookup_delete_eq.
Qed.

(** *** C9 *)

Lemma up_to_date_set_error_dict (f : gmap string string -> gmap string string)
    (s : Server) (m : RegisteredModel) :
  up_to_date s m -> up_to_date (set_error_dict f s) m.
Proof. by intros (model_version & Hversion & Hskip); exists model_version. Qed.

Lemma up_to_date_insert_other (name : string) (handler : BaseHandler)
    (s : Server) (m : RegisteredModel) :
  quote_plus (m_name m) <> name ->
  up_to_date s m -> up_to_date (set_model_dict <[name := handler]> s) m.
Proof.
  intros Hname (model_version & Hversion & Hskip).
  exists model_version. split; [done|].
  destruct Hskip as [Hok|Htag]; [left|by right].
  unfold already_ok in *. simpl. by rewrite lookup_insert_ne.
Qed.

(** The iteration for another model does not disturb a model that is
    up to date. *)
Lemma update_model_keeps_up_to_date (m m' : RegisteredModel) :
  quote_plus (m_name m) <> quote_plus (m_name m') ->
  preserves (W:=W) (fun s => up_to_date s m) (update_model m').
Proof.
  intros Hname. unfold update_model, create_new_handler.
  repeat first
    [ apply delete_old_route_preserves; done
    | apply BaseHandler_init_preserves; done
    | preserves_step ];
    intros s Hs.
  - by apply up_to_date_insert_other.
  - by apply up_to_date_set_error_dict.
  - by apply up_to_date_set_error_dict.
Qed.

(** A loop in which no construction fails leaves every listed model up
    to date, provided no two listed models share a quoted name. *)
Lemma settles_for_each (all_models : list RegisteredModel) (st : State W) :
  NoDup (map (fun m => quote_plus (m_name m)) all_models) ->
  settles all_models st ->
  exists st' tr,
    for_each all_models update_model st = (st', tr, Ok tt)
    /\ forall m, m ∈ all_models -> up_to_date (server st') m.
Proof.
  revert st. induction all_models as [|m rest IH]; intros st Hnames Hsettles.
  - exists st, []. split; [done|]. intros m Hm. by apply elem_of_nil in Hm.
  - destruct Hsettles as (st1 & t1 & Hrun & Hm & Hrest).
    apply NoDup_cons in Hnames as [Hfresh Hnames].
    destruct (IH st1 Hnames Hrest) as (st' & t2 & Hloop & Hall).
    exists st', (t1 ++ t2)%list. split.
    + rewrite for_each_cons, (bind_Ok _ _ _ _ _ _ Hrun), Hloop. done.
    + intros m' Hm'. apply elem_of_cons in Hm' as [->|Hm']; [|by apply Hall].
      apply (preserves_for_each_in (fun s => up_to_date s m) rest update_model)
        with (st := st1) (st' := st') (tr := t2) (r := Ok tt); [|done..].
      intros m' Hm'. apply update_model_keeps_up_to_date.
      intros Heq. apply Hfresh. rewrite Heq.
      apply list_elem_of_fmap. by exists m'.
Qed.

(** A pass over models that are all up to date lists the registry and
    does nothing else. *)
Lemma update_models_up_to_date (st : State W) (w' : W)
    (all_models : list RegisteredModel) :
  os_call (world st) list_registered_models = (w', Ok all_models) ->
  (forall m, m ∈ all_models -> up_to_date (server st) m) ->
  update_models st
  = (mkState w' (set_openapi_schema None
                   (set_error_dict (delete "server") (server st))),
     [Called list_registered_models (Ok all_models)], Ok tt).
Proof.
  intros Hlist Hall. unfold update_models.
  rewrite (bind_Ok _ _ st (listed st w')
             [Called list_registered_models (Ok all_models)] all_models).
  - rewrite (bind_Ok (for_each all_models update_model) _
               (listed st w') (listed st w') [] tt); [done|].
    apply for_each_skips. intros m Hm. simpl.
    by apply up_to_date_set_error_dict, Hall.
  - unfold try_except, mbind, M_bind, bind, call, modify_server, ret.
    rewrite Hlist. by simpl.
Qed.

(** C9 (amended): a model whose active handler has the run identifier
    of the desired version is passed over: no call is made and the state
    is unchanged.  Consequently, when in a first pass no construction
    fails (and no two listed models share a name), a second pass against
    the unchanged registry listing, in whatever world it finds, makes no
    call but the listing, provisions nothing, and leaves the handler map
    and the route table as they are. *)
Theorem reconcile_twice_is_noop (st : State W) :
  (forall m model_version handler,
     get_version (config (server st)) m = Ok model_version ->
     model_dict (server st) !! quote_plus (m_name m) = Some handler ->
     h_run_id handler = mv_run_id model_version ->
     update_model m st = (st, [], Ok tt))
  /\ (forall w1 all_models,
        os_call (world st) list_registered_models = (w1, Ok all_models) ->
        NoDup (map (fun m => quote_plus (m_name m)) all_models) ->
        settles all_models (listed st w1) ->
        exists st1 tr1,
          update_models st = (st1, tr1, Ok tt)
          /\ forall w w2,
               os_call w list_registered_models = (w2, Ok all_models) ->
               exists st2 tr2,
                 update_models (mkState w (server st1)) = (st2, tr2, Ok tt)
                 /\ tr2 = [Called list_registered_models (Ok all_models)]
                 /\ existsb is_provisioning tr2 = false
                 /\ model_dict (server st2) = model_dict (server st1)
                 /\ routes (server st2) = routes (server st1)).
Proof.
  split.
  - intros m model_version handler Hversion Hhandler Hrun.
    apply update_model_skips. exists model_version. split; [done|]. left.
    unfold already_ok. rewrite Hhandler, Hrun. apply String.eqb_refl.
  - intros w1 all_models Hlist Hnames Hsettles.
    destruct (settles_for_each _ _ Hnames Hsettles) as (st' & tr & Hloop & Hall).
    eexists _, _. split.
    + unfold update_models.
      rewrite (bind_Ok _ _ st (listed st w1)
                 [Called list_registered_models (Ok all_models)] all_models).
      * rewrite (bind_Ok _ _ _ _ _ _ Hloop). reflexivity.
      * unfold try_except, mbind, M_bind, bind, call, modify_server, ret.
        rewrite Hlist. by simpl.
    + intros w w2 Hlist2. simpl.
      eexists _, _. split.
      * apply update_models_up_to_date with (w' := w2); [done|].
        intros m Hm. simpl.
        destruct (Hall m Hm) as (model_version & Hversion & Hskip).
        by exists model_version.
      * by simpl.
Qed.

End Reconciliation.

(** ** Reconciliation passes on concrete registries *)


(** The other case of C1 (amended) on a concrete registry: the model
    named "my model" is served at run [s1] with its route on
    ["/my model"], the registry wants run [s2], and building the new
    handler fails at the artifact download.  The deletion looked on
    ["/my+model"]: after the pass the route table is as it was, the
    prior route included, the prior handler has its entry and the error
    is recorded. *)
Lemma failed_update_keeps_route_of_quoted_name :
  let after := update_models offline_spaced in
  after.2 = Ok tt
  /\ quote_plus (m_name spaced) = "my+model"
  /\ model_dict (server after.1.1) !! "my+model" = Some spaced_handler_v1
  /\ error_dict (server after.1.1) !! "name" = Some (str_exn unreachable)
  /\ routes (server after.1.1) = routes (server offline_spaced)
  /\ In spaced_route_v1 (routes (server after.1.1)).
Proof.
  vm_compute. repeat split; try reflexivity.
  right. left. reflexivity.
Qed.


(** C2 fails on the code: iris and wine both fail to build in one pass,
    and the error map ends with the single key ["name"]; neither model's
    own name is a key, and the message of iris has been overwritten by
    that of wine.  This is so when the artifact store is unreachable,
    and also on the server as [Server.__init__] leaves it, where every
    construction stops at the missing [full_cache_dir]. *)
Lemma error_key_is_the_literal_name :
  let after := update_models offline in
  let after' := update_models unprepared in
  after.2 = Ok tt
  /\ model_dict (server after.1.1) = ∅
  /\ error_dict (server after.1.1) !! "iris" = None
  /\ error_dict (server after.1.1) !! "wine" = None
  /\ errors (server after.1.1) = {["name" := str_exn unreachable]}
  /\ after'.2 = Ok tt
  /\ model_dict (server after'.1.1) = ∅
  /\ errors (server after'.1.1)
     = {["name" := "'Server' object has no attribute 'full_cache_dir'"]}.
Proof. vm_compute. repeat split; reflexivity. Qed.

(** C4 fails on the code: a registered model without versions makes
    [get_version] raise outside the [try], the exception leaves
    [update_models], and iris, listed after it, is never looked at;
    listed alone, iris is built. *)
Lemma model_without_versions_aborts_pass :
  let aborted := update_models with_draft in
  let completed := update_models online in
  aborted.2 = Raise IndexError
  /\ aborted.1.2 = [Called list_registered_models (Ok [draft; iris])]
  /\ model_dict (server aborted.1.1) !! "iris" = None
  /\ completed.2 = Ok tt
  /\ h_run_id <$> model_dict (server completed.1.1) !! "iris" = Some "r2".
Proof. vm_compute. repeat split; reflexivity. Qed.

Lemma listing_failure_keeps_serving_witness :
  (exists st',
     update_models registry_down
     = (st',
        [Called list_registered_models
           (Raise (PyExc "MlflowException" "registry unavailable"))],
        Ok tt)
     /\ model_dict (server st') = model_dict (server registry_down)
     /\ routes (server st') = routes (server registry_down)
     /\ error_dict (server st')
        = <["server" := "registry unavailable"]> (error_dict (server registry_down)))
  /\ error_dict (server (update_models online).1.1) !! "server" = None.
Proof.
  split.
  - apply (proj1 (listing_failure_keeps_serving registry_down) (world registry_down)).
    reflexivity.
  - apply (proj2 (listing_failure_keeps_serving online) (world online) [iris]
             (update_models online).1.1 (update_models online).1.2
             (update_models online).2).
    + reflexivity.
    + by destruct (update_models online) as [[st' tr] r].
Defined.

Lemma reconcile_twice_is_noop_witness :
  (let st := (update_models online).1.1 in
   update_model iris st = (st, [], Ok tt))
  /\ exists st1 tr1,
       update_models online = (st1, tr1, Ok tt)
       /\ forall w w2,
            os_call w list_registered_models = (w2, Ok [iris]) ->
            exists st2 tr2,
              update_models (mkState w (server st1)) = (st2, tr2, Ok tt)
              /\ tr2 = [Called list_registered_models (Ok [iris])]
              /\ existsb is_provisioning tr2 = false
              /\ model_dict (server st2) = model_dict (server st1)
              /\ routes (server st2) = routes (server st1).
Proof.
  split.
  - intros st.
    destruct (model_dict (server st) !! "iris") as [handler|] eqn:Hhandler;
      [|by vm_compute in Hhandler].
    apply (proj1 (reconcile_twice_is_noop st) iris iris_v2 handler).
    + vm_compute. reflexivity.
    + exact Hhandler.
    + vm_compute in Hhandler. injection Hhandler as <-. reflexivity.
  - apply (proj2 (reconcile_twice_is_noop online) (world online) [iris]).
    + reflexivity.
    + apply NoDup_singleton.
    + simpl. eexists _, _. split; [vm_compute; reflexivity|]. split; [|exact I].
      exists iris_v2. split; [by vm_compute|]. left. by vm_compute.
Defined.

(** C9 as stated fails: the artifact store is unreachable, so the first
    pass cannot build iris and wine; the second pass, against the same
    registry listing, attempts both again and calls the artifact store
    again. *)
Lemma failed_model_is_provisioned_again :
  let first := update_models offline in
  let second := update_models first.1.1 in
  first.2 = Ok tt
  /\ sim_registry (world first.1.1) = sim_registry (world offline)
  /\ second.2 = Ok tt
  /\ existsb is_provisioning second.1.2 = true
  /\ In (Called (download_artifact (mv_source iris_v2) "cache/r2")
                (Raise unreachable))
        second.1.2.
Proof.
  vm_compute. repeat split; try reflexivity.
  do 6 right. left. reflexivity.
Qed.

(** ** Provisioning *)

Lemma filter_filter_andb {A} (f g : A -> bool) (l : list A) :
  List.filter g (List.filter f l) = List.filter (fun x => f x && g x) l.
Proof.
  induction l as [|x l IH]; [done|]. simpl.
  destruct (f x); simpl; [|done]. destruct (g x); by rewrite IH.
Qed.

Lemma fold_left_filter {A B} (keep : B -> A -> bool) (bs : list B) (l : list A) :
  fold_left (fun l b => List.filter (keep b) l) bs l
  = List.filter (fun x => forallb (fun b => keep b x) bs) l.
Proof.
  revert l. induction bs as [|b bs IH]; intros l; simpl.
  - induction l as [|x l IHl]; [done|]. simpl. by rewrite <- IHl.
  - by rewrite IH, filter_filter_andb.
Qed.

Section Provisioning.

Context {W : Type} `{!OS W}.
Variable good : W -> Prop.
Hypothesis Hanswered : answered setup_call good.

Lemma runs_ret {A} (a : A) (Q : A -> list (list string * string) -> Prop) :
  Q a [] -> runs good (mret a) Q.
Proof. intros HQ st Hgood. by exists st, [], a. Qed.

Lemma runs_bind {A B} (m : M W A) (k : A -> M W B)
    (Q1 : A -> list (list string * string) -> Prop)
    (Q : B -> list (list string * string) -> Prop) :
  runs good m Q1 ->
  (forall a c1, Q1 a c1 -> runs good (k a) (fun b c2 => Q b (c1 ++ c2)%list)) ->
  runs good (m ≫= k) Q.
Proof.
  intros Hm Hk st Hgood.
  destruct (Hm st Hgood) as (st1 & t1 & a & Hrun1 & Hgood1 & HQ1).
  destruct (Hk a _ HQ1 st1 Hgood1) as (st2 & t2 & b & Hrun2 & Hgood2 & HQ2).
  exists st2, (t1 ++ t2)%list, b.
  rewrite (bind_Ok _ _ _ _ _ _ Hrun1), Hrun2. simpl.
  split; [done|]. split; [done|].
  unfold processes in *. by rewrite flat_map_app, map_app.
Qed.

(** A call other than [subprocess_run] adds no command. *)
Lemma runs_call {A} (c : Call A) (Q : A -> list (list string * string) -> Prop) :
  setup_call A c = true ->
  (forall r, process_of (Called c r) = []) ->
  (forall a, Q a []) ->
  runs good (call c) Q.
Proof.
  intros Hsetup Hquiet HQ st Hgood.
  destruct (Hanswered A c (world st) Hsetup Hgood) as (w' & a & Hcall & Hgood').
  eexists _, _, a. unfold call. rewrite Hcall.
  split; [reflexivity|]. split; [done|].
  unfold processes. cbn [flat_map]. rewrite (Hquiet (Ok a)). apply HQ.
Qed.

(** A process is run and its exit status, whatever it is, is returned. *)
Lemma runs_subprocess (argv : list string) (cwd : string)
    (Q : Z -> list (list string * string) -> Prop) :
  (forall status, Q status [(argv, cwd)]) ->
  runs good (call (subprocess_run argv cwd)) Q.
Proof.
  intros HQ st Hgood.
  destruct (Hanswered Z (subprocess_run argv cwd) (world st) eq_refl Hgood)
    as (w' & status & Hcall & Hgood').
  eexists _, _, status. unfold call. rewrite Hcall.
  split; [reflexivity|]. split; [done|]. apply HQ.
Qed.

Lemma runs_bind_quiet {A B} (m : M W A) (k : A -> M W B)
    (Q : B -> list (list string * string) -> Prop) :
  runs good m (fun _ cs => cs = []) ->
  (forall a, runs good (k a) Q) ->
  runs good (m ≫= k) Q.
Proof.
  intros Hm Hk. apply runs_bind with (Q1 := fun _ cs => cs = []); [done|].
  intros a c1 ->. apply Hk.
Qed.

Lemma runs_bind_call {A B} (c : Call A) (k : A -> M W B)
    (Q : B -> list (list string * string) -> Prop) :
  setup_call A c = true ->
  (forall r, process_of (Called c r) = []) ->
  (forall a, runs good (k a) Q) ->
  runs good (call c ≫= k) Q.
Proof. intros Hsetup Hquiet Hk. apply runs_bind_quiet; [by apply runs_call|done]. Qed.

Lemma runs_bind_subprocess {B} (argv : list string) (cwd : string)
    (k : Z -> M W B) (Q : B -> list (list string * string) -> Prop) :
  (forall status, runs good (k status) (fun b cs => Q b ((argv, cwd) :: cs))) ->
  runs good (call (subprocess_run argv cwd) ≫= k) Q.
Proof.
  intros Hk. apply runs_bind with (Q1 := fun _ cs => cs = [(argv, cwd)]).
  - by apply runs_subprocess.
  - intros status c1 ->. apply Hk.
Qed.

Lemma runs_log_lines (file : string) (lines : list string) :
  runs good (for_each lines (fun r => call (file_write file (r ++ nl))))
       (fun _ cs => cs = []).
Proof.
  induction lines as [|line lines IH]; [by apply runs_ret|].
  rewrite for_each_cons. by apply runs_bind_call.
Qed.

(** The loop over the bundled packages runs, for every package, the
    optional requirements installation and then the build. *)
Lemma runs_install_libs (logfile model_folder : string) (lib_folders : list string)
    (Q : unit -> list (list string * string) -> Prop) :
  (forall libs : list (string * bool),
     map fst libs = lib_folders ->
     Q tt (flat_map (lib_commands model_folder) libs)) ->
  runs good
    (for_each lib_folders
       (fun lib_folder =>
          let lib_req_file := path_join lib_folder "requirements.txt" in
          has_lib_req ← call (path_exists lib_req_file);
          (if has_lib_req : bool
           then result_pip ← call (subprocess_run
                                     [path_join model_folder "./env/Scripts/pip";
                                      "install"; "-r"; lib_req_file]
                                     model_folder);
                ret tt
           else ret tt);;
          call (file_flush logfile);;
          result_lib ← call (subprocess_run
                               [path_join model_folder "./env/Scripts/python";
                                "./setup.py"; "build"; "install"]
                               lib_folder);
          call (file_flush logfile)))
    Q.
Proof.
  revert Q. induction lib_folders as [|lib_folder lib_folders IH]; intros Q HQ.
  - apply runs_ret. by apply (HQ []).
  - rewrite for_each_cons.
    apply runs_bind
      with (Q1 := fun _ cs => exists has_req : bool,
                      cs = lib_commands model_folder (lib_folder, has_req)).
    + cbv zeta. apply runs_bind_call; [done..|]. intros has_req.
      destruct has_req.
      * apply runs_bind
        with (Q1 := fun _ cs =>
                cs = [([path_join model_folder "./env/Scripts/pip"; "install";
                        "-r"; path_join lib_folder "requirements.txt"],
                       model_folder)]).
        { apply runs_bind_subprocess. intros _. by apply runs_ret. }
        intros _ c1 ->.
        apply runs_bind_call; [done..|]. intros _.
        apply runs_bind_subprocess. intros _.
        apply runs_call; [done..|]. intros _. by exists true.
      * apply runs_bind_quiet; [by apply runs_ret|]. intros _.
        apply runs_bind_call; [done..|]. intros _.
        apply runs_bind_subprocess. intros _.
        apply runs_call; [done..|]. intros _. by exists false.
    + intros _ c1 [has_req ->].
      apply IH. intros libs Hlibs.
      change (Q tt (flat_map (lib_commands model_folder)
                             ((lib_folder, has_req) :: libs))).
      apply HQ. by simpl; rewrite Hlibs.
Qed.

(** When none of the calls of provisioning raises, [_setup_model]
    returns, whatever the exit statuses of the processes are. *)
Lemma _setup_model_returns
    (work_folder model_folder model_version_source : string) (st : State W) :
  good (world st) ->
  exists st' tr,
    _setup_model work_folder model_folder model_version_source st
    = (st', tr, Ok tt).
Proof.
  intros Hgood.
  cut (runs good (_setup_model work_folder model_folder model_version_source)
         (fun _ cs => exists req libs, cs = setup_commands model_folder req libs)).
  { intros Hruns. destruct (Hruns st Hgood) as (st' & tr & [] & Hrun & _ & HQ).
    by exists st', tr. }
  unfold _setup_model. cbv zeta.
  do 6 (apply runs_bind_call; [done..|intros _]).
  apply runs_bind_subprocess. intros result_env.
  apply runs_bind_call; [done..|intros _].
  apply runs_bind_call; [done..|intros has_req_file].
  apply runs_bind_quiet; [by destruct has_req_file; apply runs_call|intros req].
  apply runs_bind_call; [done..|intros lib_folders].
  apply runs_bind_call; [done..|intros _].
  apply runs_bind_quiet; [apply runs_log_lines|intros _].
  apply runs_bind_call; [done..|intros _].
  apply runs_bind_subprocess. intros result_pip.
  apply runs_bind_call; [done..|intros _].
  apply runs_bind_call; [done..|intros lib_folders'].
  eapply runs_bind.
  - apply runs_install_libs with (Q := fun _ cs => exists libs, cs = flat_map (lib_commands model_folder) libs).
    intros libs _. by exists libs.
  - intros _ cs [libs ->].
    apply runs_call; [done..|]. intros _.
    eexists _, libs. unfold setup_commands. by rewrite app_nil_r.
Qed.

(** The loop that writes the requirements to the log runs nothing and
    asks nothing of the file system. *)
Lemma log_lines_trace (file : string) (lines : list string) (st st' : State W)
    (tr : list Event) (r : result unit) :
  for_each lines (fun line => call (file_write file (line ++ nl))) st
  = (st', tr, r) ->
  processes tr = [] /\ globs tr = [] /\ path_checks tr = []
  /\ requirement_reads tr = [].
Proof.
  revert st tr. induction lines as [|line lines IH]; intros st tr Hrun.
  - by injection Hrun as _ <- _.
  - rewrite for_each_cons in Hrun.
    apply bind_inv in Hrun
      as [(e & Hc & _)|(a & st1 & t1 & t2 & Hc & Hrun & ->)];
      apply call_inv in Hc as (-> & _ & _); [done|].
    destruct (IH _ _ Hrun) as (Hp & Hg & Hc & Hr).
    unfold processes, globs, path_checks, requirement_reads in *.
    rewrite !flat_map_app, Hp, Hg, Hc, Hr. done.
Qed.

(** The trace of the loop over the bundled packages, when it returns:
    for each package folder, in order, one check for its requirements
    file and, according to the answer, the commands of [lib_commands]. *)
Lemma install_libs_trace (logfile model_folder : string)
    (lib_folders : list string) (st st' : State W) (tr : list Event) (u : unit) :
  for_each lib_folders
    (fun lib_folder =>
       let lib_req_file := path_join lib_folder "requirements.txt" in
       has_lib_req ← call (path_exists lib_req_file);
       (if has_lib_req : bool
        then result_pip ← call (subprocess_run
                                  [path_join model_folder "./env/Scripts/pip";
                                   "install"; "-r"; lib_req_file]
                                  model_folder);
             ret tt
        else ret tt);;
       call (file_flush logfile);;
       result_lib ← call (subprocess_run
                            [path_join model_folder "./env/Scripts/python";
                             "./setup.py"; "build"; "install"]
                            lib_folder);
       call (file_flush logfile)) st
  = (st', tr, Ok u) ->
  exists libs : list (string * bool),
    map fst libs = lib_folders
    /\ map fst (processes tr) = flat_map (lib_commands model_folder) libs
    /\ path_checks tr
       = map (fun lib => (path_join lib.1 "requirements.txt", Ok lib.2)) libs
    /\ globs tr = [] /\ requirement_reads tr = [].
Proof.
  revert st tr. induction lib_folders as [|lib_folder lib_folders IH];
    intros st tr Hrun.
  - injection Hrun as _ <- _. by exists [].
  - rewrite for_each_cons in Hrun. cbv zeta in Hrun.
    bind_returned Hrun u1 st1 Hbody.
    bind_returned Hbody has_lib_req st2 Hexists.
    bind_returned Hbody u2 st3 Hreq.
    bind_returned Hbody u3 st4 Hflush1.
    bind_returned Hbody result_lib st5 Hlib.
    apply call_inv in Hexists as (-> & _ & _).
    apply call_inv in Hflush1 as (-> & _ & _).
    apply call_inv in Hlib as (-> & _ & _).
    apply call_inv in Hbody as (-> & _ & _).
    destruct (IH _ _ Hrun) as (libs & Hlibs & Hp & Hc & Hg & Hr).
    exists ((lib_folder, has_lib_req) :: libs).
    split; [by simpl; rewrite Hlibs|].
    destruct has_lib_req.
    + bind_returned Hreq result_pip st6 Hpip.
      apply call_inv in Hpip as (-> & _ & _).
      injection Hreq as _ <- _.
      unfold processes, globs, path_checks, requirement_reads in *.
      rewrite !flat_map_app, !map_app, Hp, Hc, Hg, Hr. done.
    + injection Hreq as _ <- _.
      unfold processes, globs, path_checks, requirement_reads in *.
      rewrite !flat_map_app, !map_app, Hp, Hc, Hg, Hr. done.
Qed.

(** The trace of a provisioning that returned: what it asked of the
    file system, and the commands it ran, which are those of
    [setup_commands] for the requirements it read, without the lines
    that mention a bundled package, and for the bundled packages it
    found. *)
Lemma _setup_model_trace
    (work_folder model_folder model_version_source : string)
    (st st' : State W) (tr : list Event) (u : unit) :
  let req_file := path_join model_folder "requirements.txt" in
  let pattern := path_join model_folder "code/*" in
  _setup_model work_folder model_folder model_version_source st
  = (st', tr, Ok u) ->
  exists (has_req_file : bool) (raw lib_folders : list string)
         (libs : list (string * bool)),
    path_checks tr
    = (req_file, Ok has_req_file)
      :: map (fun lib => (path_join lib.1 "requirements.txt", Ok lib.2)) libs
    /\ requirement_reads tr
       = [(if has_req_file then Some req_file else None, Ok raw)]
    /\ globs tr = [(pattern, Ok lib_folders); (pattern, Ok (map fst libs))]
    /\ map fst (processes tr)
       = setup_commands model_folder
           (map (rstrip is_newline)
              (List.filter
                 (fun line =>
                    forallb (fun lib_folder =>
                               negb (str_contains (path_basename lib_folder) line))
                            lib_folders)
                 raw))
           libs.
Proof.
  intros req_file pattern. unfold _setup_model. cbv zeta.
  fold req_file. fold pattern. intros Hrun.
  bind_returned Hrun u1 st1 Hopen.
  bind_returned Hrun u2 st2 Hwrite1.
  bind_returned Hrun u3 st3 Hflush1.
  bind_returned Hrun u4 st4 Hdownload.
  bind_returned Hrun u5 st5 Hwrite2.
  bind_returned Hrun u6 st6 Hflush2.
  bind_returned Hrun result_env st7 Henv.
  bind_returned Hrun u7 st8 Hflush3.
  bind_returned Hrun has_req_file st9 Hexists.
  bind_returned Hrun raw st10 Hreq.
  bind_returned Hrun lib_folders st11 Hglob.
  bind_returned Hrun u8 st12 Hwrite3.
  bind_returned Hrun u9 st13 Hlines.
  bind_returned Hrun u10 st14 Hflush4.
  bind_returned Hrun result_pip st15 Hpip.
  bind_returned Hrun u11 st16 Hflush5.
  bind_returned Hrun lib_folders' st17 Hglob2.
  bind_returned Hrun u12 st18 Hloop.
  rewrite fold_left_filter in Hpip.
  apply call_inv in Hopen as (-> & _ & _).
  apply call_inv in Hwrite1 as (-> & _ & _).
  apply call_inv in Hflush1 as (-> & _ & _).
  apply call_inv in Hdownload as (-> & _ & _).
  apply call_inv in Hwrite2 as (-> & _ & _).
  apply call_inv in Hflush2 as (-> & _ & _).
  apply call_inv in Henv as (-> & _ & _).
  apply call_inv in Hflush3 as (-> & _ & _).
  apply call_inv in Hexists as (-> & _ & _).
  apply call_inv in Hglob as (-> & _ & _).
  apply call_inv in Hwrite3 as (-> & _ & _).
  apply call_inv in Hflush4 as (-> & _ & _).
  apply call_inv in Hpip as (-> & _ & _).
  apply call_inv in Hflush5 as (-> & _ & _).
  apply call_inv in Hglob2 as (-> & _ & _).
  apply call_inv in Hrun as (-> & _ & _).
  apply log_lines_trace in Hlines as (Hp1 & Hg1 & Hc1 & Hr1).
  apply install_libs_trace in Hloop as (libs & <- & Hp2 & Hc2 & Hg2 & Hr2).
  exists has_req_file, raw, lib_folders, libs.
  unfold processes, globs, path_checks, requirement_reads in *.
  destruct has_req_file; apply call_inv in Hreq as (-> & _ & _);
    rewrite !flat_map_app, ?map_app, Hp1, Hg1, Hc1, Hr1, Hp2, Hg2, Hc2, Hr2;
    unfold setup_commands; simpl; by rewrite ?app_nil_r.
Qed.

(** C3 (amended): the exit status that each [subprocess.run] returns is
    bound and never looked at.  When none of the calls of provisioning
    raises, [_setup_model] returns normally whatever the exit statuses
    are, zero or not, and has run every step, in order: the virtual
    environment, the installation of the requirements it read (without
    the lines that mention a bundled package), and for each package
    folder that the second [glob] found, in its order, the installation
    of its requirements, exactly when [os.path.exists] found its
    requirements file, and its build. *)
Theorem setup_model_ignores_exit_status
    (work_folder model_folder model_version_source : string) (st : State W) :
  let req_file := path_join model_folder "requirements.txt" in
  let pattern := path_join model_folder "code/*" in
  good (world st) ->
  exists st' tr (has_req_file : bool) (raw lib_folders : list string)
         (libs : list (string * bool)),
    _setup_model work_folder model_folder model_version_source st
    = (st', tr, Ok tt)
    /\ path_checks tr
       = (req_file, Ok has_req_file)
         :: map (fun lib => (path_join lib.1 "requirements.txt", Ok lib.2)) libs
    /\ requirement_reads tr
       = [(if has_req_file then Some req_file else None, Ok raw)]
    /\ globs tr = [(pattern, Ok lib_folders); (pattern, Ok (map fst libs))]
    /\ map fst (processes tr)
       = setup_commands model_folder
           (map (rstrip is_newline)
              (List.filter
                 (fun line =>
                    forallb (fun lib_folder =>
                               negb (str_contains (path_basename lib_folder) line))
                            lib_folders)
                 raw))
           libs.
Proof.
  intros req_file pattern Hgood.
  destruct (_setup_model_returns work_folder model_folder model_version_source
              st Hgood) as (st' & tr & Hrun).
  destruct (_setup_model_trace _ _ _ _ _ _ _ Hrun)
    as (has_req_file & raw & lib_folders & libs & Htrace).
  by exists st', tr, has_req_file, raw, lib_folders, libs.
Qed.

End Provisioning.

(** In the simulated world every call of provisioning answers as long
    as the artifact store can be reached. *)
Lemma sim_answers :
  answered (W:=Sim) setup_call (fun w => sim_download w = Ok tt).
Proof.
  intros A c w Hsetup Hgood.
  destruct c; try discriminate Hsetup; simpl; try (by eexists _, _).
  rewrite Hgood. by eexists _, _.
Qed.

Lemma setup_model_ignores_exit_status_witness :
  sim_exit_status (world tools_fail) = 1
  /\ exists st' tr (has_req_file : bool) (raw lib_folders : list string)
            (libs : list (string * bool)),
       _setup_model "cache/r2" "cache/r2/model" (mv_source iris_v2) tools_fail
       = (st', tr, Ok tt)
       /\ path_checks tr
          = (path_join "cache/r2/model" "requirements.txt", Ok has_req_file)
            :: map (fun lib => (path_join lib.1 "requirements.txt", Ok lib.2)) libs
       /\ requirement_reads tr
          = [(if has_req_file
              then Some (path_join "cache/r2/model" "requirements.txt")
              else None, Ok raw)]
       /\ globs tr
          = [(path_join "cache/r2/model" "code/*", Ok lib_folders);
             (path_join "cache/r2/model" "code/*", Ok (map fst libs))]
       /\ map fst (processes tr)
          = setup_commands "cache/r2/model"
              (map (rstrip is_newline)
                 (List.filter
                    (fun line =>
                       forallb (fun lib_folder =>
                                  negb (str_contains (path_basename lib_folder)
                                                     line))
                               lib_folders)
                    raw))
              libs.
Proof.
  split; [reflexivity|].
  apply (setup_model_ignores_exit_status
           (fun w => sim_download w = Ok tt) sim_answers
           "cache/r2" "cache/r2/model" (mv_source iris_v2) tools_fail).
  reflexivity.
Defined.

(** C3 as stated fails: creating the virtual environment exits with
    status 1, nothing is raised, and the requirements installation and
    the package build are run after it; they exit with status 1 as well
    and provisioning still returns normally. *)
Lemma nonzero_exit_status_is_not_raised :
  let run := _setup_model "cache/r2" "cache/r2/model" (mv_source iris_v2)
                          tools_fail in
  run.2 = Ok tt
  /\ processes run.1.2
     = [ (["python"; "-m"; "venv"; "env"], "cache/r2/model", Ok 1);
         (["cache/r2/model/./env/Scripts/pip"; "install"; "mlflow";
           "cloudpickle==1.6.0"], "cache/r2/model", Ok 1);
         (["cache/r2/model/./env/Scripts/python"; "./setup.py"; "build";
           "install"], "cache/r2/model/code/mylib", Ok 1) ].
Proof. vm_compute. split; reflexivity. Qed.

(** * Further properties of the code *)

Local Set Warnings "-clear-no-such-hyp".

(** ** Example synthesis: when it returns *)

(** X1: [get_nested] returns an example exactly when the dtype is in the
    sample table and the shape is not empty.  For a dtype outside the
    table it raises [KeyError] naming the dtype, whatever the non-empty
    shape; for the empty shape it raises [RecursionError]. *)
Theorem get_nested_returns_iff (dtype : string) (shape : list Z) :
  match get_nested dtype shape with
  | Ok _ => is_Some (dtype_sample !! dtype) /\ shape <> []
  | Raise e =>
      (shape = [] /\ e = RecursionError)
      \/ (shape <> [] /\ dtype_sample !! dtype = None /\ e = KeyError dtype)
  end.
Proof.
  induction shape as [|d rest IH]; [by left|].
  destruct rest as [|d' rest].
  - simpl. destruct (dtype_sample !! dtype) eqn:Hsample.
    + split; [by eexists|done].
    + by right.
  - change (get_nested dtype (d :: d' :: rest))
      with (result_bind (get_nested dtype (d' :: rest))
              (fun inner => Ok (py_repeat inner (Z.max 1 d)))).
    destruct (get_nested dtype (d' :: rest)) as [inner|e]; simpl.
    + by destruct IH.
    + destruct IH as [[? _]|(_ & Hnone & ->)]; [done|]. by right.
Qed.

(** ** Desired-version selection: what is chosen *)

Lemma find_elem_of (p : ModelVersion -> bool) (versions : list ModelVersion)
    (v : ModelVersion) :
  List.find p versions = Some v -> v ∈ versions /\ p v = true.
Proof.
  induction versions as [|v' versions IH]; [done|].
  simpl. destruct (p v') eqn:Hp.
  - intros [= <-]. split; [by left|done].
  - intros Hfind. destruct (IH Hfind). split; [by right|done].
Qed.

Lemma find_existsb (p : ModelVersion -> bool) (versions : list ModelVersion) :
  existsb p versions = true -> is_Some (List.find p versions).
Proof.
  induction versions as [|v versions IH]; [done|].
  simpl. destruct (p v); [by eexists|done].
Qed.

(** X2: [get_version] raises exactly when the descriptor lists no
    version, and then it is [IndexError]; otherwise the version it
    returns is one of the listed versions. *)
Theorem get_version_listed (cfg : Config) (m : RegisteredModel) :
  match get_version cfg m with
  | Ok v => v ∈ m_latest_versions m
  | Raise e => m_latest_versions m = [] /\ e = IndexError
  end.
Proof.
  unfold get_version. rewrite !nonempty_filter, !first_item_filter.
  destruct (staging cfg && existsb (has_stage "Staging") (m_latest_versions m))
    eqn:Hstaging.
  - apply andb_prop in Hstaging as [_ Hexists].
    destruct (find_existsb _ _ Hexists) as [v Hfind]. rewrite Hfind.
    by apply find_elem_of in Hfind as [? _].
  - destruct (existsb (has_stage "Production") (m_latest_versions m)) eqn:Hprod.
    + destruct (find_existsb _ _ Hprod) as [v Hfind]. rewrite Hfind.
      by apply find_elem_of in Hfind as [? _].
    + destruct (m_latest_versions m) as [|v versions]; [done|]. by left.
Qed.

(** X3: when a Production version is listed, the chosen version is a
    Production version, or, with staging preferred, a Staging version;
    a version in any other stage is never chosen then. *)
Theorem get_version_prefers_production (cfg : Config) (m : RegisteredModel)
    (v : ModelVersion) :
  existsb (has_stage "Production") (m_latest_versions m) = true ->
  get_version cfg m = Ok v ->
  mv_current_stage v = "Production"
  \/ (staging cfg = true /\ mv_current_stage v = "Staging").
Proof.
  intros Hprod. unfold get_version.
  rewrite !nonempty_filter, !first_item_filter, Hprod.
  destruct (staging cfg && existsb (has_stage "Staging") (m_latest_versions m))
    eqn:Hstaging.
  - apply andb_prop in Hstaging as [Hflag Hexists].
    destruct (List.find (has_stage "Staging") (m_latest_versions m))
      as [v'|] eqn:Hfind; [|done].
    intros [= <-]. right. split; [done|].
    apply find_elem_of in Hfind as [_ Hstage]. by apply String.eqb_eq.
  - destruct (List.find (has_stage "Production") (m_latest_versions m))
      as [v'|] eqn:Hfind; [|done].
    intros [= <-]. left.
    apply find_elem_of in Hfind as [_ Hstage]. by apply String.eqb_eq.
Qed.

Lemma get_version_prefers_production_witness :
  get_version default_config churn = Ok churn_v1
  /\ (mv_current_stage churn_v1 = "Production"
      \/ (staging default_config = true /\ mv_current_stage churn_v1 = "Staging")).
Proof.
  split; [reflexivity|].
  apply (get_version_prefers_production default_config churn churn_v1);
    reflexivity.
Defined.

(** ** Request parsing and the errors of a prediction *)

Section Requests.

Context {W : Type} `{!OS W}.

Lemma input_types_Ok (els : Schema) (acc types : gmap string string)
    (key dtype : string) :
  input_types els acc = Ok types ->
  types !! key = Some dtype ->
  acc !! key = Some dtype
  \/ exists el spec,
       el ∈ els /\ el_name el = Some key /\ el_tensor_spec el = Some spec
       /\ ts_dtype spec = dtype.
Proof.
  revert acc. induction els as [|el els IH]; intros acc; simpl.
  - intros [= ->]. by left.
  - destruct (el_name el) as [name|] eqn:Hname.
    + destruct (el_tensor_spec el) as [spec|] eqn:Hspec; [|done].
      intros Htypes Hkey.
      destruct (IH _ Htypes Hkey) as [Hacc|(el' & spec' & Hel & ?)].
      * destruct (decide (name = key)) as [->|Hne].
        -- rewrite lookup_insert_eq in Hacc. injection Hacc as <-.
           right. exists el, spec. repeat split; try done. by left.
        -- rewrite lookup_insert_ne in Hacc by done. by left.
      * right. exists el', spec'. split; [by right|done].
    + intros Htypes Hkey.
      destruct (IH _ Htypes Hkey) as [Hacc|(el' & spec' & Hel & ?)]; [by left|].
      right. exists el', spec'. split; [by right|done].
Qed.

Lemma astype_items_Ok (types : gmap string string)
    (items : list (string * pyval)) (acc out : gmap string ndarray) :
  astype_items types items acc = Ok out ->
  dom out = dom acc ∪ list_to_set items.*1
  /\ forall key arr,
       out !! key = Some arr ->
       acc !! key = Some arr
       \/ exists val dtype,
            (key, val) ∈ items /\ types !! key = Some dtype
            /\ np_astype val dtype = Ok arr.
Proof.
  revert acc. induction items as [|[key' val'] items IH]; intros acc; simpl.
  - intros [= ->]. split; [set_solver|]. intros key arr ?. by left.
  - destruct (types !! key') as [dtype|] eqn:Htype; [|done].
    destruct (np_astype val' dtype) as [arr'|] eqn:Hastype; [|done]. simpl.
    intros Hrest. destruct (IH _ Hrest) as [Hdom Hvalues]. split.
    + rewrite Hdom, dom_insert_L. set_solver.
    + intros key arr Hkey.
      destruct (Hvalues key arr Hkey) as [Hacc|(val & dtype' & Hin & ?)].
      * destruct (decide (key' = key)) as [->|Hne].
        -- rewrite lookup_insert_eq in Hacc. injection Hacc as <-.
           right. exists val', dtype. split; [by left|done].
        -- rewrite lookup_insert_ne in Hacc by done. by left.
      * right. exists val, dtype'. split; [by right|done].
Qed.

(** X4: when [numpy_input] returns, the result has exactly the keys of
    the data, and every array in it is a supplied value of that key
    coerced to the dtype that a named tensor field of the schema
    declares for it.  (A key that no named field declares therefore
    makes [numpy_input] raise.) *)
Theorem numpy_input_Ok (data : list (string * pyval)) (input_cfg : Schema)
    (arrays : gmap string ndarray) :
  numpy_input data input_cfg = Ok arrays ->
  dom arrays = list_to_set data.*1
  /\ forall key arr,
       arrays !! key = Some arr ->
       exists val el spec,
         (key, val) ∈ data /\ el ∈ input_cfg
         /\ el_name el = Some key /\ el_tensor_spec el = Some spec
         /\ np_astype val (ts_dtype spec) = Ok arr.
Proof.
  unfold numpy_input.
  destruct (input_types input_cfg ∅) as [types|] eqn:Htypes; [|done]. simpl.
  intros Hitems. destruct (astype_items_Ok _ _ _ _ Hitems) as [Hdom Hvalues].
  split; [rewrite Hdom; set_solver|].
  intros key arr Hkey.
  destruct (Hvalues key arr Hkey) as [Hempty|(val & dtype & Hin & Htype & Hastype)];
    [by rewrite lookup_empty in Hempty|].
  destruct (input_types_Ok _ _ _ _ _ Htypes Htype)
    as [Hempty|(el & spec & Hel & Hname & Hspec & <-)];
    [by rewrite lookup_empty in Hempty|].
  by exists val, el, spec.
Qed.

Lemma input_types_column (els : Schema) (acc : gmap string string) :
  (exists el, el ∈ els /\ is_Some (el_name el) /\ el_tensor_spec el = None) ->
  input_types els acc = Raise (KeyError "tensor-spec").
Proof.
  revert acc. induction els as [|el els IH]; intros acc (el' & Hel & Hname & Hspec).
  - by apply elem_of_nil in Hel.
  - simpl. apply elem_of_cons in Hel as [<-|Hel].
    + destruct Hname as [name ->]. by rewrite Hspec.
    + destruct (el_name el); [destruct (el_tensor_spec el); [|done]|];
        apply IH; by exists el'.
Qed.

(** X5: a handler whose input schema has a named element without a
    tensor spec, as every column-based signature has, answers every
    request that carries a body with the "Parse input error" of a
    [KeyError] on ["tensor-spec"]; the predictor is never reached. *)
Theorem apply_model_rejects_column_schema (self : BaseHandler)
    (items : list (string * pyval)) :
  h_input_schema_class self <> None ->
  (exists el, el ∈ h_input_schema self
              /\ is_Some (el_name el) /\ el_tensor_spec el = None) ->
  apply_model self (Some items)
  = Raise (HTTPException 442 "Parse input error" "'tensor-spec'"
                         "<class 'KeyError'>").
Proof.
  intros Hclass Hcolumn. unfold apply_model.
  rewrite (bool_decide_eq_false_2 _ Hclass).
  destruct (h_input_schema self) as [|el0 els] eqn:Hschema.
  { destruct Hcolumn as (el & Hel & _). by apply elem_of_nil in Hel. }
  simpl. unfold numpy_input.
  by rewrite (input_types_column (el0 :: els) ∅ Hcolumn).
Qed.

(** X6: whatever [apply_model] raises comes from one of its four
    steps.  The exception that parsing the body, the predictor (or the
    missing [self.model]) or [parse_output] raised is replaced by an
    [HTTPException] with status 442, the location tag of that step and
    [str(ex)] and [str(type(ex))] of that very exception; the exception
    that [int(self.version)] raised, after the three steps returned, is
    not wrapped. *)
Theorem apply_model_errors (self : BaseHandler)
    (data : option (list (string * pyval))) (e : exn) :
  apply_model self data = Raise e ->
  (exists ex,
     h_input_schema_class self <> None /\ h_input_schema self <> []
     /\ match data with
        | Some items => numpy_input items (h_input_schema self) = Raise ex
        | None => ex = AttributeError "NoneType" "__dict__"
        end
     /\ e = HTTPException 442 "Parse input error" (str_exn ex) (type_exn ex))
  \/ (exists np_in ex,
        request_input self data np_in
        /\ match h_model self with
           | Some predict => predict np_in = Raise ex
           | None => ex = AttributeError "BaseHandler" "model"
           end
        /\ e = HTTPException 442 "Model prediction error"
                             (str_exn ex) (type_exn ex))
  \/ (exists predict np_in model_out ex,
        request_input self data np_in
        /\ h_model self = Some predict /\ predict np_in = Ok model_out
        /\ parse_output model_out = Raise ex
        /\ e = HTTPException 442 "Parse output error"
                             (str_exn ex) (type_exn ex))
  \/ (exists predict np_in model_out parsed,
        request_input self data np_in
        /\ h_model self = Some predict /\ predict np_in = Ok model_out
        /\ parse_output model_out = Ok parsed
        /\ py_int (h_version self) = Raise e).
Proof.
  unfold apply_model. intros Happly.
  destruct (if bool_decide (h_input_schema_class self = None)
               || (length (h_input_schema self) =? 0)%nat
            then Ok NpEmpty
            else reraise_as "Parse input error" _) as [np_in|e1] eqn:Hin.
  - assert (Hinput : request_input self data np_in).
    { unfold request_input.
      destruct (bool_decide (h_input_schema_class self = None)
                || (length (h_input_schema self) =? 0)%nat);
        [by injection Hin as <-|].
      apply reraise_as_Ok in Hin. destruct data as [items|]; [|done].
      simpl in Hin.
      destruct (numpy_input items (h_input_schema self)) as [arrays|] eqn:Hrun;
        [|done].
      injection Hin as <-. by exists items, arrays. }
    right. simpl in Happly.
    destruct (reraise_as "Model prediction error" _) as [model_out|e2] eqn:Hpred.
    + apply reraise_as_Ok in Hpred.
      destruct (h_model self) as [predict|] eqn:Hmodel; [|done].
      simpl in Hpred, Happly. right.
      destruct (reraise_as "Parse output error" _) as [parsed|e3] eqn:Hparse.
      * apply reraise_as_Ok in Hparse. simpl in Happly. right.
        destruct (py_int (h_version self)) as [version|e4]; [done|].
        simpl in Happly. injection Happly as ->.
        by exists predict, np_in, model_out, parsed.
      * simpl in Happly. injection Happly as ->. left.
        unfold reraise_as in Hparse.
        destruct (parse_output model_out) as [|ex] eqn:Hout; [done|].
        injection Hparse as <-.
        by exists predict, np_in, model_out, ex.
    + simpl in Happly. injection Happly as ->. left.
      destruct (h_model self) as [predict|] eqn:Hmodel; simpl in Hpred.
      * destruct (predict np_in) as [|ex] eqn:Hrun; [done|].
        injection Hpred as <-. by exists np_in, ex.
      * injection Hpred as <-. by exists np_in, (AttributeError "BaseHandler" "model").
  - simpl in Happly. injection Happly as ->. left.
    destruct (bool_decide (h_input_schema_class self = None)
              || (length (h_input_schema self) =? 0)%nat) eqn:Hempty; [done|].
    apply orb_false_iff in Hempty as [Hclass Hlen].
    apply bool_decide_eq_false_1 in Hclass.
    assert (Hschema : h_input_schema self <> []).
    { intros Hnil. by rewrite Hnil in Hlen. }
    destruct data as [items|]; simpl in Hin.
    + destruct (numpy_input items (h_input_schema self)) as [|ex] eqn:Hrun;
        [done|].
      injection Hin as <-. by exists ex.
    + injection Hin as <-. by exists (AttributeError "NoneType" "__dict__").
Qed.

(** A handler without a predictor answers every request with a 442
    error: a "Parse input error" when the body cannot be parsed, and
    otherwise the "Model prediction error" of the missing attribute. *)
Lemma apply_model_without_model (self : BaseHandler)
    (data : option (list (string * pyval))) :
  h_model self = None ->
  (exists msg ty,
     apply_model self data = Raise (HTTPException 442 "Parse input error" msg ty))
  \/ apply_model self data
     = Raise (HTTPException 442 "Model prediction error"
                "'BaseHandler' object has no attribute 'model'"
                "<class 'AttributeError'>").
Proof.
  intros Hmodel. unfold apply_model.
  destruct (if bool_decide (h_input_schema_class self = None)
               || (length (h_input_schema self) =? 0)%nat
            then Ok NpEmpty
            else reraise_as "Parse input error" _) as [np_in|e1] eqn:Hin.
  - right. simpl. by rewrite Hmodel.
  - left. simpl.
    destruct (bool_decide (h_input_schema_class self = None)
              || (length (h_input_schema self) =? 0)%nat); [done|].
    unfold reraise_as in Hin at 1.
    match type of Hin with
    | match ?r with _ => _ end = _ => destruct r as [|ex]; [done|]
    end.
    injection Hin as <-. by eexists _, _.
Qed.

End Requests.

Lemma numpy_input_Ok_witness :
  let data := [("x", PyList [PyList [PyInt 5; PyInt 3; PyInt 1; PyInt 0]])] in
  exists arrays,
    numpy_input (W:=Sim) data iris_schema = Ok arrays
    /\ dom arrays = list_to_set data.*1
    /\ forall key arr,
         arrays !! key = Some arr ->
         exists val el spec,
           (key, val) ∈ data /\ el ∈ iris_schema
           /\ el_name el = Some key /\ el_tensor_spec el = Some spec
           /\ np_astype val (ts_dtype spec) = Ok arr.
Proof.
  intros data.
  destruct (numpy_input (W:=Sim) data iris_schema) as [arrays|] eqn:Hrun;
    [|by vm_compute in Hrun].
  exists arrays. split; [reflexivity|].
  exact (numpy_input_Ok data iris_schema arrays Hrun).
Defined.

Lemma apply_model_rejects_column_schema_witness :
  apply_model tabular_handler (Some [("age", PyInt 41); ("income", PyFloat 525 2)])
  = Raise (HTTPException 442 "Parse input error" "'tensor-spec'"
                         "<class 'KeyError'>").
Proof.
  apply (apply_model_rejects_column_schema tabular_handler).
  - discriminate.
  - exists (mkSchemaField (Some "age") "long" None).
    split; [by left|]. split; [by eexists|reflexivity].
Defined.

Lemma apply_model_errors_witness :
  let self := iris_handler_v1 in
  let data := colliding_request in
  let e := HTTPException 442 "Model prediction error"
             "'BaseHandler' object has no attribute 'model'"
             "<class 'AttributeError'>" in
  apply_model self data = Raise e
  /\ ((exists ex,
         h_input_schema_class self <> None /\ h_input_schema self <> []
         /\ match data with
            | Some items => numpy_input items (h_input_schema self) = Raise ex
            | None => ex = AttributeError "NoneType" "__dict__"
            end
         /\ e = HTTPException 442 "Parse input error" (str_exn ex) (type_exn ex))
      \/ (exists np_in ex,
            request_input self data np_in
            /\ match h_model self with
               | Some predict => predict np_in = Raise ex
               | None => ex = AttributeError "BaseHandler" "model"
               end
            /\ e = HTTPException 442 "Model prediction error"
                                 (str_exn ex) (type_exn ex))
      \/ (exists predict np_in model_out ex,
            request_input self data np_in
            /\ h_model self = Some predict /\ predict np_in = Ok model_out
            /\ parse_output model_out = Raise ex
            /\ e = HTTPException 442 "Parse output error"
                                 (str_exn ex) (type_exn ex))
      \/ (exists predict np_in model_out parsed,
            request_input self data np_in
            /\ h_model self = Some predict /\ predict np_in = Ok model_out
            /\ parse_output model_out = Ok parsed
            /\ py_int (h_version self) = Raise e)).
Proof.
  intros self data e.
  assert (Hrun : apply_model self data = Raise e) by (vm_compute; reflexivity).
  split; [exact Hrun|].
  exact (apply_model_errors self data e Hrun).
Defined.

(** ** What a successful construction returns *)

Section Constructed.

Context {W : Type} `{!OS W}.

Lemma call_server {A} (c : Call A) (st st' : State W) (tr : list Event)
    (r : result A) :
  call c st = (st', tr, r) -> server st' = server st.
Proof.
  intros Hrun.
  by apply (preserves_call (fun s => s = server st) c _ _ _ _ Hrun).
Qed.

Lemma update_schema_classes_Ok (h self : BaseHandler) (st st' : State W)
    (tr : list Event) :
  update_schema_classes h st = (st', tr, Ok self) ->
  exists input_ns output_examples output_ns,
    example_namespace true (h_input_example_data h) (h_input_schema h) ∅
    = Ok input_ns
    /\ example_namespace false output_examples (h_output_schema h) ∅
       = Ok output_ns
    /\ self
       = mkBaseHandler (h_m h) (h_name h) (h_model_version_source h) (h_run_id h)
           (h_work_folder h) (h_model_folder h) (h_port h)
           (h_input_example_data h) (h_version h) (h_source h)
           (h_input_schema h) (h_output_schema h) (h_description h)
           (h_creation h) (Some input_ns) (Some output_ns) (h_model h).
Proof.
  unfold update_schema_classes. intros Hrun.
  bind_returned Hrun input_ns st1 Hinput.
  bind_returned Hrun u1 st2 Hclass1. cbv zeta in Hrun.
  bind_returned Hrun output_ns st3 Houtput.
  bind_returned Hrun u2 st4 Hclass2.
  bind_returned Hrun u3 st5 Hinst1.
  bind_returned Hrun u4 st6 Hinst2.
  injection Hrun as _ _ <-.
  injection Hinput as _ _ Hinput. injection Houtput as _ _ Houtput.
  by eexists input_ns, _, output_ns.
Qed.

(** What [__init__] returns, and what it has done to the server by
    then: the handler carries the descriptor and the version it was
    given, its output schema is the declared one followed by the two
    provenance fields, both schema classes exist, no predictor is
    assigned, and exactly one route has been appended. *)
Lemma BaseHandler_init_Ok (m : RegisteredModel) (model_version : ModelVersion)
    (st st' : State W) (tr : list Event) (self : BaseHandler) :
  BaseHandler_init m model_version st = (st', tr, Ok self) ->
  exists cache port examples metadata creation input_ns output_ns,
    full_cache_dir (server st) = Some cache
    /\ self
       = mkBaseHandler m (m_name m) (mv_source model_version)
           (mv_run_id model_version)
           (path_join cache (mv_run_id model_version))
           (path_join (path_join cache (mv_run_id model_version))
                      (last_segment "" (mv_source model_version)))
           port examples (mv_version model_version) (mv_source model_version)
           (schema_or_empty (md_input_schema metadata))
           (schema_or_empty (md_output_schema metadata) ++ provenance_fields)%list
           (m_description m) creation (Some input_ns) (Some output_ns) None
    /\ server st'
       = set_routes
           (fun rs =>
              (rs ++ [mkRoute (basepath (config (server st)) ++ "/" ++ m_name m)
                              (if (length (schema_or_empty (md_input_schema metadata))
                                   =? 0)%nat
                               then "GET" else "POST")
                              (m_name m)
                              (0 <? length (token (config (server st))))%nat
                              (Some (mv_run_id model_version))])%list)
           (server st).
Proof.
  unfold BaseHandler_init, _get_free_port, _get_input_example. intros Hrun.
  bind_returned Hrun srv st1 Hsrv. injection Hsrv as <- _ <-.
  cbv zeta in Hrun.
  bind_returned Hrun cache st1 Hcache.
  destruct (full_cache_dir (server st)) as [dir|] eqn:Hdir; [|done].
  injection Hcache as <- _ <-.
  bind_returned Hrun u1 st2 Hmkdir. apply call_server in Hmkdir.
  bind_returned Hrun folder_exists st3 Hexists. apply call_server in Hexists.
  bind_returned Hrun u2 st4 Hsetup.
  assert (Hserver4 : server st4 = server st3).
  { destruct folder_exists.
    - by injection Hsetup as <- _.
    - by apply (_setup_model_preserves (fun s => s = server st3) _ _ _ _ _ _ _ Hsetup). }
  bind_returned Hrun free_port st5 Hport. apply call_server in Hport.
  bind_returned Hrun u3 st6 Hstart.
  pose proof (_start_server_preserves (fun s => s = server st5) _ _ _ _ _ _ _
                Hstart eq_refl) as Hserver6.
  bind_returned Hrun metadata st7 Hload. apply call_server in Hload.
  cbv zeta in Hrun.
  bind_returned Hrun examples st8 Hexamples.
  assert (Hserver8 : server st8 = server st7).
  { assert (Hkeeps : preserves (W:=W) (fun s => s = server st7)
                         (try_except
                            (call (json_load
                                     (path_join
                                        (path_join
                                           (path_join dir (mv_run_id model_version))
                                           (last_segment "" (mv_source model_version)))
                                        "input_example.json")))
                            (fun _ => ret ∅)))
      by repeat preserves_step.
    exact (Hkeeps _ _ _ _ Hexamples eq_refl). }
  bind_returned Hrun creation st9 Hcreation. apply call_server in Hcreation.
  bind_returned Hrun built st10 Hclasses.
  pose proof (update_schema_classes_preserves (fun s => s = server st9) _ _ _ _ _
                Hclasses eq_refl) as Hserver10.
  apply update_schema_classes_Ok in Hclasses
    as (input_ns & output_examples & output_ns & _ & _ & ->).
  bind_returned Hrun u4 st11 Hroute.
  injection Hrun as <- _ <-.
  unfold register_route, mbind, M_bind, bind, get_server, modify_server in Hroute.
  simpl in Hroute. injection Hroute as <- _.
  exists dir, free_port, examples, metadata, creation, input_ns, output_ns.
  split; [done|]. split; [done|]. simpl.
  rewrite Hserver10, Hcreation, Hserver8, Hload, Hserver6, Hport, Hserver4,
    Hexists, Hmkdir.
  reflexivity.
Qed.

End Constructed.

Section ConstructedHandler.

Context {W : Type} `{!OS W}.

(** X7: the handler that [__init__] returns carries the name of the
    descriptor and the run identifier, version and source of the version
    it was built for; its output schema ends with the two provenance
    fields ["x__version"] and ["x__mlflow_id"], whatever the model
    declares; and both schema classes have been generated. *)
Theorem constructed_handler (m : RegisteredModel) (model_version : ModelVersion)
    (st st' : State W) (tr : list Event) (self : BaseHandler) :
  BaseHandler_init m model_version st = (st', tr, Ok self) ->
  h_m self = m
  /\ h_name self = m_name m
  /\ h_run_id self = mv_run_id model_version
  /\ h_version self = mv_version model_version
  /\ h_source self = mv_source model_version
  /\ (exists declared,
        h_output_schema self = (declared ++ provenance_fields)%list)
  /\ (el_name <$> provenance_fields (W:=W)
      = [Some "x__version"; Some "x__mlflow_id"])
  /\ is_Some (h_input_schema_class self)
  /\ is_Some (h_output_schema_class self).
Proof.
  intros Hrun.
  destruct (BaseHandler_init_Ok _ _ _ _ _ _ Hrun)
    as (cache & free_port & examples & metadata & creation & input_ns
        & output_ns & _ & -> & _).
  simpl. repeat split; try done; by eexists.
Qed.

(** X8: a construction that returns has appended exactly one route to
    the route table and changed nothing else of the server.  The route
    is on the path [basepath + "/" + m.name], with the name as the
    registry gives it; it is bound to the new run identifier; its method
    is GET exactly when the input schema is empty, POST otherwise; and
    it asks for a bearer token exactly when the token list of the
    configuration is not empty. *)
Theorem constructed_route (m : RegisteredModel) (model_version : ModelVersion)
    (st st' : State W) (tr : list Event) (self : BaseHandler) :
  BaseHandler_init m model_version st = (st', tr, Ok self) ->
  exists r,
    routes (server st') = (routes (server st) ++ [r])%list
    /\ r_path r = basepath (config (server st)) ++ "/" ++ m_name m
    /\ r_run_id r = Some (mv_run_id model_version)
    /\ (r_method r = "GET" \/ r_method r = "POST")
    /\ (r_method r = "GET" <-> h_input_schema self = [])
    /\ (r_secured r = true <-> token (config (server st)) <> [])
    /\ config (server st') = config (server st)
    /\ model_dict (server st') = model_dict (server st)
    /\ error_dict (server st') = error_dict (server st).
Proof.
  intros Hrun.
  destruct (BaseHandler_init_Ok _ _ _ _ _ _ Hrun)
    as (cache & free_port & examples & metadata & creation & input_ns
        & output_ns & _ & -> & ->).
  eexists. simpl. split; [reflexivity|]. simpl.
  repeat split; try done.
  - destruct (schema_or_empty (md_input_schema metadata)); simpl; auto.
  - by destruct (schema_or_empty (md_input_schema metadata)).
  - by intros ->.
  - by destruct (token (config (server st))).
  - by destruct (token (config (server st))).
Qed.

(** X9: the handler that [__init__] returns has no predictor, because
    [__init__] never assigns [self.model]; every request to it is
    answered with a 442 error, and no prediction is ever returned. *)
Theorem constructed_handler_cannot_predict (m : RegisteredModel)
    (model_version : ModelVersion) (st st' : State W) (tr : list Event)
    (self : BaseHandler) (data : option (list (string * pyval))) :
  BaseHandler_init m model_version st = (st', tr, Ok self) ->
  h_model self = None
  /\ exists loc msg ty,
       apply_model self data = Raise (HTTPException 442 loc msg ty)
       /\ (loc = "Parse input error" \/ loc = "Model prediction error").
Proof.
  intros Hrun.
  assert (Hmodel : h_model self = None).
  { by destruct (BaseHandler_init_Ok _ _ _ _ _ _ Hrun)
      as (cache & free_port & examples & metadata & creation & input_ns
          & output_ns & _ & -> & _). }
  split; [done|].
  destruct (apply_model_without_model self data Hmodel) as [(msg & ty & ->)| ->].
  - exists "Parse input error", msg, ty. auto.
  - eexists _, _, _. split; [reflexivity|]. auto.
Qed.

End ConstructedHandler.

Lemma constructed_handler_witness :
  let run := BaseHandler_init iris iris_v2 online in
  run.2 = Ok built_iris
  /\ h_m built_iris = iris
  /\ h_name built_iris = "iris"
  /\ h_run_id built_iris = "r2"
  /\ h_version built_iris = "2"
  /\ h_source built_iris = mv_source iris_v2
  /\ (exists declared,
        h_output_schema built_iris
        = (declared ++ provenance_fields (W:=Sim))%list)
  /\ (el_name <$> provenance_fields (W:=Sim)
      = [Some "x__version"; Some "x__mlflow_id"])
  /\ is_Some (h_input_schema_class built_iris)
  /\ is_Some (h_output_schema_class built_iris).
Proof.
  intros run. split; [vm_compute; reflexivity|].
  apply (constructed_handler iris iris_v2 online run.1.1 run.1.2 built_iris).
  vm_compute. reflexivity.
Defined.

Lemma constructed_route_witness :
  let run := BaseHandler_init iris iris_v2 online in
  exists r,
    routes (server run.1.1) = (routes (server online) ++ [r])%list
    /\ r_path r = "/iris"
    /\ r_run_id r = Some "r2"
    /\ (r_method r = "GET" \/ r_method r = "POST")
    /\ (r_method r = "GET" <-> h_input_schema built_iris = [])
    /\ (r_secured r = true <-> token (config (server online)) <> [])
    /\ config (server run.1.1) = config (server online)
    /\ model_dict (server run.1.1) = model_dict (server online)
    /\ error_dict (server run.1.1) = error_dict (server online).
Proof.
  intros run.
  apply (constructed_route iris iris_v2 online run.1.1 run.1.2 built_iris).
  vm_compute. reflexivity.
Defined.

Lemma constructed_handler_cannot_predict_witness :
  h_model built_iris = None
  /\ exists loc msg ty,
       apply_model built_iris colliding_request
       = Raise (HTTPException 442 loc msg ty)
       /\ (loc = "Parse input error" \/ loc = "Model prediction error").
Proof.
  apply (constructed_handler_cannot_predict iris iris_v2 online
           (BaseHandler_init iris iris_v2 online).1.1
           (BaseHandler_init iris iris_v2 online).1.2
           built_iris colliding_request).
  vm_compute. reflexivity.
Defined.

(** ** A successful rebuild *)

Section Rebuild.

Context {W : Type} `{!OS W}.

Lemma create_new_handler_success (name : string) (m : RegisteredModel)
    (model_version : ModelVersion) (st st2 : State W) (t2 : list Event)
    (self : BaseHandler) :
  BaseHandler_init m model_version st = (st2, t2, Ok self) ->
  create_new_handler name m model_version st
  = (mkState (world st2)
       (set_error_dict (delete name)
          (set_model_dict <[name := self]> (server st2))),
     t2, Ok tt).
Proof.
  intros Hinit. unfold create_new_handler, try_except.
  rewrite (bind_Ok _ _ _ _ _ _ Hinit). simpl. by rewrite app_nil_r.
Qed.

(** The server after an iteration that deleted the old route and built
    the new handler. *)
Lemma update_model_success (m : RegisteredModel) (model_version : ModelVersion)
    (st st1 st2 : State W) (t1 t2 : list Event) (self : BaseHandler) :
  get_version (config (server st)) m = Ok model_version ->
  already_ok (server st) (quote_plus (m_name m)) model_version = false ->
  tag_mismatch (config (server st)) m = false ->
  delete_old_route
    (basepath (config (server st)) ++ "/" ++ quote_plus (m_name m)) st
  = (st1, t1, Ok tt) ->
  BaseHandler_init m model_version st1 = (st2, t2, Ok self) ->
  exists st' r,
    update_model m st = (st', (t1 ++ t2)%list, Ok tt)
    /\ config (server st') = config (server st)
    /\ model_dict (server st')
       = <[quote_plus (m_name m) := self]> (model_dict (server st))
    /\ error_dict (server st')
       = delete (quote_plus (m_name m)) (error_dict (server st))
    /\ routes (server st') = (routes (server st1) ++ [r])%list
    /\ r_path r = basepath (config (server st)) ++ "/" ++ m_name m
    /\ r_run_id r = Some (mv_run_id model_version).
Proof.
  intros Hversion Hok Htag Hdelete Hinit.
  rewrite (update_model_proceeds _ _ _ Hversion Hok Htag).
  unfold bind. rewrite Hdelete.
  rewrite (create_new_handler_success _ _ _ _ _ _ _ Hinit).
  assert (Hconfig : config (server st1) = config (server st))
    by (by apply (delete_old_route_preserves
                    (fun s => config s = config (server st)) _
                    ltac:(done) _ _ _ _ Hdelete)).
  assert (Hmodels : model_dict (server st1) = model_dict (server st))
    by (by apply (delete_old_route_preserves
                    (fun s => model_dict s = model_dict (server st)) _
                    ltac:(done) _ _ _ _ Hdelete)).
  assert (Herrors : error_dict (server st1) = error_dict (server st))
    by (by apply (delete_old_route_preserves
                    (fun s => error_dict s = error_dict (server st)) _
                    ltac:(done) _ _ _ _ Hdelete)).
  destruct (BaseHandler_init_Ok _ _ _ _ _ _ Hinit)
    as (cache & free_port & examples & metadata & creation & input_ns
        & output_ns & _ & _ & Hserver).
  eexists _, _. split; [reflexivity|]. simpl. rewrite Hserver. simpl.
  rewrite Hconfig, Hmodels, Herrors. by repeat split.
Qed.

(** X10: when the iteration for a model builds the new handler, the
    handler map holds the new handler under the model's quoted name,
    the handler has the run identifier of the desired version, the
    model's entry in the error map is gone, the model information
    endpoint reports the new version, and a pass that follows passes the
    model over. *)
Theorem update_model_rebuilds (m : RegisteredModel) (model_version : ModelVersion)
    (st st1 st2 : State W) (t1 t2 : list Event) (self : BaseHandler) :
  let name := quote_plus (m_name m) in
  get_version (config (server st)) m = Ok model_version ->
  already_ok (server st) name model_version = false ->
  tag_mismatch (config (server st)) m = false ->
  delete_old_route (basepath (config (server st)) ++ "/" ++ name) st
  = (st1, t1, Ok tt) ->
  BaseHandler_init m model_version st1 = (st2, t2, Ok self) ->
  exists st',
    update_model m st = (st', (t1 ++ t2)%list, Ok tt)
    /\ model_dict (server st') !! name = Some self
    /\ h_run_id self = mv_run_id model_version
    /\ error_dict (server st') !! name = None
    /\ modelinfo (server st') name !! "version"
       = Some (InfoStr (mv_version model_version))
    /\ (forall other, other <> name ->
          model_dict (server st') !! other = model_dict (server st) !! other)
    /\ update_model m st' = (st', [], Ok tt).
Proof.
  intros name Hversion Hok Htag Hdelete Hinit.
  destruct (update_model_success _ _ _ _ _ _ _ _ Hversion Hok Htag Hdelete Hinit)
    as (st' & r & Hrun & Hconfig & Hmodels & Herrors & _).
  destruct (BaseHandler_init_Ok _ _ _ _ _ _ Hinit)
    as (cache & free_port & examples & metadata & creation & input_ns
        & output_ns & _ & Hself & _).
  assert (Hrun_id : h_run_id self = mv_run_id model_version) by by subst self.
  assert (Hlookup : model_dict (server st') !! name = Some self)
    by (rewrite Hmodels; apply lookup_insert_eq).
  exists st'. split; [done|]. split; [done|]. split; [done|].
  split; [rewrite Herrors; apply lookup_delete_eq|].
  split; [unfold modelinfo; rewrite Hlookup; by subst self|].
  split; [intros other Hother; rewrite Hmodels; by apply lookup_insert_ne|].
  apply update_model_skips. exists model_version.
  split; [by rewrite Hconfig|]. left.
  unfold already_ok. fold name. rewrite Hlookup, Hrun_id. apply String.eqb_refl.
Qed.

Lemma routes_on_app (path : string) (rs rs' : list Route) :
  routes_on path (rs ++ rs') = (routes_on path rs ++ routes_on path rs')%list.
Proof. apply List.filter_app. Qed.

(** X11: for a model whose name [quote_plus] leaves as it is, and with
    at most one route on the model's path before, a successful rebuild
    leaves exactly one route on that path, and it is bound to the new
    run identifier; the routes on other paths are as before. *)
Theorem rebuild_leaves_one_route (m : RegisteredModel)
    (model_version : ModelVersion) (st st1 st2 : State W)
    (t1 t2 : list Event) (self : BaseHandler) :
  let target := basepath (config (server st)) ++ "/" ++ quote_plus (m_name m) in
  quote_plus (m_name m) = m_name m ->
  (length (matching_indices target 0 (routes (server st))) <= 1)%nat ->
  get_version (config (server st)) m = Ok model_version ->
  already_ok (server st) (quote_plus (m_name m)) model_version = false ->
  tag_mismatch (config (server st)) m = false ->
  delete_old_route target st = (st1, t1, Ok tt) ->
  BaseHandler_init m model_version st1 = (st2, t2, Ok self) ->
  exists st' r,
    update_model m st = (st', (t1 ++ t2)%list, Ok tt)
    /\ routes_on target (routes (server st')) = [r]
    /\ r_run_id r = Some (mv_run_id model_version)
    /\ forall path, path <> target ->
         routes_on path (routes (server st')) = routes_on path (routes (server st)).
Proof.
  intros target Hquote Hone Hversion Hok Htag Hdelete Hinit.
  destruct (update_model_success _ _ _ _ _ _ _ _ Hversion Hok Htag Hdelete Hinit)
    as (st' & r & Hrun & _ & _ & _ & Hroutes & Hpath & Hrun_id).
  destruct (delete_old_route_at_most_one target st Hone) as (st1' & Hrun1 & Hleft).
  fold target in Hdelete. rewrite Hdelete in Hrun1. injection Hrun1 as <- _.
  rewrite <- Hquote in Hpath. fold target in Hpath.
  exists st', r. split; [done|]. rewrite Hroutes, Hleft. split; [|split; [done|]].
  - rewrite routes_on_app, routes_on_without. simpl.
    by rewrite Hpath, String.eqb_refl.
  - intros path Hne. rewrite routes_on_app, routes_on_without_other by done.
    simpl. destruct (String.eqb (r_path r) path) eqn:Heq; [|by rewrite app_nil_r].
    apply String.eqb_eq in Heq. congruence.
Qed.

(** X12: for a model whose name [quote_plus] changes (a name with a
    space, for one), the old route is looked for on the quoted path
    while routes are registered on the name as it is.  With at most one
    route on the quoted path, a successful rebuild therefore keeps every
    route that was on the model's path and adds the new one: the number
    of routes on the model's path grows by one with each rebuild. *)
Theorem rebuild_keeps_stale_route (m : RegisteredModel)
    (model_version : ModelVersion) (st st1 st2 : State W)
    (t1 t2 : list Event) (self : BaseHandler) :
  let target := basepath (config (server st)) ++ "/" ++ quote_plus (m_name m) in
  let path := basepath (config (server st)) ++ "/" ++ m_name m in
  quote_plus (m_name m) <> m_name m ->
  (length (matching_indices target 0 (routes (server st))) <= 1)%nat ->
  get_version (config (server st)) m = Ok model_version ->
  already_ok (server st) (quote_plus (m_name m)) model_version = false ->
  tag_mismatch (config (server st)) m = false ->
  delete_old_route target st = (st1, t1, Ok tt) ->
  BaseHandler_init m model_version st1 = (st2, t2, Ok self) ->
  exists st' r,
    update_model m st = (st', (t1 ++ t2)%list, Ok tt)
    /\ routes_on path (routes (server st'))
       = (routes_on path (routes (server st)) ++ [r])%list
    /\ r_run_id r = Some (mv_run_id model_version).
Proof.
  intros target path Hquote Hone Hversion Hok Htag Hdelete Hinit.
  destruct (update_model_success _ _ _ _ _ _ _ _ Hversion Hok Htag Hdelete Hinit)
    as (st' & r & Hrun & _ & _ & _ & Hroutes & Hpath & Hrun_id).
  destruct (delete_old_route_at_most_one target st Hone) as (st1' & Hrun1 & Hleft).
  fold target in Hdelete. rewrite Hdelete in Hrun1. injection Hrun1 as <- _.
  fold path in Hpath.
  assert (Hne : path <> target).
  { unfold path, target. intros Heq.
    apply string_app_inv_head in Heq. injection Heq as Heq. by symmetry in Heq. }
  exists st', r. split; [done|]. split; [|done].
  rewrite Hroutes, Hleft, routes_on_app, routes_on_without_other by done.
  simpl. by rewrite Hpath, String.eqb_refl.
Qed.

End Rebuild.

Lemma update_model_rebuilds_witness :
  let deleted := delete_old_route "/iris" online_serving in
  let built := BaseHandler_init iris iris_v2 deleted.1.1 in
  exists st',
    update_model iris online_serving
    = (st', (deleted.1.2 ++ built.1.2)%list, Ok tt)
    /\ model_dict (server st') !! "iris" = Some built_iris
    /\ h_run_id built_iris = "r2"
    /\ error_dict (server st') !! "iris" = None
    /\ modelinfo (server st') "iris" !! "version" = Some (InfoStr "2")
    /\ (forall other, other <> "iris" ->
          model_dict (server st') !! other
          = model_dict (server online_serving) !! other)
    /\ update_model iris st' = (st', [], Ok tt).
Proof.
  intros deleted built.
  apply (update_model_rebuilds iris iris_v2 online_serving
           deleted.1.1 built.1.1 deleted.1.2 built.1.2 built_iris);
    vm_compute; reflexivity.
Defined.

Lemma rebuild_leaves_one_route_witness :
  let deleted := delete_old_route "/iris" online_serving in
  let built := BaseHandler_init iris iris_v2 deleted.1.1 in
  routes_on "/iris" (routes (server online_serving)) = [iris_route_v1]
  /\ exists st' r,
       update_model iris online_serving
       = (st', (deleted.1.2 ++ built.1.2)%list, Ok tt)
       /\ routes_on "/iris" (routes (server st')) = [r]
       /\ r_run_id r = Some "r2"
       /\ forall path, path <> "/iris" ->
            routes_on path (routes (server st'))
            = routes_on path (routes (server online_serving)).
Proof.
  intros deleted built. split; [reflexivity|].
  apply (rebuild_leaves_one_route iris iris_v2 online_serving
           deleted.1.1 built.1.1 deleted.1.2 built.1.2 built_iris).
  - reflexivity.
  - vm_compute. lia.
  - vm_compute. reflexivity.
  - vm_compute. reflexivity.
  - vm_compute. reflexivity.
  - vm_compute. reflexivity.
  - vm_compute. reflexivity.
Defined.

Lemma rebuild_keeps_stale_route_witness :
  let deleted := delete_old_route "/my+model" serving_spaced in
  let built := BaseHandler_init spaced spaced_v2 deleted.1.1 in
  exists st' r,
    update_model spaced serving_spaced
    = (st', (deleted.1.2 ++ built.1.2)%list, Ok tt)
    /\ routes_on "/my model" (routes (server st'))
       = (routes_on "/my model" (routes (server serving_spaced)) ++ [r])%list
    /\ r_run_id r = Some "s2".
Proof.
  intros deleted built.
  apply (rebuild_keeps_stale_route spaced spaced_v2 serving_spaced
           deleted.1.1 built.1.1 deleted.1.2 built.1.2 built_spaced).
  - discriminate.
  - vm_compute. lia.
  - vm_compute. reflexivity.
  - vm_compute. reflexivity.
  - vm_compute. reflexivity.
  - vm_compute. reflexivity.
  - vm_compute. reflexivity.
Defined.

(** ** Deleting routes by index *)

Section RouteDeletion.

Context {W : Type} `{!OS W}.

Lemma matching_indices_elem (target : string) (idx i : nat) (rs : list Route) :
  i ∈ matching_indices target idx rs ->
  (idx <= i)%nat
  /\ exists r, rs !! (i - idx)%nat = Some r /\ r_path r = target.
Proof.
  revert idx. induction rs as [|r rs IH]; intros idx; simpl.
  - intros Hin. by apply elem_of_nil in Hin.
  - destruct (String.eqb (r_path r) target) eqn:Hpath.
    + intros Hin. apply elem_of_cons in Hin as [->|Hin].
      * split; [lia|]. exists r. rewrite Nat.sub_diag.
        split; [done|]. by apply String.eqb_eq.
      * destruct (IH _ Hin) as (Hle & r' & Hlookup & Hr').
        split; [lia|]. exists r'. split; [|done].
        replace (i - idx)%nat with (S (i - S idx)) by lia. done.
    + intros Hin. destruct (IH _ Hin) as (Hle & r' & Hlookup & Hr').
      split; [lia|]. exists r'. split; [|done].
      replace (i - idx)%nat with (S (i - S idx)) by lia. done.
Qed.

Lemma matching_indices_increasing (target : string) (idx i j : nat)
    (rest : list nat) (rs : list Route) :
  matching_indices target idx rs = i :: rest -> j ∈ rest -> (i < j)%nat.
Proof.
  revert idx. induction rs as [|r rs IH]; intros idx; simpl; [done|].
  destruct (String.eqb (r_path r) target).
  - intros [= <- <-] Hin.
    destruct (matching_indices_elem _ _ _ _ Hin) as [Hle _]. lia.
  - apply IH.
Qed.

Lemma del_route_in_range (idx : nat) (st : State W) :
  (idx < length (routes (server st)))%nat ->
  del_route idx st
  = (mkState (world st) (set_routes (delete idx) (server st)), [], Ok tt).
Proof.
  intros Hlt. apply Nat.ltb_lt in Hlt.
  unfold del_route. rewrite (bind_Ok get_server _ st st [] (server st)); [|done].
  by rewrite Hlt.
Qed.

Lemma del_route_out_of_range (idx : nat) (st : State W) :
  (length (routes (server st)) <= idx)%nat ->
  del_route idx st = (st, [], Raise DelIndexError).
Proof.
  intros Hge. apply Nat.ltb_ge in Hge.
  unfold del_route. rewrite (bind_Ok get_server _ st st [] (server st)); [|done].
  by rewrite Hge.
Qed.

Lemma delete_old_route_for_each (target : string) (st : State W) :
  delete_old_route target st
  = for_each (matching_indices target 0 (routes (server st))) del_route st.
Proof.
  unfold delete_old_route.
  rewrite (bind_Ok get_server _ st st [] (server st)); [|done].
  by destruct (for_each _ _ st) as [[st' tr] r].
Qed.

(** X13: the deletion loop collects the indices first and deletes by
    them afterwards, so with two routes on the path the second index is
    stale.  When the second route is the last of the table, the second
    deletion raises [IndexError], which nothing in [update_models]
    catches, after the first route has been deleted.  Otherwise the
    loop ends normally having deleted the first route on the path and
    the route that followed the second one: the second route on the path
    stays registered. *)
Theorem delete_old_route_two_matches (target : string) (st : State W)
    (i j : nat) :
  matching_indices target 0 (routes (server st)) = [i; j] ->
  (S j = length (routes (server st)) ->
   delete_old_route target st
   = (mkState (world st) (set_routes (delete i) (server st)), [],
      Raise DelIndexError))
  /\ ((S j < length (routes (server st)))%nat ->
      exists r2,
        delete_old_route target st
        = (mkState (world st)
             (set_routes (fun rs => delete j (delete i rs)) (server st)),
           [], Ok tt)
        /\ routes (server st) !! j = Some r2
        /\ r_path r2 = target
        /\ r2 ∈ delete j (delete i (routes (server st)))).
Proof.
  intros Hidx.
  assert (Hij : (i < j)%nat)
    by (apply (matching_indices_increasing _ _ _ _ _ _ Hidx); by left).
  destruct (matching_indices_elem target 0 j (routes (server st)))
    as (_ & r2 & Hr2 & Hpath); [rewrite Hidx; set_solver|].
  rewrite Nat.sub_0_r in Hr2.
  pose proof (lookup_lt_Some _ _ _ Hr2) as Hj.
  assert (Hlen : length (delete i (routes (server st)))
                 = (length (routes (server st)) - 1)%nat)
    by (rewrite length_delete; [lia|]; apply lookup_lt_is_Some; lia).
  rewrite delete_old_route_for_each, Hidx, !for_each_cons.
  rewrite (bind_Ok _ _ _ _ _ _ (del_route_in_range i st ltac:(lia))).
  split.
  - intros Hlast.
    rewrite (bind_Raise (del_route j) _
               (mkState (world st) (set_routes (delete i) (server st)))
               (mkState (world st) (set_routes (delete i) (server st)))
               [] DelIndexError); [done|].
    apply del_route_out_of_range. simpl. lia.
  - intros Hmid. exists r2.
    assert (Hsecond : (j < length (routes
                                     (server (mkState (world st)
                                                (set_routes (delete i) (server st))))))%nat)
      by (simpl; lia).
    rewrite (bind_Ok (del_route j) _ _ _ [] tt (del_route_in_range j _ Hsecond)).
    split; [reflexivity|]. split; [done|]. split; [done|].
    apply list_elem_of_lookup. exists (j - 1)%nat.
    rewrite list_lookup_delete_lt by lia.
    rewrite list_lookup_delete_ge by lia.
    by replace (S (j - 1)) with j by lia.
Qed.

End RouteDeletion.

Lemma delete_old_route_two_matches_witness :
  delete_old_route "/iris" docs_then_two_routes
  = (mkState (world docs_then_two_routes)
       (set_routes (delete 1%nat) (server docs_then_two_routes)), [],
     Raise DelIndexError)
  /\ exists r2,
       delete_old_route "/iris" two_routes_then_docs
       = (mkState (world two_routes_then_docs)
            (set_routes (fun rs => delete 1%nat (delete 0%nat rs))
                        (server two_routes_then_docs)),
          [], Ok tt)
       /\ routes (server two_routes_then_docs) !! 1%nat = Some r2
       /\ r_path r2 = "/iris"
       /\ r2 ∈ delete 1%nat (delete 0%nat (routes (server two_routes_then_docs))).
Proof.
  split.
  - apply (proj1 (delete_old_route_two_matches "/iris" docs_then_two_routes
                    1%nat 2%nat eq_refl)).
    reflexivity.
  - apply (proj2 (delete_old_route_two_matches "/iris" two_routes_then_docs
                    0%nat 1%nat eq_refl)).
    simpl. lia.
Defined.

(** ** What a pass leaves alone *)

Section Untouched.

Context {W : Type} `{!OS W}.

Lemma tag_mismatch_iff (cfg : Config) (m : RegisteredModel) :
  tag_mismatch cfg m = true
  <-> tags cfg <> [] /\ forall tt, tt ∈ tags cfg -> m_tags m !! tt = None.
Proof.
  unfold tag_mismatch. rewrite andb_true_iff, forallb_forall. split.
  - intros [Hlen Hall]. split; [by destruct (tags cfg)|].
    intros tt Hin. apply list_elem_of_In in Hin. specialize (Hall tt Hin).
    apply negb_true_iff, bool_decide_eq_false in Hall.
    by apply eq_None_not_Some.
  - intros [Hne Hall]. split; [by destruct (tags cfg)|].
    intros tt Hin. apply list_elem_of_In in Hin.
    apply negb_true_iff, bool_decide_eq_false.
    rewrite (Hall tt Hin). by intros [? ?].
Qed.

(** X14: the tag filter passes a model over exactly when the tag list
    of the configuration is not empty and none of its tags is a key of
    the model's tags; the values of the tags play no part, and an empty
    tag list filters nothing.  A model that is passed over is neither
    built nor removed: the state is unchanged and no call is made. *)
Theorem tag_filter_skips (m : RegisteredModel) :
  (forall cfg,
     tag_mismatch cfg m = true
     <-> tags cfg <> [] /\ forall tt, tt ∈ tags cfg -> m_tags m !! tt = None)
  /\ forall (st : State W) model_version,
       get_version (config (server st)) m = Ok model_version ->
       tags (config (server st)) <> [] ->
       (forall tt, tt ∈ tags (config (server st)) -> m_tags m !! tt = None) ->
       update_model m st = (st, [], Ok tt).
Proof.
  split; [intros cfg; apply tag_mismatch_iff|].
  intros st model_version Hversion Hne Hall.
  apply update_model_skips. exists model_version. split; [done|]. right.
  by apply tag_mismatch_iff.
Qed.

Lemma update_models_preserves (P : Server -> Prop) :
  (forall s f, P s -> P (set_routes f s)) ->
  (forall s f, P s -> P (set_error_dict f s)) ->
  (forall s v, P s -> P (set_openapi_schema v s)) ->
  (forall s name h, P s -> P (set_model_dict <[name := h]> s)) ->
  preserves (W:=W) P update_models.
Proof.
  intros Hroutes Herrors Hopenapi Hmodels.
  unfold update_models, update_model, create_new_handler.
  repeat first
    [ apply delete_old_route_preserves; done
    | apply BaseHandler_init_preserves; done
    | preserves_step ];
    intros s Hs; auto.
Qed.

(** X15: a pass never removes a handler: a name that has a handler
    before [update_models] has one after it, however the pass ends.  So
    a model that has disappeared from the registry, or has lost its
    tags, keeps its entry.  The configuration is not changed either. *)
Theorem update_models_never_removes (st st' : State W) (tr : list Event)
    (r : result unit) (name : string) :
  update_models st = (st', tr, r) ->
  (is_Some (model_dict (server st) !! name) ->
   is_Some (model_dict (server st') !! name))
  /\ config (server st') = config (server st)
  /\ full_cache_dir (server st') = full_cache_dir (server st).
Proof.
  intros Hrun. split; [|split].
  - assert (Hkeeps : preserves (W:=W) (fun s => is_Some (model_dict s !! name))
                       update_models).
    { apply update_models_preserves; try done.
      intros s name' h Hs. simpl.
      destruct (decide (name' = name)) as [->|Hne].
      - rewrite lookup_insert_eq. by eexists.
      - by rewrite lookup_insert_ne. }
    exact (Hkeeps _ _ _ _ Hrun).
  - by apply (update_models_preserves
                (fun s => config s = config (server st))
                ltac:(done) ltac:(done) ltac:(done) ltac:(done) _ _ _ _ Hrun).
  - by apply (update_models_preserves
                (fun s => full_cache_dir s = full_cache_dir (server st))
                ltac:(done) ltac:(done) ltac:(done) ltac:(done) _ _ _ _ Hrun).
Qed.

Lemma update_model_keeps_other_entry (m : RegisteredModel) (name : string)
    (entry : option BaseHandler) :
  quote_plus (m_name m) <> name ->
  preserves (W:=W) (fun s => model_dict s !! name = entry) (update_model m).
Proof.
  intros Hname. unfold update_model, create_new_handler.
  repeat first
    [ apply delete_old_route_preserves; done
    | apply BaseHandler_init_preserves; done
    | preserves_step ];
    intros s Hs; simpl; try done.
  by rewrite lookup_insert_ne.
Qed.

(** X16: a pass leaves the handler-map entry of every name that is not
    the quoted name of a listed model exactly as it was, whether that is
    a handler or none, and however the pass ends.  A model that is no
    longer listed is therefore still served by its old handler. *)
Theorem update_models_keeps_unlisted (st st' : State W) (tr : list Event)
    (r : result unit) (w' : W) (listing : result (list RegisteredModel))
    (name : string) :
  os_call (world st) list_registered_models = (w', listing) ->
  (forall all_models m,
     listing = Ok all_models -> m ∈ all_models ->
     quote_plus (m_name m) <> name) ->
  update_models st = (st', tr, r) ->
  model_dict (server st') !! name = model_dict (server st) !! name.
Proof.
  intros Hlist Hunlisted Hrun. unfold update_models in Hrun.
  apply bind_inv in Hrun
    as [(e & Htry & _)|(listed_models & st1 & t1 & t2 & Htry & Hloop & _)];
    unfold try_except, mbind, M_bind, bind, call, modify_server, ret in Htry;
    rewrite Hlist in Htry; destruct listing as [all_models|ex];
    simpl in Htry; try done.
  - injection Htry as <- _ <-.
    assert (Hkeeps : preserves (W:=W)
                       (fun s => model_dict s !! name
                                 = model_dict (server st) !! name)
                       (for_each all_models update_model;;
                        modify_server (set_openapi_schema None))).
    { apply preserves_bind; [|intros _; by apply preserves_modify].
      apply preserves_for_each_in. intros m Hm.
      apply update_model_keeps_other_entry. by apply (Hunlisted all_models). }
    by apply (Hkeeps _ _ _ _ Hloop).
  - injection Htry as <- _ <-.
    unfold for_each, mbind, M_bind, bind, modify_server, ret in Hloop.
    simpl in Hloop. by injection Hloop as <- _ _.
Qed.

End Untouched.

Lemma tag_filter_skips_witness :
  tag_mismatch tagged_config iris = true
  /\ tag_mismatch tagged_config churn = false
  /\ update_model iris tagged_serving = (tagged_serving, [], Ok tt).
Proof.
  split; [reflexivity|]. split; [reflexivity|].
  apply (proj2 (tag_filter_skips iris) tagged_serving iris_v2).
  - reflexivity.
  - discriminate.
  - intros tt Htt. apply lookup_empty.
Defined.

Lemma update_models_never_removes_witness :
  let after := update_models iris_unlisted in
  (is_Some (model_dict (server iris_unlisted) !! "iris") ->
   is_Some (model_dict (server after.1.1) !! "iris"))
  /\ config (server after.1.1) = config (server iris_unlisted)
  /\ full_cache_dir (server after.1.1) = full_cache_dir (server iris_unlisted).
Proof.
  intros after.
  apply (update_models_never_removes iris_unlisted after.1.1 after.1.2 after.2).
  by destruct (update_models iris_unlisted) as [[st' tr] r].
Defined.

Lemma update_models_keeps_unlisted_witness :
  let after := update_models iris_unlisted in
  h_run_id <$> model_dict (server after.1.1) !! "wine" = Some "w1"
  /\ model_dict (server after.1.1) !! "iris"
     = model_dict (server iris_unlisted) !! "iris".
Proof.
  intros after. split; [vm_compute; reflexivity|].
  apply (update_models_keeps_unlisted iris_unlisted after.1.1 after.1.2 after.2
           (world iris_unlisted) (Ok [wine]) "iris").
  - reflexivity.
  - intros all_models m [= <-] Hm.
    apply list_elem_of_singleton in Hm as ->. discriminate.
  - by destruct (update_models iris_unlisted) as [[st' tr] r].
Defined.

(** ** What the traces of construction and provisioning contain *)

Section TraceRules.

Context {W : Type} `{!OS W}.
Variable good : W -> Prop.
Variable P : Event -> Prop.
Hypothesis Hclosed : closed good.

Lemma keeps_ret {A} (a : A) : keeps (W:=W) good P (mret a).
Proof. by intros st st' tr r Hgood [= <- <- _]. Qed.

Lemma keeps_raise {A} (e : exn) : keeps (W:=W) good P (raise (A:=A) e).
Proof. by intros st st' tr r Hgood [= <- <- _]. Qed.

Lemma keeps_lift {A} (x : result A) : keeps (W:=W) good P (lift x).
Proof. by intros st st' tr r Hgood [= <- <- _]. Qed.

Lemma keeps_get_server : keeps (W:=W) good P get_server.
Proof. by intros st st' tr r Hgood [= <- <- _]. Qed.

Lemma keeps_modify (f : Server -> Server) :
  keeps (W:=W) good P (modify_server f).
Proof. by intros st st' tr r Hgood [= <- <- _]. Qed.

Lemma keeps_call {A} (c : Call A) :
  (forall r, P (Called c r)) -> keeps good P (call c).
Proof.
  intros HP st st' tr r Hgood Hrun.
  apply call_inv in Hrun as (-> & -> & _). split.
  - simpl. by apply Hclosed.
  - by apply Forall_singleton.
Qed.

Lemma keeps_bind {A B} (m : M W A) (k : A -> M W B) :
  keeps good P m -> (forall a, keeps good P (k a)) -> keeps good P (m ≫= k).
Proof.
  intros Hm Hk st st' tr r Hgood Hrun.
  apply bind_inv in Hrun
    as [(e & Hrun & _)|(a & st1 & t1 & t2 & Hrun & Hrun' & ->)].
  - by apply (Hm _ _ _ _ Hgood Hrun).
  - destruct (Hm _ _ _ _ Hgood Hrun) as [Hgood1 Ht1].
    destruct (Hk a _ _ _ _ Hgood1 Hrun') as [Hgood2 Ht2].
    split; [done|]. by apply Forall_app.
Qed.

(** The continuation of a call needs to keep the property only for the
    values that the call can answer in a good world. *)
Lemma keeps_bind_call {A B} (c : Call A) (k : A -> M W B) :
  (forall r, P (Called c r)) ->
  (forall a w, good w -> (os_call w c).2 = Ok a -> keeps good P (k a)) ->
  keeps good P (call c ≫= k).
Proof.
  intros HP Hk st st' tr r Hgood Hrun.
  apply bind_inv in Hrun
    as [(e & Hrun & _)|(a & st1 & t1 & t2 & Hrun & Hrun' & ->)].
  - by apply (keeps_call c HP _ _ _ _ Hgood Hrun).
  - destruct (keeps_call c HP _ _ _ _ Hgood Hrun) as [Hgood1 Ht1].
    apply call_inv in Hrun as (_ & _ & Hanswer).
    destruct (Hk a (world st) Hgood (eq_sym Hanswer) _ _ _ _ Hgood1 Hrun')
      as [Hgood2 Ht2].
    split; [done|]. by apply Forall_app.
Qed.

Lemma keeps_try_except {A} (body : M W A) (handler : exn -> M W A) :
  keeps good P body -> (forall e, keeps good P (handler e)) ->
  keeps good P (try_except body handler).
Proof.
  intros Hb Hh st st' tr r Hgood Hrun.
  apply try_except_inv in Hrun
    as [(a & Hrun & _)|(e & st1 & t1 & t2 & Hrun & Hrun' & ->)].
  - by apply (Hb _ _ _ _ Hgood Hrun).
  - destruct (Hb _ _ _ _ Hgood Hrun) as [Hgood1 Ht1].
    destruct (Hh e _ _ _ _ Hgood1 Hrun') as [Hgood2 Ht2].
    split; [done|]. by apply Forall_app.
Qed.

Lemma keeps_for_each {A} (xs : list A) (body : A -> M W unit) :
  (forall x, keeps good P (body x)) -> keeps good P (for_each xs body).
Proof.
  intros Hbody. induction xs as [|x xs IH].
  - apply keeps_ret.
  - apply (keeps_bind (body x) (fun _ => for_each xs body)); [apply Hbody|done].
Qed.

End TraceRules.

Lemma closed_True {W : Type} `{!OS W} : closed (W:=W) (fun _ => True).
Proof. by intros A c w _. Qed.

(** Decomposes a goal [keeps good P m] along the structure of [m]; what
    is left are the goals for the events of the calls. *)
Ltac keeps_step Hclosed :=
  lazymatch goal with
  | |- keeps _ _ (mbind _ _) => apply keeps_bind; [|intros ?]
  | |- keeps _ _ (try_except _ _) => apply keeps_try_except; [|intros ?]
  | |- keeps _ _ (for_each _ _) => apply keeps_for_each; intros ?
  | |- keeps _ _ (call _) => apply keeps_call; [exact Hclosed|intros ?]
  | |- keeps _ _ (mret _) => apply keeps_ret
  | |- keeps _ _ (ret _) => apply keeps_ret
  | |- keeps _ _ (raise _) => apply keeps_raise
  | |- keeps _ _ (lift _) => apply keeps_lift
  | |- keeps _ _ get_server => apply keeps_get_server
  | |- keeps _ _ (modify_server _) => apply keeps_modify
  | |- keeps _ _ (if ?b then _ else _) => destruct b
  | |- keeps _ _ (match ?x with _ => _ end) => destruct x
  | |- keeps _ _ (let _ := _ in _) => cbv zeta
  end.

Section SetupSkipped.

Context {W : Type} `{!OS W}.

Lemma _setup_model_downloads (work_folder model_folder source : string)
    (st st' : State W) (tr : list Event) (u : unit) :
  _setup_model work_folder model_folder source st = (st', tr, Ok u) ->
  Called (download_artifact source work_folder) (Ok tt) ∈ tr.
Proof.
  unfold _setup_model. cbv zeta. intros Hrun.
  bind_returned Hrun u1 st1 Hopen.
  bind_returned Hrun u2 st2 Hwrite.
  bind_returned Hrun u3 st3 Hflush.
  bind_returned Hrun u4 st4 Hdownload.
  apply call_inv in Hdownload as (-> & _ & _).
  destruct u4. set_solver.
Qed.

(** X17: provisioning is decided by the model folder alone.  When
    [os.path.exists] finds the folder, [__init__] downloads nothing and
    runs no process, however the construction ends: a folder left behind
    by a provisioning that broke off is taken for a complete one. *)
Theorem existing_folder_skips_provisioning (m : RegisteredModel)
    (model_version : ModelVersion) (cache : string) (st st' : State W)
    (tr : list Event) (r : result BaseHandler) :
  let work_folder := path_join cache (mv_run_id model_version) in
  let model_folder :=
    path_join work_folder (last_segment "" (mv_source model_version)) in
  full_cache_dir (server st) = Some cache ->
  (os_call (os_call (world st) (mkdir work_folder)).1
           (path_exists model_folder)).2 = Ok true ->
  BaseHandler_init m model_version st = (st', tr, r) ->
  Forall (fun ev => is_environment_setup ev = false) tr.
Proof.
  intros work_folder model_folder Hcache Hexists Hrun.
  unfold BaseHandler_init in Hrun.
  apply bind_inv in Hrun
    as [(e & [=] & _)|(srv & st1 & t1 & t2 & [= <- <- <-] & Hrun & ->)].
  cbv zeta in Hrun. rewrite Hcache in Hrun.
  apply bind_inv in Hrun
    as [(e & [=] & _)|(dir & st1 & t1 & t3 & [= <- <- <-] & Hrun & ->)].
  fold work_folder in Hrun. fold model_folder in Hrun. simpl.
  apply bind_inv in Hrun
    as [(e & Hc & ->)|(u1 & st1 & t1 & t2 & Hc & Hrun & ->)];
    apply call_inv in Hc as (-> & -> & _);
    [by apply Forall_singleton|].
  apply Forall_app. split; [by apply Forall_singleton|].
  apply bind_inv in Hrun
    as [(e & Hc & ->)|(folder_exists & st2 & t1 & t3 & Hc & Hrun & ->)];
    apply call_inv in Hc as (-> & -> & Hanswer);
    [by apply Forall_singleton|].
  apply Forall_app. split; [by apply Forall_singleton|].
  cbn [world] in Hanswer. rewrite Hexists in Hanswer.
  injection Hanswer as ->.
  match type of Hrun with
  | ?body ?st2 = _ =>
      assert (Hkeeps : keeps (fun _ => True)
                         (fun ev => is_environment_setup ev = false) body)
  end.
  { unfold _get_free_port, _get_input_example, _start_server,
      update_schema_classes, register_route.
    repeat keeps_step (closed_True (W:=W)); reflexivity. }
  by apply (Hkeeps _ _ _ _ I Hrun).
Qed.

(** X18: when [os.path.exists] does not find the model folder, a
    construction that returns has downloaded the artifact of the version
    into the work folder of its run. *)
Theorem missing_folder_is_downloaded (m : RegisteredModel)
    (model_version : ModelVersion) (cache : string) (st st' : State W)
    (tr : list Event) (self : BaseHandler) :
  let work_folder := path_join cache (mv_run_id model_version) in
  let model_folder :=
    path_join work_folder (last_segment "" (mv_source model_version)) in
  full_cache_dir (server st) = Some cache ->
  (os_call (os_call (world st) (mkdir work_folder)).1
           (path_exists model_folder)).2 = Ok false ->
  BaseHandler_init m model_version st = (st', tr, Ok self) ->
  Called (download_artifact (mv_source model_version) work_folder) (Ok tt) ∈ tr.
Proof.
  intros work_folder model_folder Hcache Hmissing Hrun.
  unfold BaseHandler_init in Hrun.
  apply bind_inv in Hrun
    as [(e & [=] & _)|(srv & st1 & t1 & t2 & [= <- <- <-] & Hrun & ->)].
  cbv zeta in Hrun. rewrite Hcache in Hrun.
  apply bind_inv in Hrun
    as [(e & [=] & _)|(dir & st1 & t1 & t3 & [= <- <- <-] & Hrun & ->)].
  fold work_folder in Hrun. fold model_folder in Hrun. simpl.
  bind_returned Hrun u1 st2 Hmkdir.
  bind_returned Hrun folder_exists st3 Hexists.
  bind_returned Hrun u2 st4 Hsetup.
  apply call_inv in Hmkdir as (-> & -> & _).
  apply call_inv in Hexists as (-> & -> & Hanswer).
  cbn [world] in Hanswer. rewrite Hmissing in Hanswer.
  injection Hanswer as ->.
  apply _setup_model_downloads in Hsetup. set_solver.
Qed.

Variable good : W -> Prop.
Hypothesis Hclosed : closed good.

(** X19: when the artifact download raises, [_setup_model] raises as
    well and has run no process: no virtual environment is created and
    nothing is installed for an artifact that is not there. *)
Theorem failed_download_runs_nothing (work_folder model_folder source : string)
    (st st' : State W) (tr : list Event) (r : result unit) :
  good (world st) ->
  (forall w, good w ->
     exists e, (os_call w (download_artifact source work_folder)).2 = Raise e) ->
  _setup_model work_folder model_folder source st = (st', tr, r) ->
  (exists e, r = Raise e) /\ processes tr = [].
Proof.
  intros Hgood Hfails Hrun. unfold _setup_model in Hrun. cbv zeta in Hrun.
  apply bind_inv in Hrun
    as [(e & Hc & ->)|(a1 & st1 & t1 & t2 & Hc1 & Hrun & ->)];
    [apply call_inv in Hc as (-> & _ & _); by eauto|].
  apply bind_inv in Hrun
    as [(e & Hc & ->)|(a2 & st2 & t2' & t3 & Hc2 & Hrun & ->)];
    [apply call_inv in Hc1 as (-> & _ & _);
     apply call_inv in Hc as (-> & _ & _); by eauto|].
  apply bind_inv in Hrun
    as [(e & Hc & ->)|(a3 & st3 & t3' & t4 & Hc3 & Hrun & ->)];
    [apply call_inv in Hc1 as (-> & _ & _);
     apply call_inv in Hc2 as (-> & _ & _);
     apply call_inv in Hc as (-> & _ & _); by eauto|].
  apply call_inv in Hc1 as (-> & -> & _).
  apply call_inv in Hc2 as (-> & -> & _).
  apply call_inv in Hc3 as (-> & -> & _).
  assert (Hgood3 : good (os_call (os_call (os_call (world st)
                    (open_append (path_join work_folder
                       (path_basename model_folder ++ "_setup_log.txt")))).1
                    (file_write (path_join work_folder
                       (path_basename model_folder ++ "_setup_log.txt"))
                       ("Start download " ++ model_folder ++ nl))).1
                    (file_flush (path_join work_folder
                       (path_basename model_folder ++ "_setup_log.txt")))).1)
    by (by do 3 apply Hclosed).
  destruct (Hfails _ Hgood3) as [e He].
  apply bind_inv in Hrun
    as [(e' & Hc & ->)|(a4 & st4 & t4' & t5 & Hc4 & Hrun & ->)].
  - apply call_inv in Hc as (-> & _ & _). by eauto.
  - apply call_inv in Hc4 as (_ & _ & Hanswer). simpl in Hanswer.
    rewrite He in Hanswer. discriminate.
Qed.

End SetupSkipped.

Section SetupLog.

Context {W : Type} `{!OS W}.
Variable P : Event -> Prop.

Lemma emits_on_raise_bind {A B} (m : M W A) (k : A -> M W B) :
  keeps (fun _ => True) P m ->
  (forall a, emits_on_raise P (k a)) ->
  emits_on_raise P (m ≫= k).
Proof.
  intros Hm Hk st st' tr e Hrun.
  apply bind_inv in Hrun
    as [(e' & Hrun & _)|(a & st1 & t1 & t2 & Hrun & Hrun' & ->)].
  - by apply (Hm _ _ _ _ I Hrun).
  - apply Forall_app. split.
    + by apply (Hm _ _ _ _ I Hrun).
    + by apply (Hk _ _ _ _ _ Hrun').
Qed.

Lemma emits_on_raise_call {A} (c : Call A) :
  (forall e, P (Called c (Raise e))) -> emits_on_raise P (call c).
Proof.
  intros HP st st' tr e Hrun.
  apply call_inv in Hrun as (-> & _ & _). by apply Forall_singleton.
Qed.

Lemma ends_with_bind {A B} (ev : Event) (m : M W A) (k : A -> M W B) :
  (forall a, ends_with ev (k a)) -> ends_with ev (m ≫= k).
Proof.
  intros Hk st st' tr b Hrun.
  apply bind_inv in Hrun
    as [(e' & _ & [=])|(a & st1 & t1 & t2 & Hrun & Hrun' & ->)].
  rewrite last_app. by rewrite (Hk _ _ _ _ _ Hrun').
Qed.

Lemma ends_with_call (c : Call unit) :
  ends_with (W:=W) (Called c (Ok tt)) (call c).
Proof.
  intros st st' tr [] Hrun. by apply call_inv in Hrun as (-> & _ & _).
Qed.

End SetupLog.

Section SetupLogOpen.

Context {W : Type} `{!OS W}.

(** X20: [_setup_model] begins by opening its log file.  When it
    returns, the last thing it did was to close that file; when it
    raises, at whatever step, no [close()] of the log file has been
    carried out: the log file that was opened is left open. *)
Theorem failed_setup_leaves_log_open (work_folder model_folder source : string)
    (st st' : State W) (tr : list Event) (r : result unit) :
  let setup_logfile :=
    path_join work_folder (path_basename model_folder ++ "_setup_log.txt") in
  _setup_model work_folder model_folder source st = (st', tr, r) ->
  (exists opened rest, tr = Called (open_append setup_logfile) opened :: rest)
  /\ match r with
     | Ok _ => last tr = Some (Called (file_close setup_logfile) (Ok tt))
     | Raise _ => Forall (fun ev => closes_file ev = false) tr
     end.
Proof.
  intros setup_logfile Hrun. split.
  - unfold _setup_model in Hrun. cbv zeta in Hrun.
    apply bind_inv in Hrun
      as [(e & Hc & _)|(a1 & st1 & t1 & t2 & Hc & _ & ->)];
      apply call_inv in Hc as (-> & _ & _); by eexists _, _.
  - destruct r as [u|e].
    + revert st st' tr u Hrun. fold (ends_with (W:=W)
        (Called (file_close setup_logfile) (Ok tt))
        (_setup_model work_folder model_folder source)).
      unfold _setup_model. cbv zeta.
      repeat (apply ends_with_bind; intros ?).
      apply ends_with_call.
    + revert st st' tr e Hrun. fold (emits_on_raise (W:=W)
        (fun ev => closes_file ev = false)
        (_setup_model work_folder model_folder source)).
      unfold _setup_model. cbv zeta.
      repeat first
        [ apply emits_on_raise_call; by intros ?
        | apply emits_on_raise_bind;
          [ repeat keeps_step (closed_True (W:=W)); reflexivity
          | intros ? ] ].
Qed.

End SetupLogOpen.

Section StartServer.

Context {W : Type} `{!OS W}.
Variable good : W -> Prop.
Hypothesis Hclosed : closed good.
Hypothesis Hanswered : answered start_call good.

Lemma call_answered {A} (c : Call A) (st : State W) :
  start_call A c = true -> good (world st) ->
  exists w' a,
    call c st = (mkState w' (server st), [Called c (Ok a)], Ok a) /\ good w'.
Proof.
  intros Hstart Hgood.
  destruct (Hanswered A c (world st) Hstart Hgood) as (w' & a & Hcall & Hgood').
  exists w', a. unfold call. by rewrite Hcall.
Qed.

(** X21: [_start_server] does not notice a server that fails to start.
    As long as the log file can be opened and flushed and the shell is
    launched, it hands the command to [communicate] with a time-out of
    15 seconds and returns normally whatever [communicate] does: a
    time-out or any other exception of it is swallowed.  The server is
    left as it was. *)
Theorem start_server_ignores_failed_start (work_folder model_folder : string)
    (port_number : Z) (st : State W) :
  good (world st) ->
  exists st' tr,
    _start_server work_folder model_folder port_number st = (st', tr, Ok tt)
    /\ server st' = server st
    /\ exists input answer,
         Called (communicate input 15) answer ∈ tr.
Proof.
  intros Hgood. unfold _start_server. cbv zeta.
  set (serve_logfile :=
         path_join work_folder (path_basename model_folder ++ "_servelog.txt")).
  destruct (call_answered (open_append serve_logfile) st eq_refl Hgood)
    as (w1 & [] & Hopen & Hgood1).
  rewrite (bind_Ok _ _ _ _ _ _ Hopen).
  destruct (call_answered (popen "cmd.exe" model_folder serve_logfile)
              (mkState w1 (server st)) eq_refl Hgood1)
    as (w2 & [] & Hpopen & Hgood2).
  rewrite (bind_Ok _ _ _ _ _ _ Hpopen).
  match goal with
  | |- context [try_except (call ?c) ?h] =>
      destruct (try_except (call c) h (mkState w2 (server st)))
        as [[st3 t3] r3] eqn:Htry
  end.
  pose proof Htry as Hcopy.
  assert (Hgood3 : good (world st3) /\ server st3 = server st /\ r3 = Ok tt
                   /\ exists input answer,
                        Called (communicate input 15) answer ∈ t3).
  { clear Htry. apply try_except_inv in Hcopy
      as [(a & Hc & ->)|(e & st3' & t3' & t3'' & Hc & [= <- <- <-] & ->)];
      apply call_inv in Hc as (-> & -> & _); simpl.
    - split; [by apply Hclosed|]. split; [done|]. destruct a.
      split; [done|]. eexists _, _. by left.
    - split; [by apply Hclosed|]. split; [done|].
      split; [done|]. eexists _, _. by left. }
  destruct Hgood3 as (Hgood3 & Hserver3 & -> & input & answer & Hin).
  rewrite (bind_Ok _ _ _ _ _ _ Htry). cbn [fst snd].
  destruct (call_answered (file_flush serve_logfile) st3 eq_refl Hgood3)
    as (w4 & [] & -> & _).
  eexists _, _. split; [reflexivity|]. split; [done|].
  exists input, answer. set_solver.
Qed.

End StartServer.

(** Concrete runs in the simulated world. *)
Lemma existing_folder_skips_provisioning_witness :
  let run := BaseHandler_init iris iris_v2 provisioned in
  Forall (fun ev => is_environment_setup ev = false) run.1.2.
Proof.
  intros run.
  apply (existing_folder_skips_provisioning iris iris_v2 "cache" provisioned
           run.1.1 run.1.2 run.2).
  - reflexivity.
  - reflexivity.
  - by destruct (BaseHandler_init iris iris_v2 provisioned) as [[st' tr] r].
Defined.

Lemma missing_folder_is_downloaded_witness :
  let run := BaseHandler_init iris iris_v2 online in
  Called (download_artifact (mv_source iris_v2) "cache/r2") (Ok tt) ∈ run.1.2.
Proof.
  intros run.
  assert (Hrun : BaseHandler_init iris iris_v2 online
                 = (run.1.1, run.1.2, Ok built_iris))
    by (vm_compute; reflexivity).
  exact (missing_folder_is_downloaded iris iris_v2 "cache" online
           run.1.1 run.1.2 built_iris eq_refl eq_refl Hrun).
Defined.

Lemma sim_store_stays_unreachable :
  closed (W:=Sim) (fun w => sim_download w = Raise unreachable).
Proof.
  intros A c w Hgood. destruct c; simpl; try done. by rewrite Hgood.
Qed.

Lemma failed_download_runs_nothing_witness :
  let run := _setup_model "cache/r2" "cache/r2/model" (mv_source iris_v2)
                          offline in
  (exists e, run.2 = Raise e) /\ processes run.1.2 = [].
Proof.
  intros run.
  apply (failed_download_runs_nothing
           (fun w => sim_download w = Raise unreachable)
           sim_store_stays_unreachable
           "cache/r2" "cache/r2/model" (mv_source iris_v2)
           offline run.1.1 run.1.2 run.2).
  - reflexivity.
  - intros w Hgood. exists unreachable. simpl. by rewrite Hgood.
  - by destruct (_setup_model "cache/r2" "cache/r2/model" (mv_source iris_v2)
                              offline) as [[st' tr] r].
Defined.

Lemma failed_setup_leaves_log_open_witness :
  let run := _setup_model "cache/r2" "cache/r2/model" (mv_source iris_v2)
                          offline in
  (exists opened rest,
     run.1.2 = Called (open_append "cache/r2/model_setup_log.txt") opened :: rest)
  /\ Forall (fun ev => closes_file ev = false) run.1.2.
Proof.
  intros run.
  assert (Hrun : _setup_model "cache/r2" "cache/r2/model" (mv_source iris_v2)
                              offline
                 = (run.1.1, run.1.2, Raise unreachable))
    by (vm_compute; reflexivity).
  exact (failed_setup_leaves_log_open "cache/r2" "cache/r2/model"
           (mv_source iris_v2) offline run.1.1 run.1.2 (Raise unreachable)
           Hrun).
Defined.

Lemma sim_start_answers :
  answered (W:=Sim) start_call (fun _ => True).
Proof.
  intros A c w Hstart _.
  destruct c; try discriminate Hstart; simpl; by eexists _, _.
Qed.

Lemma start_server_ignores_failed_start_witness :
  exists st' tr,
    _start_server "cache/r2" "cache/r2/model" 50000 online = (st', tr, Ok tt)
    /\ server st' = server online
    /\ exists input answer, Called (communicate input 15) answer ∈ tr.
Proof.
  apply (start_server_ignores_failed_start (fun _ => True) closed_True
           sim_start_answers "cache/r2" "cache/r2/model" 50000 online).
  exact I.
Defined.

(** ** The generated schema classes *)

Section SchemaClasses.

Context {W : Type} `{!OS W}.

Lemma example_namespace_keys (skip_unnamed : bool) (examples : gmap string pyval)
    (els : Schema) (acc ns : gmap string pyval) (name : string) :
  example_namespace skip_unnamed examples els acc = Ok ns ->
  is_Some (ns !! name)
  <-> is_Some (acc !! name) \/ exists el, el ∈ els /\ el_name el = Some name.
Proof.
  revert acc. induction els as [|el rest IH]; intros acc Hns.
  - injection Hns as <-. split; [by left|].
    intros [Hacc|(el & Hel & _)]; [done|]. by apply elem_of_nil in Hel.
  - simpl in Hns. destruct (el_name el) as [n|] eqn:Hname.
    + destruct (match examples !! n with
                | Some v => Ok v
                | None => get_example_el el
                end) as [v|e]; [|done].
      simpl in Hns. rewrite (IH _ Hns).
      destruct (decide (n = name)) as [->|Hne].
      * rewrite lookup_insert_eq. split; [|by left].
        intros _. right. exists el. split; [by left|done].
      * rewrite lookup_insert_ne by done.
        split; (intros [Hacc|(el' & Hel & Hn)]; [by left|]).
        -- right. exists el'. split; [by right|done].
        -- apply elem_of_cons in Hel as [->|Hel]; [congruence|].
           right. by exists el'.
    + destruct skip_unnamed; [|done]. rewrite (IH _ Hns).
      split; (intros [Hacc|(el' & Hel & Hn)]; [by left|]).
      * right. exists el'. split; [by right|done].
      * apply elem_of_cons in Hel as [->|Hel]; [congruence|].
        right. by exists el'.
Qed.

Lemma example_namespace_bundled (skip_unnamed : bool)
    (examples : gmap string pyval) (els : Schema) (acc ns : gmap string pyval)
    (name : string) (v : pyval) :
  example_namespace skip_unnamed examples els acc = Ok ns ->
  examples !! name = Some v ->
  acc !! name = Some v \/ (exists el, el ∈ els /\ el_name el = Some name) ->
  ns !! name = Some v.
Proof.
  intros Hns Hexample. revert acc Hns.
  induction els as [|el rest IH]; intros acc Hns Hfrom.
  - injection Hns as <-. destruct Hfrom as [Hacc|(el & Hel & _)]; [done|].
    by apply elem_of_nil in Hel.
  - simpl in Hns. destruct (el_name el) as [n|] eqn:Hname.
    + destruct (decide (n = name)) as [->|Hne].
      * rewrite Hexample in Hns. simpl in Hns.
        apply (IH _ Hns). left. by rewrite lookup_insert_eq.
      * destruct (match examples !! n with
                  | Some v => Ok v
                  | None => get_example_el el
                  end) as [v'|e]; [|done].
        simpl in Hns. apply (IH _ Hns).
        rewrite lookup_insert_ne by done.
        destruct Hfrom as [Hacc|(el' & Hel & Hn)]; [by left|].
        apply elem_of_cons in Hel as [->|Hel]; [congruence|].
        right. by exists el'.
    + destruct skip_unnamed; [|done]. apply (IH _ Hns).
      destruct Hfrom as [Hacc|(el' & Hel & Hn)]; [by left|].
      apply elem_of_cons in Hel as [->|Hel]; [congruence|].
      right. by exists el'.
Qed.

Lemma example_namespace_named (examples : gmap string pyval) (els : Schema)
    (acc ns : gmap string pyval) :
  example_namespace false examples els acc = Ok ns ->
  Forall (fun el => is_Some (el_name el)) els.
Proof.
  revert acc. induction els as [|el rest IH]; intros acc Hns; [done|].
  simpl in Hns. destruct (el_name el) as [n|] eqn:Hname; [|done].
  destruct (match examples !! n with
            | Some v => Ok v
            | None => get_example_el el
            end) as [v|e]; [|done].
  simpl in Hns. constructor; [by rewrite Hname|by apply (IH _ Hns)].
Qed.

Lemma example_namespace_synthesized (skip_unnamed : bool)
    (examples : gmap string pyval) (els : Schema) (acc ns : gmap string pyval)
    (el : SchemaField) (name : string) :
  example_namespace skip_unnamed examples els acc = Ok ns ->
  el ∈ els -> el_name el = Some name -> examples !! name = None ->
  exists v, get_example_el el = Ok v.
Proof.
  revert acc. induction els as [|el' rest IH]; intros acc Hns Hel Hname Hnone.
  - by apply elem_of_nil in Hel.
  - simpl in Hns. apply elem_of_cons in Hel as [<-|Hel].
    + rewrite Hname, Hnone in Hns.
      destruct (get_example_el el) as [v|e]; [by exists v|done].
    + destruct (el_name el') as [n|].
      * destruct (match examples !! n with
                  | Some v => Ok v
                  | None => get_example_el el'
                  end) as [v|e]; [|done].
        simpl in Hns. by apply (IH _ Hns).
      * destruct skip_unnamed; [|done]. by apply (IH _ Hns).
Qed.

Lemma get_nested_Ok_dtype (dtype : string) (shape : list Z) (v : pyval) :
  get_nested dtype shape = Ok v -> is_Some (dtype_sample !! dtype).
Proof.
  revert v. induction shape as [|d rest IH]; intros v Hv; [done|].
  destruct rest as [|d' rest].
  - simpl in Hv. by destruct (dtype_sample !! dtype).
  - change (result_bind (get_nested dtype (d' :: rest))
              (fun inner => Ok (py_repeat inner (Z.max 1 d))) = Ok v) in Hv.
    destruct (get_nested dtype (d' :: rest)) as [inner|e]; [|done].
    by apply (IH inner).
Qed.

(** X22: the attributes of the two generated schema classes.  The input
    class has one attribute for each named input of the schema and none
    for the unnamed ones; the output class has one for each element of
    the output schema; an attribute of the input class whose name has a
    bundled example carries that example and not a synthesized one. *)
Theorem schema_class_fields (h self : BaseHandler) (st st' : State W)
    (tr : list Event) :
  update_schema_classes h st = (st', tr, Ok self) ->
  exists input_ns output_ns,
    h_input_schema_class self = Some input_ns
    /\ h_output_schema_class self = Some output_ns
    /\ (forall name,
          is_Some (input_ns !! name)
          <-> exists el, el ∈ h_input_schema h /\ el_name el = Some name)
    /\ (forall name,
          is_Some (output_ns !! name)
          <-> exists el, el ∈ h_output_schema h /\ el_name el = Some name)
    /\ (forall name v,
          h_input_example_data h !! name = Some v ->
          is_Some (input_ns !! name) -> input_ns !! name = Some v).
Proof.
  intros Hrun.
  destruct (update_schema_classes_Ok _ _ _ _ _ Hrun)
    as (input_ns & output_examples & output_ns & Hinput & Houtput & ->).
  exists input_ns, output_ns. split; [done|]. split; [done|].
  assert (Hkeys : forall skip_unnamed examples els ns name,
             example_namespace skip_unnamed examples els ∅ = Ok ns ->
             is_Some (ns !! name)
             <-> exists el, el ∈ els /\ el_name el = Some name).
  { intros skip_unnamed examples els ns name Hns.
    rewrite (example_namespace_keys _ _ _ _ _ name Hns).
    rewrite lookup_empty. split; [|by right].
    intros [[? [=]]|Hel]; done. }
  split; [intros name; by apply (Hkeys true _ _ _ _ Hinput)|].
  split; [intros name; by apply (Hkeys false _ _ _ _ Houtput)|].
  intros name v Hexample Hin.
  apply (example_namespace_bundled _ _ _ _ _ _ _ Hinput Hexample).
  right. by apply (Hkeys true _ _ _ _ Hinput).
Qed.

(** X23: an output schema with an element that has no name makes
    [update_schema_classes] raise: the attributes of the output class
    are taken by [el["name"]] without the [if "name" in el] filter of
    the input class. *)
Theorem unnamed_output_field_fails (h : BaseHandler) (el : SchemaField)
    (st : State W) :
  el ∈ h_output_schema h -> el_name el = None ->
  exists e, (update_schema_classes h st).2 = Raise e.
Proof.
  intros Hel Hname.
  destruct (update_schema_classes h st) as [[st' tr] [self|e]] eqn:Hrun;
    [|by exists e].
  destruct (update_schema_classes_Ok _ _ _ _ _ Hrun)
    as (input_ns & output_examples & output_ns & _ & Houtput & _).
  apply example_namespace_named in Houtput.
  rewrite Forall_forall in Houtput. specialize (Houtput el Hel).
  rewrite Hname in Houtput. by destruct Houtput.
Qed.

(** X24: a named tensor input whose dtype is not in the sample table
    needs a bundled example: without one no example can be synthesized
    for it and [update_schema_classes] raises. *)
Theorem unsupported_dtype_needs_example (h : BaseHandler) (el : SchemaField)
    (name : string) (spec : TensorSpec) (st : State W) :
  el ∈ h_input_schema h ->
  el_name el = Some name -> el_type el = "tensor" ->
  el_tensor_spec el = Some spec ->
  dtype_sample !! ts_dtype spec = None ->
  h_input_example_data h !! name = None ->
  exists e, (update_schema_classes h st).2 = Raise e.
Proof.
  intros Hel Hname Htype Hspec Hdtype Hnone.
  destruct (update_schema_classes h st) as [[st' tr] [self|e]] eqn:Hrun;
    [|by exists e].
  destruct (update_schema_classes_Ok _ _ _ _ _ Hrun)
    as (input_ns & output_examples & output_ns & Hinput & _ & _).
  destruct (example_namespace_synthesized _ _ _ _ _ _ _ Hinput Hel Hname Hnone)
    as [v Hv].
  unfold get_example_el in Hv. rewrite Htype, Hspec in Hv. simpl in Hv.
  apply get_nested_Ok_dtype in Hv. rewrite Hdtype in Hv. by destruct Hv.
Qed.

End SchemaClasses.

Lemma schema_class_fields_witness :
  let h := raw_handler iris_schema (provenance_fields (W:=Sim)) ∅ in
  let run := update_schema_classes h online in
  exists self input_ns output_ns,
    run.2 = Ok self
    /\ h_input_schema_class self = Some input_ns
    /\ h_output_schema_class self = Some output_ns
    /\ (forall name,
          is_Some (input_ns !! name)
          <-> exists el, el ∈ h_input_schema h /\ el_name el = Some name)
    /\ (forall name,
          is_Some (output_ns !! name)
          <-> exists el, el ∈ h_output_schema h /\ el_name el = Some name)
    /\ (forall name v,
          h_input_example_data h !! name = Some v ->
          is_Some (input_ns !! name) -> input_ns !! name = Some v).
Proof.
  intros h run.
  destruct run as [[st' tr] [self|e]] eqn:Hrun; [|by vm_compute in Hrun].
  destruct (schema_class_fields h self online st' tr Hrun)
    as (input_ns & output_ns & Hfields).
  by exists self, input_ns, output_ns.
Defined.

Lemma unnamed_output_field_fails_witness :
  exists e,
    (update_schema_classes (raw_handler iris_schema unnamed_output_schema ∅)
                           online).2 = Raise e.
Proof.
  apply (unnamed_output_field_fails
           (raw_handler iris_schema unnamed_output_schema ∅)
           (mkSchemaField None "tensor" (Some (mkTensorSpec "float64" [-1; 3])))
           online).
  - by left.
  - reflexivity.
Defined.

Lemma unsupported_dtype_needs_example_witness :
  exists e,
    (update_schema_classes
       (raw_handler flag_schema (provenance_fields (W:=Sim)) ∅) online).2
    = Raise e.
Proof.
  apply (unsupported_dtype_needs_example
           (raw_handler flag_schema (provenance_fields (W:=Sim)) ∅)
           (mkSchemaField (Some "flag") "tensor" (Some (mkTensorSpec "bool" [-1])))
           "flag" (mkTensorSpec "bool" [-1]) online).
  - by left.
  - reflexivity.
  - reflexivity.
  - reflexivity.
  - vm_compute. reflexivity.
  - reflexivity.
Defined.

(** ** The requirements that provisioning installs *)

Section Requirements.

Context {W : Type} `{!OS W}.

(** X25: the requirements that a provisioning which returns has handed
    to [pip install] are the lines of the model's requirements file, or
    mlflow's default requirements when there is no such file, without
    every line that contains the folder name of a bundled package as a
    substring, each stripped of its trailing newlines, in their order. *)
Theorem setup_model_installs_filtered_requirements
    (work_folder model_folder source : string) (st st' : State W)
    (tr : list Event) (u : unit) :
  let req_file := path_join model_folder "requirements.txt" in
  _setup_model work_folder model_folder source st = (st', tr, Ok u) ->
  exists (has_req_file : bool) (raw lib_folders : list string) (status : Z),
    Called (path_exists req_file) (Ok has_req_file) ∈ tr
    /\ Called (if has_req_file then readlines req_file
               else get_default_pip_requirements) (Ok raw) ∈ tr
    /\ Called (glob (path_join model_folder "code/*")) (Ok lib_folders) ∈ tr
    /\ Called (subprocess_run
                 (path_join model_folder "./env/Scripts/pip" :: "install"
                  :: map (rstrip is_newline)
                       (List.filter
                          (fun line =>
                             forallb (fun lib_folder =>
                                        negb (str_contains
                                                (path_basename lib_folder) line))
                                     lib_folders)
                          raw))
                 model_folder) (Ok status) ∈ tr.
Proof.
  intros req_file. unfold _setup_model. cbv zeta. fold req_file. intros Hrun.
  bind_returned Hrun u1 st1 Hopen.
  bind_returned Hrun u2 st2 Hwrite1.
  bind_returned Hrun u3 st3 Hflush1.
  bind_returned Hrun u4 st4 Hdownload.
  bind_returned Hrun u5 st5 Hwrite2.
  bind_returned Hrun u6 st6 Hflush2.
  bind_returned Hrun result_env st7 Henv.
  bind_returned Hrun u7 st8 Hflush3.
  bind_returned Hrun has_req_file st9 Hexists.
  bind_returned Hrun raw st10 Hreq.
  bind_returned Hrun lib_folders st11 Hglob.
  bind_returned Hrun u8 st12 Hwrite3.
  bind_returned Hrun u9 st13 Hlines.
  bind_returned Hrun u10 st14 Hflush4.
  bind_returned Hrun result_pip st15 Hpip.
  rewrite fold_left_filter in Hpip.
  apply call_inv in Hexists as (-> & _ & _).
  apply call_inv in Hglob as (-> & _ & _).
  apply call_inv in Hpip as (-> & _ & _).
  assert (Hraw : t8 = [Called (if has_req_file then readlines req_file
                               else get_default_pip_requirements) (Ok raw)]).
  { destruct has_req_file; by apply call_inv in Hreq as (-> & _ & _). }
  subst t8.
  exists has_req_file, raw, lib_folders, result_pip.
  repeat split; set_solver.
Qed.

End Requirements.

Lemma setup_model_installs_filtered_requirements_witness :
  let run := _setup_model "cache/r2" "cache/r2/model" (mv_source iris_v2)
                          online in
  exists (has_req_file : bool) (raw lib_folders : list string) (status : Z),
    Called (path_exists "cache/r2/model/requirements.txt") (Ok has_req_file)
    ∈ run.1.2
    /\ Called (if has_req_file then readlines "cache/r2/model/requirements.txt"
               else get_default_pip_requirements) (Ok raw) ∈ run.1.2
    /\ Called (glob "cache/r2/model/code/*") (Ok lib_folders) ∈ run.1.2
    /\ Called (subprocess_run
                 ("cache/r2/model/./env/Scripts/pip" :: "install"
                  :: map (rstrip is_newline)
                       (List.filter
                          (fun line =>
                             forallb (fun lib_folder =>
                                        negb (str_contains
                                                (last_segment "" lib_folder) line))
                                     lib_folders)
                          raw))
                 "cache/r2/model") (Ok status) ∈ run.1.2.
Proof.
  intros run.
  assert (Hrun : _setup_model "cache/r2" "cache/r2/model" (mv_source iris_v2)
                              online
                 = (run.1.1, run.1.2, Ok tt))
    by (vm_compute; reflexivity).
  exact (setup_model_installs_filtered_requirements "cache/r2" "cache/r2/model"
           (mv_source iris_v2) online run.1.1 run.1.2 tt Hrun).
Defined.
